(** * ipwatcher: the DNS reconciliation engine and the IP polling loop

    A shallow embedding of the Go packages [internal/dnsmanager],
    [internal/ipfetcher] and [cmd/ipwatcher] (package main), followed by
    the properties of the reconciliation engine, the zone resolver, the
    IP monitor and the scheduler.

    Go strings are byte strings and are modelled by [string]; a Go
    [(value, error)] result is modelled by a pair whose second component
    is [None] for a nil error; Go maps with string keys are [gmap string];
    calls to the collaborators (the DNS provider client, the HTTP client,
    the logger) are recorded in a trace carried by a state monad. *)

From stdpp Require Import base option list gmap strings pretty.
From Stdlib Require Import ZArith Ascii.

Set Warnings "-clear-no-such-hyp".


(** ** Go errors *)

(** An error value is either handed back by a collaborator ([External]),
    made by [fmt.Errorf] from a format without [%w] ([Errorf]), or made
    by [fmt.Errorf] from a format ending in [: %w] ([Wrap], holding the
    text before the wrapped error). *)
Inductive error : Type :=
| External (msg : string)
| Errorf (msg : string)
| Wrap (prefix : string) (inner : error).

Fixpoint Error (e : error) : string :=
  match e with
  | External msg => msg
  | Errorf msg => msg
  | Wrap prefix inner => prefix +:+ Error inner
  end.

Global Instance error_eq_dec : EqDecision error.
Proof. solve_decision. Defined.

(** ** Go panics *)

(** The two panics the program can run into: a ticker asked for a
    period that is not positive ([time.NewTicker] and [Ticker.Reset]
    panic when [d <= 0]), and a field read through a nil pointer. *)
Inductive Panic : Type :=
| NonPositiveInterval
| NilPointerDereference.

(** How a call of a function that may panic ends: it returns, or it
    panics; nothing in the program recovers, so a panic ends every
    caller too. *)
Inductive Outcome (A : Type) : Type :=
| Returned (a : A)
| Panicked (p : Panic).
Arguments Returned {A} a.
Arguments Panicked {A} p.

(** ** The provider SDK types the program touches *)

Module zones.
(** [zones.Zone]: only the fields read by the program. *)
Record Zone : Type := { ID : string; Name : string }.

(** [zones.ZoneListParams{Name: ...}]: the exact-name filter. *)
Record ZoneListParams : Type := { NameFilter : string }.
End zones.

Module dns.
(** [dns.RecordResponseType] is a string type in the SDK. *)
Definition RecordResponseTypeA : string := "A".
Definition RecordResponseTypeAAAA : string := "AAAA".

(** [dns.RecordResponse]: only the fields read by the program. *)
Record RecordResponse : Type := {
  ID : string;
  Name : string;
  Type_ : string;          (* the field [Type] *)
  Content : string;
  Proxied : bool
}.

Record RecordListParams : Type := { ListZoneID : string }.
Record RecordDeleteParams : Type := { DeleteZoneID : string }.

(** [dns.TTL1]: automatic TTL. *)
Definition TTL1 : Z := 1%Z.

(** The body shared by [dns.ARecordParam] and [dns.AAAARecordParam];
    their [Type] field is fixed by the struct, here by the constructor
    of the union that holds them. *)
Record HostRecordParam : Type := {
  ParamName : string;
  ParamContent : string;
  ParamProxied : bool;
  ParamTTL : Z
}.

(** [dns.RecordBatchParamsPostUnion], restricted to the two members
    the program builds. *)
Inductive RecordBatchParamsPostUnion : Type :=
| ARecordParam (p : HostRecordParam)
| AAAARecordParam (p : HostRecordParam).

(** [dns.BatchPutUnionParam], likewise. *)
Inductive BatchPutUnionParam : Type :=
| BatchPutARecordParam (ID : string) (p : HostRecordParam)
| BatchPutAAAARecordParam (ID : string) (p : HostRecordParam).

(** [dns.RecordBatchParams]: [Posts] and [Puts] are optional fields,
    left unset unless the program assigns them. *)
Record RecordBatchParams : Type := {
  ZoneID : string;
  Posts : option (list RecordBatchParamsPostUnion);
  Puts : option (list BatchPutUnionParam)
}.

(** The record type a batch entry is sent under. *)
Definition PostType (p : RecordBatchParamsPostUnion) : string :=
  match p with ARecordParam _ => "A" | AAAARecordParam _ => "AAAA" end.

Definition PutType (p : BatchPutUnionParam) : string :=
  match p with
  | BatchPutARecordParam _ _ => "A"
  | BatchPutAAAARecordParam _ _ => "AAAA"
  end.

Definition PutID (p : BatchPutUnionParam) : string :=
  match p with
  | BatchPutARecordParam ID _ => ID
  | BatchPutAAAARecordParam ID _ => ID
  end.
End dns.

Module cloudflare.
(** What the program calls on the SDK's [*cloudflare.Client]. [St] is
    the state of the provider. [Zones_List] hands back a page pointer,
    nil ([None]) or a page with its [Result]; [DNS_Records_ListAutoPaging]
    stands for a whole walk of the cursor it returns: the records
    [cur.Current()] yields while [cur.Next()] holds, and then
    [cur.Err()]. The responses of [DNS_Records_Batch] and
    [DNS_Records_Delete] are dropped by every caller. *)
Class Client (St : Type) : Type := {
  Zones_List : zones.ZoneListParams → St → (option (list zones.Zone) * option error) * St;
  DNS_Records_ListAutoPaging :
    dns.RecordListParams → St → (list dns.RecordResponse * option error) * St;
  DNS_Records_Batch : dns.RecordBatchParams → St → option error * St;
  DNS_Records_Delete : string → dns.RecordDeleteParams → St → option error * St
}.
End cloudflare.

(** ** Everything the program does to the outside, in order *)

(** The log lines of the program, one constructor per [log.Printf] or
    [log.Println] site, holding the values that are formatted into it. *)
Inductive LogLine : Type :=
| LogNoRecords                                   (* "No DNS records to create or update" *)
| LogStarting                                    (* "Starting IP Watcher daemon..." *)
| LogInitialFetchFailed (err : error)            (* "Warning: Initial IP fetch failed: %v" *)
| LogIntervals                                   (* the two interval lines of Run *)
| LogShuttingDown                                (* "Shutting down IP Watcher daemon..." *)
| LogCheckError (err : error)                    (* "Error checking IP: %v" *)
| LogVerifyError (err : error)                   (* "Error verifying DNS records: %v" *)
| LogFetchIPv4Failed (err : error)               (* "Failed to fetch IPv4: %v" *)
| LogFetchIPv6Failed (err : error)               (* "Failed to fetch IPv6: %v" *)
| LogCurrentIPv4 (ip : string)                   (* "Current IPv4: %s" *)
| LogCurrentIPv6 (ip : string)                   (* "Current IPv6: %s" *)
| LogIPv4Changed (old new : string)              (* "IPv4 changed: %s -> %s" *)
| LogIPv6Changed (old new : string)              (* "IPv6 changed: %s -> %s" *)
| LogZoneIDFailed (zoneName : string) (err : error)   (* "Failed to get zone ID for %s: %v" *)
| LogEnsureFailed (zoneName : string) (err : error)   (* "Failed to ensure DNS records for %s: %v" *)
| LogUpdated (zoneName : string)                      (* "DNS records for %s updated successfully" *)
| LogVerifying                                        (* "Verifying DNS records..." *)
| LogVerifyFailed (zoneName : string) (err : error)   (* "Failed to verify/update DNS records for %s: %v" *)
| LogUpToDate (zoneName : string).                    (* "DNS records for %s are up-to-date" *)

Inductive Event : Type :=
| CallListZones (params : zones.ZoneListParams)
| CallListDNSRecords (params : dns.RecordListParams)
| CallBatchDNSRecords (params : dns.RecordBatchParams)
| CallDeleteDNSRecord (recordID : string) (params : dns.RecordDeleteParams)
| CallHTTPGet (url : string)
| Log (line : LogLine).

(** ** A monad for code that talks to the outside *)

(** A computation runs on a state [S], returns a value and the next
    state, and emits the events it caused, oldest first. *)
Definition M (S A : Type) : Type := S → A * S * list Event.

Definition ret {S A} (a : A) : M S A := λ s, (a, s, []).

Definition bind {S A B} (m : M S A) (k : A → M S B) : M S B :=
  λ s, let '(a, s1, t1) := m s in
       let '(b, s2, t2) := k a s1 in
       (b, s2, t1 ++ t2).

Declare Scope go_scope.
Delimit Scope go_scope with go.
Notation "'let*' x ':=' m 'in' k" := (bind m (λ x, k))
  (at level 10, x pattern, m at level 100, k at level 200) : go_scope.
Notation "m ';;' k" := (bind m (λ _, k))
  (at level 100, k at level 200, right associativity) : go_scope.
Local Open Scope go_scope.

Definition emit {S} (e : Event) : M S unit := λ s, (tt, s, [e]).

Definition logPrint {S} (line : LogLine) : M S unit := emit (Log line).

(** Run one operation of a collaborator on the outside state. *)
Definition perform {S A} (op : S → A * S) : M S A :=
  λ s, let '(a, s') := op s in (a, s', []).

(** The three components of a finished run. *)
Definition value {S A} (r : A * S * list Event) : A := r.1.1.
Definition final {S A} (r : A * S * list Event) : S := r.1.2.
Definition events {S A} (r : A * S * list Event) : list Event := r.2.

(** A finished run without its value: what it did and where it
    left the state. *)
Definition effect {S A} (r : A * S * list Event) : unit * S * list Event :=
  (tt, final r, events r).

(** ** Package dnsmanager *)

Module dnsmanager.

(** The [CloudflareClient] interface. [St] is the state of whatever
    stands behind it (the provider, or a test double); every method
    may change it. The context argument is left out: a cancelled
    context shows up as an error returned by the method. The responses
    of [BatchDNSRecords] and [DeleteDNSRecord] are dropped by every
    caller, so only their errors are kept. *)
Class CloudflareClient (St : Type) : Type := {
  ListZones : zones.ZoneListParams → St → (list zones.Zone * option error) * St;
  ListDNSRecords : dns.RecordListParams → St → (list dns.RecordResponse * option error) * St;
  BatchDNSRecords : dns.RecordBatchParams → St → option error * St;
  DeleteDNSRecord : string → dns.RecordDeleteParams → St → option error * St
}.

(** [type DNSRecordType string] with its two constants. *)
Definition DNSRecordType : Type := string.
Definition ARecord : DNSRecordType := "A".
Definition AAAARecord : DNSRecordType := "AAAA".

(** [func (r DNSRecordType) String() string] *)
Definition String (r : DNSRecordType) : string := r.

(** [type DNSRecord struct] *)
Record DNSRecord : Type := {
  Root : string;
  Name : string;
  Type_ : DNSRecordType;     (* the field [Type] *)
  Proxied : bool
}.

(** [type UpdateDNSRecord struct]: an ID and an embedded [DNSRecord]. *)
Record UpdateDNSRecord : Type := {
  ID : string;
  Embedded : DNSRecord
}.

Global Instance DNSRecord_eq_dec : EqDecision DNSRecord.
Proof. solve_decision. Defined.

Global Instance UpdateDNSRecord_eq_dec : EqDecision UpdateDNSRecord.
Proof. solve_decision. Defined.

Definition toDNSARecord (record : DNSRecord) (ipv4 : string) : dns.HostRecordParam :=
  {| dns.ParamName := Name record;
     dns.ParamContent := ipv4;
     dns.ParamProxied := Proxied record;
     dns.ParamTTL := dns.TTL1 |}.

Definition toDNSAAAARecord (record : DNSRecord) (ipv6 : string) : dns.HostRecordParam :=
  {| dns.ParamName := Name record;
     dns.ParamContent := ipv6;
     dns.ParamProxied := Proxied record;
     dns.ParamTTL := dns.TTL1 |}.

(** The body of the loop of [prepareBatchCreate]: a [switch] with two
    cases and no default. *)
Definition prepareBatchCreate_step (ipv4 ipv6 : string)
    (newRecords : list dns.RecordBatchParamsPostUnion) (record : DNSRecord)
    : list dns.RecordBatchParamsPostUnion :=
  if bool_decide (Type_ record = ARecord) then
    newRecords ++ [dns.ARecordParam (toDNSARecord record ipv4)]
  else if bool_decide (Type_ record = AAAARecord) then
    newRecords ++ [dns.AAAARecordParam (toDNSAAAARecord record ipv6)]
  else newRecords.

Definition prepareBatchCreate (records : list DNSRecord) (ipv4 ipv6 : string)
    : list dns.RecordBatchParamsPostUnion :=
  fold_left (prepareBatchCreate_step ipv4 ipv6) records [].

Definition prepareBatchUpdate_step (ipv4 ipv6 : string)
    (updateRecords : list dns.BatchPutUnionParam) (record : UpdateDNSRecord)
    : list dns.BatchPutUnionParam :=
  if bool_decide (Type_ (Embedded record) = ARecord) then
    updateRecords ++ [dns.BatchPutARecordParam (ID record) (toDNSARecord (Embedded record) ipv4)]
  else if bool_decide (Type_ (Embedded record) = AAAARecord) then
    updateRecords ++ [dns.BatchPutAAAARecordParam (ID record) (toDNSAAAARecord (Embedded record) ipv6)]
  else updateRecords.

Definition prepareBatchUpdate (records : list UpdateDNSRecord) (ipv4 ipv6 : string)
    : list dns.BatchPutUnionParam :=
  fold_left (prepareBatchUpdate_step ipv4 ipv6) records [].

Definition prepareRecordKey (record : DNSRecord) : string :=
  let name := Root record in
  let name := if bool_decide (Name record ≠ "@")
              then Name record +:+ "." +:+ Root record
              else name in
  name +:+ "|" +:+ String (Type_ record).

(** The key under which [EnsureDNSRecords] files an existing record. *)
Definition existingKey (rec : dns.RecordResponse) : string :=
  dns.Name rec +:+ "|" +:+ dns.Type_ rec.

(** The test both [ListDNSRecords] of the real client and
    [EnsureDNSRecords] apply to an existing record. *)
Definition isHostRecord (rec : dns.RecordResponse) : bool :=
  bool_decide (dns.Type_ rec = dns.RecordResponseTypeA
               ∨ dns.Type_ rec = dns.RecordResponseTypeAAAA).

(** The body of the first loop of [EnsureDNSRecords]. *)
Definition fileRecord (m : gmap string dns.RecordResponse) (rec : dns.RecordResponse)
    : gmap string dns.RecordResponse :=
  if isHostRecord rec then <[existingKey rec := rec]> m else m.

(** The first loop of [EnsureDNSRecords]: a later record with the same
    key overwrites an earlier one. *)
Definition existingRecordMap (existingRecords : list dns.RecordResponse)
    : gmap string dns.RecordResponse :=
  fold_left fileRecord existingRecords ∅.

(** [expectedContent] of the second loop: a [switch] with two cases
    and no default over a variable that starts as the empty string. *)
Definition expectedContent (record : DNSRecord) (ipv4 ipv6 : string) : string :=
  if bool_decide (Type_ record = ARecord) then ipv4
  else if bool_decide (Type_ record = AAAARecord) then ipv6
  else "".

(** The two [continue] tests that open the body of the second loop. *)
Definition skipped (record : DNSRecord) (ipv4 ipv6 : string) : bool :=
  bool_decide (Type_ record = ARecord ∧ ipv4 = "")
  || bool_decide (Type_ record = AAAARecord ∧ ipv6 = "").

(** The body of the second loop, on the pair
    [(recordsToCreate, recordsToUpdate)]. *)
Definition ensure_step (existing : gmap string dns.RecordResponse) (ipv4 ipv6 : string)
    (acc : list DNSRecord * list UpdateDNSRecord) (record : DNSRecord)
    : list DNSRecord * list UpdateDNSRecord :=
  let '(recordsToCreate, recordsToUpdate) := acc in
  if skipped record ipv4 ipv6 then acc
  else
    let key := prepareRecordKey record in
    match existing !! key with
    | None => (recordsToCreate ++ [record], recordsToUpdate)
    | Some existingRec =>
        if bool_decide (dns.Content existingRec ≠ expectedContent record ipv4 ipv6
                        ∨ dns.Proxied existingRec ≠ Proxied record)
        then (recordsToCreate,
              recordsToUpdate ++ [{| ID := dns.ID existingRec; Embedded := record |}])
        else acc
    end.

(** Both loops of [EnsureDNSRecords]: from the provider's records and
    the desired ones to [(recordsToCreate, recordsToUpdate)]. *)
Definition plan (existingRecords : list dns.RecordResponse)
    (records : list DNSRecord) (ipv4 ipv6 : string)
    : list DNSRecord * list UpdateDNSRecord :=
  fold_left (ensure_step (existingRecordMap existingRecords) ipv4 ipv6) records ([], []).

(** The request built at the end of [EnsureDNSRecords]. *)
Definition batchRequest (zoneID : string) (recordsToCreate : list DNSRecord)
    (recordsToUpdate : list UpdateDNSRecord) (ipv4 ipv6 : string)
    : dns.RecordBatchParams :=
  {| dns.ZoneID := zoneID;
     dns.Posts := if bool_decide (0 < length recordsToCreate)%nat
                  then Some (prepareBatchCreate recordsToCreate ipv4 ipv6)
                  else None;
     dns.Puts := if bool_decide (0 < length recordsToUpdate)%nat
                 then Some (prepareBatchUpdate recordsToUpdate ipv4 ipv6)
                 else None |}.

Section methods.
Context {St : Type} `{client : !CloudflareClient St}.

(** A call through [m.client], recorded in the trace. *)
Definition callListZones (params : zones.ZoneListParams)
    : M St (list zones.Zone * option error) :=
  emit (CallListZones params) ;; perform (ListZones params).

Definition callListDNSRecords (params : dns.RecordListParams)
    : M St (list dns.RecordResponse * option error) :=
  emit (CallListDNSRecords params) ;; perform (ListDNSRecords params).

Definition callBatchDNSRecords (params : dns.RecordBatchParams)
    : M St (option error) :=
  emit (CallBatchDNSRecords params) ;; perform (BatchDNSRecords params).

Definition callDeleteDNSRecord (recordID : string) (params : dns.RecordDeleteParams)
    : M St (option error) :=
  emit (CallDeleteDNSRecord recordID params) ;; perform (DeleteDNSRecord recordID params).

(** [GetZoneIDByName]: [len(zones) == 0] and [zones[0]] are the two
    branches of the match on the list. *)
Definition GetZoneIDByName (zoneName : string) : M St (string * option error) :=
  let* (zs, err) := callListZones {| zones.NameFilter := zoneName |} in
  match err with
  | Some e => ret ("", Some (Wrap "failed to list zones: " e))
  | None =>
      match zs with
      | [] => ret ("", Some (Errorf ("zone " +:+ zoneName +:+ " not found")))
      | z :: _ => ret (zones.ID z, None)
      end
  end.

Definition GetDNSRecords (zoneID : string)
    : M St (list dns.RecordResponse * option error) :=
  let* (records, err) := callListDNSRecords {| dns.ListZoneID := zoneID |} in
  match err with
  | Some e => ret ([], Some (Wrap "failed to list DNS records: " e))
  | None => ret (records, None)
  end.

Definition EnsureDNSRecords (zoneID : string) (records : list DNSRecord)
    (ipv4 ipv6 : string) : M St (option error) :=
  let* (existingRecords, err) := GetDNSRecords zoneID in
  match err with
  | Some e => ret (Some (Wrap "failed to get existing DNS records: " e))
  | None =>
      let '(recordsToCreate, recordsToUpdate) := plan existingRecords records ipv4 ipv6 in
      if bool_decide (length recordsToCreate = 0%nat ∧ length recordsToUpdate = 0%nat)
      then logPrint LogNoRecords ;; ret None
      else
        let batchReq := batchRequest zoneID recordsToCreate recordsToUpdate ipv4 ipv6 in
        let* err := callBatchDNSRecords batchReq in
        match err with
        | Some e => ret (Some (Wrap "failed to execute batch DNS record update: " e))
        | None => ret None
        end
  end.

Definition DeleteDNSRecord_ (zoneID recordID : string) : M St (option error) :=
  let* err := callDeleteDNSRecord recordID {| dns.DeleteZoneID := zoneID |} in
  match err with
  | Some e => ret (Some (Wrap ("failed to delete DNS record " +:+ recordID +:+ ": ") e))
  | None => ret None
  end.
End methods.

(** [MockCloudflareClient] of the package's tests: four optional
    functions, and the defaults the methods fall back to when a
    function is nil. It has no state. *)
Record MockCloudflareClient : Type := {
  ListZonesFunc : option (zones.ZoneListParams → list zones.Zone * option error);
  ListDNSRecordsFunc : option (dns.RecordListParams → list dns.RecordResponse * option error);
  BatchDNSRecordsFunc : option (dns.RecordBatchParams → option error);
  DeleteDNSRecordFunc : option (string → dns.RecordDeleteParams → option error)
}.

Definition mockClient (m : MockCloudflareClient) : CloudflareClient unit :=
  {| ListZones params st :=
       (match ListZonesFunc m with Some f => f params | None => ([], None) end, st);
     ListDNSRecords params st :=
       (match ListDNSRecordsFunc m with Some f => f params | None => ([], None) end, st);
     BatchDNSRecords params st :=
       (match BatchDNSRecordsFunc m with Some f => f params | None => None end, st);
     DeleteDNSRecord recordID params st :=
       (match DeleteDNSRecordFunc m with Some f => f recordID params | None => None end, st) |}.

(** The loop that walks the cursor, in [ListDNSRecords] of the real
    client and in [GetDNSRecords] of the package before the interface
    was introduced: the records of type A or AAAA, in the order
    yielded. *)
Definition collectHostRecords (yielded : list dns.RecordResponse)
    : list dns.RecordResponse :=
  fold_left (λ records rec, if isHostRecord rec then records ++ [rec] else records)
            yielded [].

(** [RealCloudflareClient]: the four methods that wrap the SDK's
    client. *)
Definition RealCloudflareClient {St : Type} `{sdk : !cloudflare.Client St}
    : CloudflareClient St :=
  {| ListZones params st :=
       let '((page, err), st1) := cloudflare.Zones_List params st in
       match err with
       | Some e => (([], Some e), st1)
       | None =>
           match page with
           | None => (([], None), st1)
           | Some result => ((result, None), st1)
           end
       end;
     ListDNSRecords params st :=
       let '((yielded, err), st1) := cloudflare.DNS_Records_ListAutoPaging params st in
       let records := collectHostRecords yielded in
       match err with
       | Some e => (([], Some e), st1)
       | None => ((records, None), st1)
       end;
     BatchDNSRecords params st := cloudflare.DNS_Records_Batch params st;
     DeleteDNSRecord recordID params st := cloudflare.DNS_Records_Delete recordID params st |}.

End dnsmanager.

(** ** Package dnsmanager, before the client interface *)

(** [internal/dnsmanager/dnsmanager.go]: the same package with the
    SDK's client called directly. Its types and its functions without
    a receiver are those of [dnsmanager]; the four methods differ. *)
Module dnsmanager_direct.
Import dnsmanager.

Section methods.
Context {St : Type} `{sdk : !cloudflare.Client St}.

Definition GetZoneIDByName (zoneName : string) : M St (string * option error) :=
  let* (page, err) :=
    (emit (CallListZones {| zones.NameFilter := zoneName |}) ;;
     perform (cloudflare.Zones_List {| zones.NameFilter := zoneName |})) in
  match err with
  | Some e => ret ("", Some (Wrap "failed to list zones: " e))
  | None =>
      match page with
      | None | Some [] =>
          ret ("", Some (Errorf ("zone " +:+ zoneName +:+ " not found")))
      | Some (z :: _) => ret (zones.ID z, None)
      end
  end.

Definition GetDNSRecords (zoneID : string)
    : M St (list dns.RecordResponse * option error) :=
  let* (yielded, err) :=
    (emit (CallListDNSRecords {| dns.ListZoneID := zoneID |}) ;;
     perform (cloudflare.DNS_Records_ListAutoPaging {| dns.ListZoneID := zoneID |})) in
  let records := collectHostRecords yielded in
  match err with
  | Some e => ret ([], Some (Wrap "failed to list DNS records: " e))
  | None => ret (records, None)
  end.

Definition EnsureDNSRecords (zoneID : string) (records : list DNSRecord)
    (ipv4 ipv6 : string) : M St (option error) :=
  let* (existingRecords, err) := GetDNSRecords zoneID in
  match err with
  | Some e => ret (Some (Wrap "failed to get existing DNS records: " e))
  | None =>
      let '(recordsToCreate, recordsToUpdate) := plan existingRecords records ipv4 ipv6 in
      if bool_decide (length recordsToCreate = 0%nat ∧ length recordsToUpdate = 0%nat)
      then logPrint LogNoRecords ;; ret None
      else
        let batchReq := batchRequest zoneID recordsToCreate recordsToUpdate ipv4 ipv6 in
        let* err := (emit (CallBatchDNSRecords batchReq) ;;
                     perform (cloudflare.DNS_Records_Batch batchReq)) in
        match err with
        | Some e => ret (Some (Wrap "failed to execute batch DNS record update: " e))
        | None => ret None
        end
  end.

Definition DeleteDNSRecord (zoneID recordID : string) : M St (option error) :=
  let* err :=
    (emit (CallDeleteDNSRecord recordID {| dns.DeleteZoneID := zoneID |}) ;;
     perform (cloudflare.DNS_Records_Delete recordID {| dns.DeleteZoneID := zoneID |})) in
  match err with
  | Some e => ret (Some (Wrap ("failed to delete DNS record " +:+ recordID +:+ ": ") e))
  | None => ret None
  end.
End methods.
End dnsmanager_direct.

(** ** The Go runtime the program relies on *)

Module http.
Definition MethodGet : string := "GET".
Definition StatusOK : Z := 200%Z.

(** [http.Response]: the status code, and what [io.ReadAll] returns
    when the body is read (closing the body is not modelled). *)
Record Response : Type := {
  StatusCode : Z;
  Body : string * option error
}.
End http.

(** [float64]: the 64 bits of an IEEE 754 double. Its arithmetic is not
    modelled; the one expression the program computes with it is a
    method of [GoRuntime]. *)
Definition float64 : Type := Z.

(** [time.Duration]: a count of nanoseconds (int64). *)
Definition Duration : Type := Z.

(** What the program asks of the standard library and of the network.
    [St] is the state of the outside; the clock is read off it, and
    moves only when a collaborator is called. *)
Class GoRuntime (St : Type) : Type := {
  (** [strings.TrimSpace] *)
  TrimSpace : string → string;
  (** [http.NewRequestWithContext(ctx, method, url, nil)]: only its error *)
  NewRequestWithContext : string → string → option error;
  (** [client.Do(req)] for a request to the given URL *)
  Do : string → St → (http.Response * option error) * St;
  (** the reading of the clock, in nanoseconds *)
  Now : St → Z;
  (** [time.Duration(float64(unit) / rate)] *)
  DurationPerRate : Duration → float64 → Duration
}.

Module time.
Definition Second : Duration := 1000000000%Z.
Definition Minute : Duration := (60 * Second)%Z.

(** [time.Ticker], as the package documents it: a period and the
    time of the next tick. A [*time.Ticker] is an [option Ticker],
    [None] for nil. *)
Record Ticker : Type := {
  period : Duration;
  next : Z
}.

(** [time.NewTicker(d)] at clock reading [now]: the first tick comes
    after [d]. The duration must be greater than zero; if not,
    [NewTicker] panics. *)
Definition NewTicker (now : Z) (d : Duration) : Outcome Ticker :=
  if bool_decide (d ≤ 0)%Z then Panicked NonPositiveInterval
  else Returned {| period := d; next := (now + d)%Z |}.

(** [t.Reset(d)] at clock reading [now], for the pointer [t]: the
    period becomes [d] and the next tick arrives after the new period
    elapses. The duration must be greater than zero; if not, [Reset]
    panics, and it panics on a nil [t] when it reads its fields. *)
Definition Reset (now : Z) (d : Duration) (t : option Ticker) : Outcome Ticker :=
  if bool_decide (d ≤ 0)%Z then Panicked NonPositiveInterval
  else match t with
       | None => Panicked NilPointerDereference
       | Some _ => Returned {| period := d; next := (now + d)%Z |}
       end.

(** A tick has been received from [t.C]: the following one is a
    period later. *)
Definition received (t : Ticker) : Ticker :=
  {| period := period t; next := (next t + period t)%Z |}.
End time.

(** ** Package ipfetcher *)

Module ipfetcher.
Definition ipv4URL : string := "https://api.ipify.org".
Definition ipv6URL : string := "https://api6.ipify.org".
Definition timeout : Duration := (10 * time.Second)%Z.

Section methods.
Context {St : Type} `{rt : !GoRuntime St}.

(** [f.client.Do(req)], recorded in the trace. *)
Definition callDo (url : string) : M St (http.Response * option error) :=
  emit (CallHTTPGet url) ;; perform (Do url).

Definition fetchIP (url : string) : M St (string * option error) :=
  match NewRequestWithContext http.MethodGet url with
  | Some e => ret ("", Some (Wrap "failed to create request: " e))
  | None =>
      let* (resp, err) := callDo url in
      match err with
      | Some e => ret ("", Some (Wrap "failed to fetch IP: " e))
      | None =>
          if bool_decide (http.StatusCode resp ≠ http.StatusOK) then
            ret ("", Some (Errorf ("unexpected status code: "
                                   +:+ pretty (http.StatusCode resp))))
          else
            let '(body, err) := http.Body resp in
            match err with
            | Some e => ret ("", Some (Wrap "failed to read response: " e))
            | None =>
                let ip := TrimSpace body in
                if bool_decide (ip = "") then
                  ret ("", Some (Errorf "empty IP address received"))
                else ret (ip, None)
            end
      end
  end.

Definition GetIPv4 : M St (string * option error) := fetchIP ipv4URL.
Definition GetIPv6 : M St (string * option error) := fetchIP ipv6URL.
End methods.
End ipfetcher.

(** ** Package config *)

Module config.
(** Modelled from the spec: the declaration of [config.Record] is not
    among the sources; these are the fields the daemon reads and the
    tests of the package set ({name, type, proxied}). *)
Record Record_ : Type := {
  Name : string;
  Type_ : string;
  Proxied : bool
}.

(** Modelled from the spec: the declaration of [config.Domain] is not
    among the sources ({zoneName, records}). *)
Record Domain : Type := {
  ZoneName : string;
  Records : list Record_
}.

(** Modelled from the spec: the declaration of [config.Config] is not
    among the sources (refreshRate in polls per second, syncRate in
    polls per minute, supportsIPv6, domains). *)
Record Config : Type := {
  RefreshRate : float64;
  SyncRate : float64;
  SupportsIPv6 : bool;
  Domains : list Domain
}.
End config.

(** ** Package main (cmd/ipwatcher) *)

Module ipwatcher.

(** [type IPWatcher struct]. The configuration is read-only; the zone
    cache is a [sync.Map] that only ever holds strings; each current
    address is an [atomic.Value] that is empty until the first
    [Store]; both tickers are nil until [Run] makes them. The DNS
    manager and the IP fetcher have no state of their own: what they
    talk to is [outside]. *)
Record IPWatcher (St : Type) : Type := mkIPWatcher {
  config_ : config.Config;
  zoneCache : gmap string string;
  currentIPv4 : option string;
  currentIPv6 : option string;
  refreshTicker : option time.Ticker;
  syncTicker : option time.Ticker;
  outside : St
}.
Arguments mkIPWatcher {St} _ _ _ _ _ _ _.
Arguments config_ {St} _.
Arguments zoneCache {St} _.
Arguments currentIPv4 {St} _.
Arguments currentIPv6 {St} _.
Arguments refreshTicker {St} _.
Arguments syncTicker {St} _.
Arguments outside {St} _.

(** [NewIPWatcher], given the outside it will talk to. *)
Definition NewIPWatcher {St} (cfg : config.Config) (st : St) : IPWatcher St :=
  mkIPWatcher cfg ∅ None None None None st.

(** [v, _ := x.Load().(string)]: the empty string when nothing was
    stored. *)
Definition loadString (v : option string) : string := default "" v.

(** The cases of the [select] in [Run]. *)
Inductive SelectCase : Type :=
| CtxDone (err : error)      (* <-ctx.Done(), with the value of ctx.Err() *)
| RefreshTick                (* <-w.refreshTicker.C *)
| SyncTick.                  (* <-w.syncTicker.C *)

Section methods.
Context {St : Type}.
Context `{client : !dnsmanager.CloudflareClient St} `{rt : !GoRuntime St}.

Local Abbreviation W := (IPWatcher St).

(** Reading and writing the fields of the receiver. *)
Definition gets {A} (f : W → A) : M W A := λ w, (f w, w, []).
Definition modify (f : W → W) : M W unit := λ w, (tt, f w, []).

(** A call into the DNS manager or the IP fetcher: it runs on the
    outside and leaves the other fields alone. *)
Definition call {A} (m : M St A) : M W A :=
  λ w, let '(a, st, t) := m (outside w) in
       (a,
        mkIPWatcher (config_ w) (zoneCache w) (currentIPv4 w) (currentIPv6 w)
                    (refreshTicker w) (syncTicker w) st,
        t).

Definition storeIPv4 (ip : string) : M W unit :=
  modify (λ w, mkIPWatcher (config_ w) (zoneCache w) (Some ip) (currentIPv6 w)
                           (refreshTicker w) (syncTicker w) (outside w)).

Definition storeIPv6 (ip : string) : M W unit :=
  modify (λ w, mkIPWatcher (config_ w) (zoneCache w) (currentIPv4 w) (Some ip)
                           (refreshTicker w) (syncTicker w) (outside w)).

Definition storeZone (zoneName zID : string) : M W unit :=
  modify (λ w, mkIPWatcher (config_ w) (<[zoneName := zID]> (zoneCache w))
                           (currentIPv4 w) (currentIPv6 w)
                           (refreshTicker w) (syncTicker w) (outside w)).

Definition setRefreshTicker (t : option time.Ticker) : M W unit :=
  modify (λ w, mkIPWatcher (config_ w) (zoneCache w) (currentIPv4 w) (currentIPv6 w)
                           t (syncTicker w) (outside w)).

Definition setSyncTicker (t : option time.Ticker) : M W unit :=
  modify (λ w, mkIPWatcher (config_ w) (zoneCache w) (currentIPv4 w) (currentIPv6 w)
                           (refreshTicker w) t (outside w)).

(** [time.Duration(float64(time.Minute) / w.config.SyncRate)] *)
Definition syncInterval (cfg : config.Config) : Duration :=
  DurationPerRate time.Minute (config.SyncRate cfg).

(** [time.Duration(float64(time.Second) / w.config.RefreshRate)] *)
Definition refreshInterval (cfg : config.Config) : Duration :=
  DurationPerRate time.Second (config.RefreshRate cfg).

(** [w.syncTicker.Reset(d)], at the present reading of the clock. *)
Definition resetSyncTicker (d : Duration) : M W (Outcome unit) :=
  let* now := gets (λ w, Now (outside w)) in
  let* t := gets syncTicker in
  match time.Reset now d t with
  | Panicked p => ret (Panicked p)
  | Returned t' => setSyncTicker (Some t') ;; ret (Returned tt)
  end.

(** [getZoneID] *)
Definition getZoneID (zoneName : string) : M W (string * option error) :=
  let* cached := gets (λ w, zoneCache w !! zoneName) in
  match cached with
  | Some zoneID => ret (zoneID, None)
  | None =>
      let* (zID, err) := call (dnsmanager.GetZoneIDByName zoneName) in
      match err with
      | Some e => ret ("", Some e)
      | None => storeZone zoneName zID ;; ret (zID, None)
      end
  end.

(** The inner loop of both sweeps: the records of a configured
    domain as the DNS manager wants them, in order. *)
Definition dnsRecordsOf (domain : config.Domain) : list dnsmanager.DNSRecord :=
  map (λ record,
         {| dnsmanager.Root := config.ZoneName domain;
            dnsmanager.Name := config.Name record;
            dnsmanager.Type_ := config.Type_ record;
            dnsmanager.Proxied := config.Proxied record |})
      (config.Records domain).

(** The body of the loop over the domains, shared by
    [updateAllDNSRecords] and [verifyDNSRecords], which differ in
    the two lines they log after [EnsureDNSRecords]. It returns the
    new value of [lastErr]. *)
Definition sweep_step (logFailed : string → error → LogLine) (logOk : string → LogLine)
    (ipv4 ipv6 : string) (lastErr : option error) (domain : config.Domain)
    : M W (option error) :=
  let* (zoneID, err) := getZoneID (config.ZoneName domain) in
  match err with
  | Some e =>
      logPrint (LogZoneIDFailed (config.ZoneName domain) e) ;;
      ret (Some e)
  | None =>
      let dnsRecords := dnsRecordsOf domain in
      let* err := call (dnsmanager.EnsureDNSRecords zoneID dnsRecords ipv4 ipv6) in
      match err with
      | Some e => logPrint (logFailed (config.ZoneName domain) e) ;; ret (Some e)
      | None => logPrint (logOk (config.ZoneName domain)) ;; ret lastErr
      end
  end.

(** [for _, domain := range w.config.Domains { ... }; return lastErr] *)
Fixpoint sweep (step : option error → config.Domain → M W (option error))
    (domains : list config.Domain) (lastErr : option error) : M W (option error) :=
  match domains with
  | [] => ret lastErr
  | domain :: rest =>
      let* lastErr := step lastErr domain in
      sweep step rest lastErr
  end.

Definition updateAllDNSRecords : M W (option error) :=
  let* ipv4 := gets (λ w, loadString (currentIPv4 w)) in
  let* ipv6 := gets (λ w, loadString (currentIPv6 w)) in
  let* domains := gets (λ w, config.Domains (config_ w)) in
  sweep (sweep_step LogEnsureFailed LogUpdated ipv4 ipv6) domains None.

Definition verifyDNSRecords : M W (option error) :=
  let* ipv4 := gets (λ w, loadString (currentIPv4 w)) in
  let* ipv6 := gets (λ w, loadString (currentIPv6 w)) in
  logPrint LogVerifying ;;
  let* domains := gets (λ w, config.Domains (config_ w)) in
  sweep (sweep_step LogVerifyFailed LogUpToDate ipv4 ipv6) domains None.

Definition fetchAndUpdateIPs : M W (option error) :=
  let* (ipv4, err) := call ipfetcher.GetIPv4 in
  (match err with
   | Some e => logPrint (LogFetchIPv4Failed e)
   | None => storeIPv4 ipv4 ;; logPrint (LogCurrentIPv4 ipv4)
   end) ;;
  let* supportsIPv6 := gets (λ w, config.SupportsIPv6 (config_ w)) in
  (if supportsIPv6 then
     let* (ipv6, err) := call ipfetcher.GetIPv6 in
     match err with
     | Some e => logPrint (LogFetchIPv6Failed e)
     | None => storeIPv6 ipv6 ;; logPrint (LogCurrentIPv6 ipv6)
     end
   else ret tt) ;;
  updateAllDNSRecords.

(** The two fetches that open [checkAndUpdateIP]: they return
    [(newIPv4, newIPv6)]. *)
Definition fetchNewIPs : M W (string * string) :=
  let* (newIPv4, err) := call ipfetcher.GetIPv4 in
  (match err with
   | Some e => logPrint (LogFetchIPv4Failed e)
   | None => ret tt
   end) ;;
  let* supportsIPv6 := gets (λ w, config.SupportsIPv6 (config_ w)) in
  let* newIPv6 :=
    (if supportsIPv6 then
       let* (newIPv6, err) := call ipfetcher.GetIPv6 in
       (match err with
        | Some e => logPrint (LogFetchIPv6Failed e)
        | None => ret tt
        end) ;;
       ret newIPv6
     else ret "") in
  ret (newIPv4, newIPv6).

(** [checkAndUpdateIP]; it panics if the reset of the sync ticker
    does. *)
Definition checkAndUpdateIP : M W (Outcome (option error)) :=
  let* oldIPv4 := gets (λ w, loadString (currentIPv4 w)) in
  let* oldIPv6 := gets (λ w, loadString (currentIPv6 w)) in
  let* (newIPv4, newIPv6) := fetchNewIPs in
  let ipv4Changed := bool_decide (newIPv4 ≠ oldIPv4) && bool_decide (newIPv4 ≠ "") in
  let ipv6Changed := bool_decide (newIPv6 ≠ oldIPv6) && bool_decide (newIPv6 ≠ "") in
  (if ipv4Changed then
     logPrint (LogIPv4Changed oldIPv4 newIPv4) ;; storeIPv4 newIPv4
   else ret tt) ;;
  (if ipv6Changed then
     logPrint (LogIPv6Changed oldIPv6 newIPv6) ;; storeIPv6 newIPv6
   else ret tt) ;;
  if ipv4Changed || ipv6Changed then
    let* cfg := gets config_ in
    let* reset := resetSyncTicker (syncInterval cfg) in
    match reset with
    | Panicked p => ret (Panicked p)
    | Returned _ =>
        let* err := updateAllDNSRecords in
        ret (Returned err)
    end
  else ret (Returned None).

(** One turn of the loop of [Run], for the case the [select] took.
    Entering the [select] reads the channel of each ticker, which
    panics on a nil ticker. The turn returns [None] when the loop goes
    on, [Some (Returned err)] when [Run] returns [err], and
    [Some (Panicked p)] when [Run] panics. *)
Definition Run_turn (c : SelectCase) : M W (option (Outcome error)) :=
  let* refresh := gets refreshTicker in
  let* sync := gets syncTicker in
  match refresh, sync with
  | Some refresh, Some sync =>
      match c with
      | CtxDone err => logPrint LogShuttingDown ;; ret (Some (Returned err))
      | RefreshTick =>
          setRefreshTicker (Some (time.received refresh)) ;;
          let* r := checkAndUpdateIP in
          match r with
          | Panicked p => ret (Some (Panicked p))
          | Returned err =>
              (match err with
               | Some e => logPrint (LogCheckError e)
               | None => ret tt
               end) ;;
              ret None
          end
      | SyncTick =>
          setSyncTicker (Some (time.received sync)) ;;
          let* err := verifyDNSRecords in
          (match err with
           | Some e => logPrint (LogVerifyError e)
           | None => ret tt
           end) ;;
          ret None
      end
  | _, _ => ret (Some (Panicked NilPointerDereference))
  end.

(** The loop of [Run] along the cases its [select] takes, in order.
    [None] means the cases given ran out with the loop still going. *)
Fixpoint Run_loop (cases : list SelectCase) : M W (option (Outcome error)) :=
  match cases with
  | [] => ret None
  | c :: rest =>
      let* r := Run_turn c in
      match r with
      | Some o => ret (Some o)
      | None => Run_loop rest
      end
  end.

(** [Run], along the cases its [select] takes. It panics, before the
    loop, if an interval computed from the configuration is not
    positive. The deferred [Stop] of a ticker has no effect that the
    model keeps. *)
Definition Run (cases : list SelectCase) : M W (option (Outcome error)) :=
  logPrint LogStarting ;;
  let* err := fetchAndUpdateIPs in
  (match err with
   | Some e => logPrint (LogInitialFetchFailed e)
   | None => ret tt
   end) ;;
  let* cfg := gets config_ in
  let* now := gets (λ w, Now (outside w)) in
  match time.NewTicker now (refreshInterval cfg) with
  | Panicked p => ret (Some (Panicked p))
  | Returned refresh =>
      setRefreshTicker (Some refresh) ;;
      let* now := gets (λ w, Now (outside w)) in
      match time.NewTicker now (syncInterval cfg) with
      | Panicked p => ret (Some (Panicked p))
      | Returned sync =>
          setSyncTicker (Some sync) ;;
          logPrint LogIntervals ;;
          Run_loop cases
      end
  end.
End methods.
End ipwatcher.

(** ** Vocabulary of the properties *)

Module spec.
Import dnsmanager.

(** The two record kinds of the data model. *)
Definition isKind (t : string) : Prop := t = ARecord ∨ t = AAAARecord.

(** The fully qualified name of a desired record: the root for the
    apex name, the name joined to the root otherwise. *)
Definition fullName (d : DNSRecord) : string :=
  if bool_decide (Name d = "@") then Root d else Name d +:+ "." +:+ Root d.

(** The address a record of a kind publishes: the IPv4 address for
    kind A, the IPv6 address for kind AAAA. *)
Definition relevantIP (kind ipv4 ipv6 : string) : option string :=
  if bool_decide (kind = "A") then Some ipv4
  else if bool_decide (kind = "AAAA") then Some ipv6
  else None.

(** The record the provider lists last under a full name and a kind:
    the observed record that a desired record of that name and kind
    is matched with. *)
Definition lastListed (existingRecords : list dns.RecordResponse) (name kind : string)
    : option dns.RecordResponse :=
  last (filter (λ o, dns.Name o = name ∧ dns.Type_ o = kind) existingRecords).



(** The body of an entry of a request. *)
Definition postParam (p : dns.RecordBatchParamsPostUnion) : dns.HostRecordParam :=
  match p with dns.ARecordParam b | dns.AAAARecordParam b => b end.

Definition putParam (p : dns.BatchPutUnionParam) : dns.HostRecordParam :=
  match p with dns.BatchPutARecordParam _ b | dns.BatchPutAAAARecordParam _ b => b end.

(** How a provider that applies a batch understands it. A name in an
    entry is relative to the zone: [@] is the zone's root, any other
    name is completed by the root. *)
Definition hostName (root name : string) : string :=
  if bool_decide (name = "@") then root else name +:+ "." +:+ root.

(** The record an update entry turns the record of its ID into. *)
Definition putRecord (root : string) (p : dns.BatchPutUnionParam) : dns.RecordResponse :=
  {| dns.ID := dns.PutID p;
     dns.Name := hostName root (dns.ParamName (putParam p));
     dns.Type_ := dns.PutType p;
     dns.Content := dns.ParamContent (putParam p);
     dns.Proxied := dns.ParamProxied (putParam p) |}.

(** The record a create entry makes, under the ID the provider gives
    it. *)
Definition postRecord (root : string) (p : dns.RecordBatchParamsPostUnion) (id : string)
    : dns.RecordResponse :=
  {| dns.ID := id;
     dns.Name := hostName root (dns.ParamName (postParam p));
     dns.Type_ := dns.PostType p;
     dns.Content := dns.ParamContent (postParam p);
     dns.Proxied := dns.ParamProxied (postParam p) |}.

(** The last update entry of a batch for an ID, if any. *)
Definition lastPut (puts : list dns.BatchPutUnionParam) (id : string)
    : option dns.BatchPutUnionParam :=
  last (filter (λ p, dns.PutID p = id) puts).

(** The records of a zone after the provider has applied a batch to
    the records [existingRecords]: every record named by an update
    entry is as the last such entry says, the others are as they
    were, and one record per create entry follows, under the IDs
    [ids]. *)
Definition afterBatch (root : string) (existingRecords : list dns.RecordResponse)
    (req : dns.RecordBatchParams) (ids : list string) : list dns.RecordResponse :=
  map (λ o, match lastPut (default [] (dns.Puts req)) (dns.ID o) with
            | Some p => putRecord root p
            | None => o
            end) existingRecords
  ++ zip_with (postRecord root) (default [] (dns.Posts req)) ids.

(** The provider's records already show what the desired records ask
    for: every desired record that has an address to publish is found
    under its key with that address and the desired proxied flag. *)
Definition settled (existingRecords : list dns.RecordResponse)
    (records : list DNSRecord) (ipv4 ipv6 : string) : Prop :=
  ∀ d, d ∈ records → skipped d ipv4 ipv6 = false →
    ∃ o, existingRecordMap existingRecords !! prepareRecordKey d = Some o
         ∧ dns.Content o = expectedContent d ipv4 ipv6
         ∧ dns.Proxied o = Proxied d.

(** What the comparison of a desired record with the record found
    under its key comes to. *)
Definition differs (o : dns.RecordResponse) (d : DNSRecord) (ipv4 ipv6 : string) : Prop :=
  dns.Content o ≠ expectedContent d ipv4 ipv6 ∨ dns.Proxied o ≠ Proxied d.

(** The result of [EnsureDNSRecords] when the listing fails. *)
Definition listFailure (e : error) : error :=
  Wrap "failed to get existing DNS records: " (Wrap "failed to list DNS records: " e).

(** The result of [EnsureDNSRecords] after the batch call. *)
Definition batchResult (err : option error) : option error :=
  match err with
  | Some e => Some (Wrap "failed to execute batch DNS record update: " e)
  | None => None
  end.

(** The entry a desired record is sent as, if it is sent at all. *)
Definition postOf (ipv4 ipv6 : string) (d : DNSRecord)
    : option dns.RecordBatchParamsPostUnion :=
  if bool_decide (Type_ d = ARecord)
  then Some (dns.ARecordParam (toDNSARecord d ipv4))
  else if bool_decide (Type_ d = AAAARecord)
  then Some (dns.AAAARecordParam (toDNSAAAARecord d ipv6))
  else None.

Definition putOf (ipv4 ipv6 : string) (u : UpdateDNSRecord)
    : option dns.BatchPutUnionParam :=
  if bool_decide (Type_ (Embedded u) = ARecord)
  then Some (dns.BatchPutARecordParam (ID u) (toDNSARecord (Embedded u) ipv4))
  else if bool_decide (Type_ (Embedded u) = AAAARecord)
  then Some (dns.BatchPutAAAARecordParam (ID u) (toDNSAAAARecord (Embedded u) ipv6))
  else None.

Definition isBatchWrite (e : Event) : bool :=
  match e with CallBatchDNSRecords _ => true | _ => false end.

Definition isDelete (e : Event) : bool :=
  match e with CallDeleteDNSRecord _ _ => true | _ => false end.

(** A call through the provider client. *)
Definition isProviderCall (e : Event) : bool :=
  match e with
  | CallListZones _ | CallListDNSRecords _
  | CallBatchDNSRecords _ | CallDeleteDNSRecord _ _ => true
  | _ => false
  end.

(** The line a sweep logs when it is done with a domain: the zone
    name, and the error if the domain failed. *)
Definition domainOutcome (e : Event) : option (string * option error) :=
  match e with
  | Log (LogZoneIDFailed z err) => Some (z, Some err)
  | Log (LogEnsureFailed z err) => Some (z, Some err)
  | Log (LogVerifyFailed z err) => Some (z, Some err)
  | Log (LogUpdated z) => Some (z, None)
  | Log (LogUpToDate z) => Some (z, None)
  | _ => None
  end.

Definition outcomes (t : list Event) : list (string * option error) :=
  omap domainOutcome t.


(** The error a domain comes to when a sweep reaches it in the state
    [w]: the error of the zone lookup, or else the error of
    [EnsureDNSRecords] on the records of the domain. *)
Definition domainError {St : Type} `{client : !CloudflareClient St}
    (ipv4 ipv6 : string) (domain : config.Domain) (w : ipwatcher.IPWatcher St)
    : option error :=
  let rz := ipwatcher.getZoneID (config.ZoneName domain) w in
  match value rz with
  | (_, Some e) => Some e
  | (zoneID, None) =>
      value (ipwatcher.call
               (EnsureDNSRecords zoneID (ipwatcher.dnsRecordsOf domain) ipv4 ipv6)
               (final rz))
  end.

(** The last error of a list of results, or the given one if the
    list has none. *)
Definition lastErrorFrom (init : option error) (os : list (string * option error))
    : option error :=
  fold_left (λ acc o, match o.2 with Some e => Some e | None => acc end) os init.

(** The last error among the outcomes, if any. *)
Definition lastError (os : list (string * option error)) : option error :=
  lastErrorFrom None os.

(** The events of a sweep: calls of the provider, and the lines the
    DNS manager and the sweeps log. *)
Definition isSweepEvent (e : Event) : bool :=
  match e with
  | CallListZones _ | CallListDNSRecords _
  | CallBatchDNSRecords _ | CallDeleteDNSRecord _ _ => true
  | Log LogNoRecords | Log LogVerifying => true
  | Log (LogZoneIDFailed _ _) | Log (LogEnsureFailed _ _) | Log (LogUpdated _) => true
  | Log (LogVerifyFailed _ _) | Log (LogUpToDate _) => true
  | _ => false
  end.

(** The events of the two fetches of a poll: the requests, and the
    lines logged when one fails. *)
Definition isFetchEvent (e : Event) : bool :=
  match e with
  | CallHTTPGet _ => true
  | Log (LogFetchIPv4Failed _) | Log (LogFetchIPv6Failed _) => true
  | _ => false
  end.

(** The fields of the watcher that only the poll and [Run] write. *)
Definition sameLocal {St : Type} (w w' : ipwatcher.IPWatcher St) : Prop :=
  ipwatcher.config_ w' = ipwatcher.config_ w
  ∧ ipwatcher.currentIPv4 w' = ipwatcher.currentIPv4 w
  ∧ ipwatcher.currentIPv6 w' = ipwatcher.currentIPv6 w
  ∧ ipwatcher.refreshTicker w' = ipwatcher.refreshTicker w
  ∧ ipwatcher.syncTicker w' = ipwatcher.syncTicker w.

(** A poll found a new address for a family: the value fetched is not
    empty and is not the value stored. *)
Definition changed (new old : string) : Prop := new ≠ "" ∧ new ≠ old.

Global Instance changed_dec (new old : string) : Decision (changed new old).
Proof. unfold changed. apply _. Defined.

(** The watcher after the stores and the reset of a poll that fetched
    [new4] and [new6] and was left in [w1] by the fetches; if the
    reset panics, the watcher as the panic finds it, with the stores
    done. *)
Definition afterStores {St : Type} `{rt : !GoRuntime St}
    (old4 old6 new4 new6 : string) (w1 : ipwatcher.IPWatcher St)
    : ipwatcher.IPWatcher St :=
  let any := bool_decide (changed new4 old4 ∨ changed new6 old6) in
  ipwatcher.mkIPWatcher
    (ipwatcher.config_ w1)
    (ipwatcher.zoneCache w1)
    (if decide (changed new4 old4) then Some new4 else ipwatcher.currentIPv4 w1)
    (if decide (changed new6 old6) then Some new6 else ipwatcher.currentIPv6 w1)
    (ipwatcher.refreshTicker w1)
    (if any
     then match time.Reset (Now (ipwatcher.outside w1))
                           (ipwatcher.syncInterval (ipwatcher.config_ w1))
                           (ipwatcher.syncTicker w1) with
          | Returned t => Some t
          | Panicked _ => ipwatcher.syncTicker w1
          end
     else ipwatcher.syncTicker w1)
    (ipwatcher.outside w1).

(** The lines a poll logs between the fetches and the sweep. *)
Definition changeLines (old4 old6 new4 new6 : string) : list Event :=
  (if decide (changed new4 old4) then [Log (LogIPv4Changed old4 new4)] else [])
  ++ (if decide (changed new6 old6) then [Log (LogIPv6Changed old6 new6)] else []).

(** The watcher as a turn of the loop of [Run] hands it to the poll:
    a tick of the refresh ticker has been received. *)
Definition afterRefreshTick {St : Type} (w : ipwatcher.IPWatcher St)
    : ipwatcher.IPWatcher St :=
  ipwatcher.mkIPWatcher
    (ipwatcher.config_ w) (ipwatcher.zoneCache w)
    (ipwatcher.currentIPv4 w) (ipwatcher.currentIPv6 w)
    (time.received <$> ipwatcher.refreshTicker w)
    (ipwatcher.syncTicker w) (ipwatcher.outside w).

(** The configuration is never written. *)
Definition keepsConfig {St A : Type} (m : M (ipwatcher.IPWatcher St) A) : Prop :=
  ∀ w, ipwatcher.config_ (final (m w)) = ipwatcher.config_ w.

(** A desired record that has an address to publish and no existing
    record under its key. *)
Definition wantsCreate (existingRecords : list dns.RecordResponse)
    (ipv4 ipv6 : string) (d : DNSRecord) : bool :=
  negb (skipped d ipv4 ipv6)
  && bool_decide (existingRecordMap existingRecords !! prepareRecordKey d = None).

(** A desired record that has an address to publish and an existing
    record under its key that differs in content or proxied flag. *)
Definition wantsUpdate (existingRecords : list dns.RecordResponse)
    (ipv4 ipv6 : string) (d : DNSRecord) : bool :=
  negb (skipped d ipv4 ipv6)
  && match existingRecordMap existingRecords !! prepareRecordKey d with
     | Some o => bool_decide (dns.Content o ≠ expectedContent d ipv4 ipv6
                              ∨ dns.Proxied o ≠ Proxied d)
     | None => false
     end.

Definition isListZones (e : Event) : bool :=
  match e with CallListZones _ => true | _ => false end.

Definition isListDNSRecords (e : Event) : bool :=
  match e with CallListDNSRecords _ => true | _ => false end.

Definition isHTTPGet (e : Event) : bool :=
  match e with CallHTTPGet _ => true | _ => false end.

(** No stored address is the empty string. *)
Definition storedNonEmpty {St : Type} (w : ipwatcher.IPWatcher St) : Prop :=
  ipwatcher.currentIPv4 w ≠ Some "" ∧ ipwatcher.currentIPv6 w ≠ Some "".

(** The [select] took the case of the cancelled context. *)
Definition isDone (c : ipwatcher.SelectCase) : bool :=
  match c with ipwatcher.CtxDone _ => true | _ => false end.

(** A method of the watcher keeps a property of the watcher. *)
Definition preserves {St A : Type} (P : ipwatcher.IPWatcher St → Prop)
    (m : M (ipwatcher.IPWatcher St) A) : Prop :=
  ∀ w, P w → P (final (m w)).

(** The watcher after the stores of [fetchAndUpdateIPs], from the
    results [r4] and [r6] of the two lookups. *)
Definition afterInitialFetch {St : Type} (w : ipwatcher.IPWatcher St)
    (r4 r6 : string * option error) (st : St) : ipwatcher.IPWatcher St :=
  ipwatcher.mkIPWatcher
    (ipwatcher.config_ w) (ipwatcher.zoneCache w)
    (match r4 with (ip, None) => Some ip | _ => ipwatcher.currentIPv4 w end)
    (if config.SupportsIPv6 (ipwatcher.config_ w)
     then match r6 with (ip, None) => Some ip | _ => ipwatcher.currentIPv6 w end
     else ipwatcher.currentIPv6 w)
    (ipwatcher.refreshTicker w) (ipwatcher.syncTicker w) st.

(** The line [fetchAndUpdateIPs] logs after a lookup. *)
Definition fetchLine4 (r4 : string * option error) : Event :=
  match r4 with
  | (_, Some e) => Log (LogFetchIPv4Failed e)
  | (ip, None) => Log (LogCurrentIPv4 ip)
  end.

Definition fetchLine6 (r6 : string * option error) : Event :=
  match r6 with
  | (_, Some e) => Log (LogFetchIPv6Failed e)
  | (ip, None) => Log (LogCurrentIPv6 ip)
  end.

(** The period of the verify trigger, which fires [syncRate] times
    per minute: the nanoseconds of a minute over the rate. *)
Definition verifyPeriod {St : Type} `{rt : !GoRuntime St} (cfg : config.Config)
    : Duration :=
  DurationPerRate 60000000000%Z (config.SyncRate cfg).

(** The period of the refresh trigger, which fires [refreshRate] times
    per second: the nanoseconds of a second over the rate. *)
Definition refreshPeriod {St : Type} `{rt : !GoRuntime St} (cfg : config.Config)
    : Duration :=
  DurationPerRate 1000000000%Z (config.RefreshRate cfg).

(** Both periods of a configuration are positive: [Run] can make its
    tickers. *)
Definition positivePeriods {St : Type} `{rt : !GoRuntime St} (cfg : config.Config)
    : Prop :=
  (0 < refreshPeriod cfg)%Z ∧ (0 < verifyPeriod cfg)%Z.

(** The watcher with both tickers made at its present clock reading,
    as [Run] makes them. *)
Definition armed {St : Type} `{rt : !GoRuntime St} (w : ipwatcher.IPWatcher St)
    : ipwatcher.IPWatcher St :=
  ipwatcher.mkIPWatcher
    (ipwatcher.config_ w) (ipwatcher.zoneCache w)
    (ipwatcher.currentIPv4 w) (ipwatcher.currentIPv6 w)
    (Some {| time.period := ipwatcher.refreshInterval (ipwatcher.config_ w);
             time.next := (Now (ipwatcher.outside w)
                           + ipwatcher.refreshInterval (ipwatcher.config_ w))%Z |})
    (Some {| time.period := ipwatcher.syncInterval (ipwatcher.config_ w);
             time.next := (Now (ipwatcher.outside w)
                           + ipwatcher.syncInterval (ipwatcher.config_ w))%Z |})
    (ipwatcher.outside w).

(** The watcher as a turn of the loop of [Run] hands it to the verify
    sweep: a tick of the sync ticker has been received. *)
Definition afterSyncTick {St : Type} (w : ipwatcher.IPWatcher St)
    : ipwatcher.IPWatcher St :=
  ipwatcher.mkIPWatcher
    (ipwatcher.config_ w) (ipwatcher.zoneCache w)
    (ipwatcher.currentIPv4 w) (ipwatcher.currentIPv6 w)
    (ipwatcher.refreshTicker w)
    (time.received <$> ipwatcher.syncTicker w) (ipwatcher.outside w).

(** A runtime whose network always gives the same answer, with a
    [TrimSpace] that knows the ASCII white space only; for examples. *)
Definition isSpace (c : Ascii.ascii) : bool :=
  bool_decide (c ∈ [" "; "009"; "010"; "011"; "012"; "013"]%char).

Fixpoint trimLeft (s : string) : string :=
  match s with
  | String.String c s' => if isSpace c then trimLeft s' else s
  | EmptyString => EmptyString
  end.

Definition trimSpaceASCII (s : string) : string :=
  String.rev (trimLeft (String.rev (trimLeft s))).

Definition cannedRuntime (answer : string → http.Response * option error)
    : GoRuntime unit :=
  {| TrimSpace := trimSpaceASCII;
     NewRequestWithContext _ _ := None;
     Do url st := (answer url, st);
     Now _ := 0%Z;
     DurationPerRate unit rate := (unit / rate)%Z |}.
End spec.

(** ** Inputs for the examples *)

Module example.
Import dnsmanager.

(** The apex record and the [www] record of [example.com]. *)
Definition apex : DNSRecord :=
  {| Root := "example.com"; Name := "@"; Type_ := ARecord; Proxied := false |}.
Definition www : DNSRecord :=
  {| Root := "example.com"; Name := "www"; Type_ := ARecord; Proxied := true |}.
Definition www6 : DNSRecord :=
  {| Root := "example.com"; Name := "www"; Type_ := AAAARecord; Proxied := true |}.

(** What the provider holds for the apex: at the old address, and at
    the new one. *)
Definition apexOld : dns.RecordResponse :=
  {| dns.ID := "r1"; dns.Name := "example.com"; dns.Type_ := "A";
     dns.Content := "1.1.1.1"; dns.Proxied := false |}.
Definition apexNew : dns.RecordResponse :=
  {| dns.ID := "r1"; dns.Name := "example.com"; dns.Type_ := "A";
     dns.Content := "2.2.2.2"; dns.Proxied := false |}.
Definition wwwNew : dns.RecordResponse :=
  {| dns.ID := "r2"; dns.Name := "www.example.com"; dns.Type_ := "A";
     dns.Content := "2.2.2.2"; dns.Proxied := true |}.

Definition www6New : dns.RecordResponse :=
  {| dns.ID := "r3"; dns.Name := "www.example.com"; dns.Type_ := "AAAA";
     dns.Content := "2001:db8::2"; dns.Proxied := true |}.

(** A mock provider that lists the given records and one zone. *)
Definition provider (records : list dns.RecordResponse) : MockCloudflareClient :=
  {| ListZonesFunc := Some (λ _, ([{| zones.ID := "z1"; zones.Name := "example.com" |}], None));
     ListDNSRecordsFunc := Some (λ _, (records, None));
     BatchDNSRecordsFunc := None;
     DeleteDNSRecordFunc := None |}.

(** A mock provider that knows no zone. *)
Definition emptyProvider : MockCloudflareClient :=
  {| ListZonesFunc := Some (λ _, ([], None));
     ListDNSRecordsFunc := None;
     BatchDNSRecordsFunc := None;
     DeleteDNSRecordFunc := None |}.

(** A mock provider that knows the zone [example.com] only, and lists
    the given records in it. *)
Definition selective (records : list dns.RecordResponse) : MockCloudflareClient :=
  {| ListZonesFunc :=
       Some (λ params,
               if bool_decide (zones.NameFilter params = "example.com")
               then ([{| zones.ID := "z1"; zones.Name := "example.com" |}], None)
               else ([], None));
     ListDNSRecordsFunc := Some (λ _, (records, None));
     BatchDNSRecordsFunc := None;
     DeleteDNSRecordFunc := None |}.

(** A configuration with a zone the provider does not know, followed
    by [example.com]. *)
Definition twoDomains : config.Config :=
  {| config.RefreshRate := 1%Z;
     config.SyncRate := 1%Z;
     config.SupportsIPv6 := false;
     config.Domains :=
       [{| config.ZoneName := "nosuchzone.com";
           config.Records := [{| config.Name := "@"; config.Type_ := "A";
                                 config.Proxied := false |}] |};
        {| config.ZoneName := "example.com";
           config.Records := [{| config.Name := "@"; config.Type_ := "A";
                                 config.Proxied := false |};
                              {| config.Name := "www"; config.Type_ := "A";
                                 config.Proxied := true |}] |}] |}.

(** A watcher on that configuration that knows its IPv4 address, with
    both tickers made at time 0 with the given periods. *)
Definition watcher (ipv4 : string) : ipwatcher.IPWatcher unit :=
  ipwatcher.mkIPWatcher twoDomains ∅ (Some ipv4) None
    (Some {| time.period := time.Second; time.next := time.Second |})
    (Some {| time.period := time.Minute; time.next := time.Minute |}) tt.

(** Networks for the examples: one that answers every lookup with
    the address 2.2.2.2 followed by a newline, and one that answers
    with status 503. *)
Definition movedNet : GoRuntime unit :=
  spec.cannedRuntime
    (λ _, ({| http.StatusCode := 200;
              http.Body := ("2.2.2.2" +:+ String.String "010" "", None) |}, None)).

Definition failingNet : GoRuntime unit :=
  spec.cannedRuntime
    (λ _, ({| http.StatusCode := 503; http.Body := ("", None) |}, None)).

(** An outside in memory: a clock, the records the provider holds
    for the zone [example.com], and the number of records it has
    made. *)
Record World : Type := {
  clock : Z;
  held : list dns.RecordResponse;
  made : nat
}.

(** The IDs the provider in memory gives to the records it makes. *)
Fixpoint freshID (n : nat) : string :=
  match n with
  | O => "new"
  | S n => freshID n +:+ "+"
  end.

(** A provider in memory: it knows the zone [example.com], lists the
    records it holds, applies a batch to them and deletes by ID. *)
Definition memoryProvider : CloudflareClient World :=
  {| ListZones params w :=
       ((if bool_decide (zones.NameFilter params = "example.com")
         then [{| zones.ID := "z1"; zones.Name := "example.com" |}]
         else [], None), w);
     ListDNSRecords _ w := ((held w, None), w);
     BatchDNSRecords req w :=
       let n := length (default [] (dns.Posts req)) in
       (None,
        {| clock := clock w;
           held := spec.afterBatch "example.com" (held w) req
                     (freshID <$> seq (made w) n);
           made := (made w + n)%nat |});
     DeleteDNSRecord recordID _ w :=
       (None,
        {| clock := clock w;
           held := filter (λ o, dns.ID o ≠ recordID) (held w);
           made := made w |}) |}.

(** A network on that outside that answers every lookup with the
    given address, each lookup taking five nanoseconds of the clock;
    a duration per rate is the quotient of the integers. *)
Definition tickingNet (ip : string) : GoRuntime World :=
  {| TrimSpace := spec.trimSpaceASCII;
     NewRequestWithContext _ _ := None;
     Do _ w :=
       (({| http.StatusCode := 200; http.Body := (ip, None) |}, None),
        {| clock := (clock w + 5)%Z; held := held w; made := made w |});
     Now := clock;
     DurationPerRate unit rate := (unit / rate)%Z |}.

(** A configuration of the zone [example.com] alone, polled once a
    second and verified twice a minute. *)
Definition oneDomain : config.Config :=
  {| config.RefreshRate := 1%Z;
     config.SyncRate := 2%Z;
     config.SupportsIPv6 := false;
     config.Domains :=
       [{| config.ZoneName := "example.com";
           config.Records := [{| config.Name := "@"; config.Type_ := "A";
                                 config.Proxied := false |};
                              {| config.Name := "www"; config.Type_ := "A";
                                 config.Proxied := true |}] |}] |}.

(** A watcher on that configuration and that outside, at clock
    reading 1000, that knows its IPv4 address and has both tickers as
    made at clock reading 0. *)
Definition tickingWatcher (ipv4 : string) : ipwatcher.IPWatcher World :=
  ipwatcher.mkIPWatcher oneDomain ∅ (Some ipv4) None
    (Some {| time.period := time.Second; time.next := time.Second |})
    (Some {| time.period := (30 * time.Second)%Z; time.next := (30 * time.Second)%Z |})
    {| clock := 1000; held := [apexOld]; made := 0 |}.

(** The same configuration polled two thousand million times a
    second: the quotient of a second by that rate is zero. *)
Definition hasty : config.Config :=
  {| config.RefreshRate := 2000000000%Z;
     config.SyncRate := 2%Z;
     config.SupportsIPv6 := false;
     config.Domains := config.Domains oneDomain |}.
End example.

(** * Properties *)

(** ** Finished runs *)

Lemma run_value {S A} (a : A) (s : S) (t : list Event) : value (a, s, t) = a.
Proof. done. Qed.

Lemma run_final {S A} (a : A) (s : S) (t : list Event) : final (a, s, t) = s.
Proof. done. Qed.

Lemma run_events {S A} (a : A) (s : S) (t : list Event) : events (a, s, t) = t.
Proof. done. Qed.

Lemma final_effect {S A} (r : A * S * list Event) : final (effect r) = final r.
Proof. done. Qed.

Lemma events_effect {S A} (r : A * S * list Event) : events (effect r) = events r.
Proof. done. Qed.

(** ** Strings *)

Lemma string_length_app (a b : string) :
  String.length (a +:+ b) = (String.length a + String.length b)%nat.
Proof. induction a as [|c a IH]; simpl; [done | by rewrite IH]. Qed.

Lemma string_app_inv_tail (a b s : string) : a +:+ s = b +:+ s → a = b.
Proof.
  revert b. induction a as [|c a IH]; intros [|c' b] Heq; simpl in *.
  - done.
  - apply (f_equal String.length) in Heq.
    rewrite ?string_length_app in Heq. simpl in Heq.
    rewrite ?string_length_app in Heq. lia.
  - apply (f_equal String.length) in Heq.
    rewrite ?string_length_app in Heq. simpl in Heq.
    rewrite ?string_length_app in Heq. lia.
  - injection Heq as -> Heq. f_equal. by apply IH.
Qed.

Lemma string_app_assoc (a b c : string) : (a +:+ b) +:+ c = a +:+ b +:+ c.
Proof.
  induction a as [|x a IH]; [done |].
  change (String x ((a +:+ b) +:+ c) = String x (a +:+ b +:+ c)). by rewrite IH.
Qed.

(** No string ends both in [|A] and in [|AAAA]. *)
Lemma string_kind_suffixes_differ (a b : string) : a +:+ "|A" ≠ b +:+ "|AAAA".
Proof.
  revert b. induction a as [|c a IH]; intros b Heq.
  - apply (f_equal String.length) in Heq.
    rewrite !string_length_app in Heq. simpl in Heq. lia.
  - destruct b as [|c' b].
    + destruct a as [|x [|y [|z a]]]; simpl in Heq; try discriminate.
      apply (f_equal String.length) in Heq. simpl in Heq.
      rewrite !string_length_app in Heq. simpl in Heq. lia.
    + simpl in Heq. injection Heq as _ Heq. by apply (IH b).
Qed.

(** ** The reconciliation key *)

Section keys.
Import dnsmanager spec.

Lemma prepareRecordKey_apex (d : DNSRecord) :
  Name d = "@" → prepareRecordKey d = Root d +:+ "|" +:+ Type_ d.
Proof. intros H. unfold prepareRecordKey, String. rewrite H. done. Qed.

Lemma prepareRecordKey_sub (d : DNSRecord) :
  Name d ≠ "@" → prepareRecordKey d = (Name d +:+ "." +:+ Root d) +:+ "|" +:+ Type_ d.
Proof.
  intros H. unfold prepareRecordKey, String.
  by rewrite bool_decide_eq_true_2.
Qed.

Lemma isHostRecord_kind (o : dns.RecordResponse) :
  isHostRecord o = true ↔ isKind (dns.Type_ o).
Proof. unfold isHostRecord. by rewrite bool_decide_eq_true. Qed.

(** Between two names filed under one of the two kinds, equal keys
    mean equal names and equal kinds. *)
Lemma host_key_inj (n1 t1 n2 t2 : string) :
  isKind t1 → isKind t2 →
  n1 +:+ "|" +:+ t1 = n2 +:+ "|" +:+ t2 → n1 = n2 ∧ t1 = t2.
Proof.
  unfold isKind, ARecord, AAAARecord.
  intros [-> | ->] [-> | ->] Heq.
  - split; [|done]. by apply (string_app_inv_tail _ _ "|A").
  - by apply string_kind_suffixes_differ in Heq.
  - symmetry in Heq. by apply string_kind_suffixes_differ in Heq.
  - split; [|done]. by apply (string_app_inv_tail _ _ "|AAAA").
Qed.

Lemma prepareRecordKey_fullName (d : DNSRecord) :
  prepareRecordKey d = fullName d +:+ "|" +:+ Type_ d.
Proof.
  unfold fullName. case_bool_decide as H.
  - by apply prepareRecordKey_apex.
  - by apply prepareRecordKey_sub.
Qed.

Lemma key_match_iff (d : DNSRecord) (o : dns.RecordResponse) :
  isKind (Type_ d) → isHostRecord o = true →
  prepareRecordKey d = existingKey o ↔ dns.Name o = fullName d ∧ dns.Type_ o = Type_ d.
Proof.
  intros Hd Ho. apply isHostRecord_kind in Ho.
  rewrite prepareRecordKey_fullName. unfold existingKey. split.
  - intros Heq. apply host_key_inj in Heq as [-> ->]; done.
  - intros [-> ->]. done.
Qed.

(** Within a zone, the full name tells the name. *)
Lemma fullName_inj_in_zone (d1 d2 : DNSRecord) :
  Root d1 = Root d2 → fullName d1 = fullName d2 → Name d1 = Name d2.
Proof.
  intros Hr. unfold fullName. rewrite Hr.
  repeat case_bool_decide; intros Heq; try congruence.
  - apply (f_equal String.length) in Heq.
    rewrite !string_length_app in Heq. simpl in Heq. lia.
  - apply (f_equal String.length) in Heq.
    rewrite !string_length_app in Heq. simpl in Heq. lia.
  - rewrite <- !string_app_assoc in Heq.
    apply string_app_inv_tail in Heq.
    by apply (string_app_inv_tail _ _ ".").
Qed.
End keys.

(** ** The map of existing records *)

Section existing_map.
Import dnsmanager spec.

Lemma existingRecordMap_nil : existingRecordMap [] = ∅.
Proof. done. Qed.

Lemma existingRecordMap_snoc (l : list dns.RecordResponse) (rec : dns.RecordResponse) :
  existingRecordMap (l ++ [rec]) = fileRecord (existingRecordMap l) rec.
Proof. unfold existingRecordMap. by rewrite fold_left_app. Qed.

(** Whatever is found in the map came from the provider's list, is an
    A or AAAA record, and sits under its own key. *)
Lemma existingRecordMap_lookup_Some (l : list dns.RecordResponse) (k : string)
    (o : dns.RecordResponse) :
  existingRecordMap l !! k = Some o →
  o ∈ l ∧ isHostRecord o = true ∧ existingKey o = k.
Proof.
  induction l as [|rec l IH] using rev_ind; intros Hk.
  - by rewrite existingRecordMap_nil, lookup_empty in Hk.
  - rewrite existingRecordMap_snoc in Hk. unfold fileRecord in Hk.
    destruct (isHostRecord rec) eqn:Hrec.
    + destruct (decide (existingKey rec = k)) as [<- | Hne].
      * rewrite lookup_insert_eq in Hk. injection Hk as <-.
        split; [set_solver | done].
      * rewrite lookup_insert_ne in Hk by done.
        destruct (IH Hk) as (? & ? & ?). split; [set_solver | done].
    + destruct (IH Hk) as (? & ? & ?). split; [set_solver | done].
Qed.

(** Nothing is found under a key exactly when no A or AAAA record of
    the list has it. *)
Lemma existingRecordMap_lookup_None (l : list dns.RecordResponse) (k : string) :
  existingRecordMap l !! k = None ↔
  ∀ o, o ∈ l → isHostRecord o = true → existingKey o ≠ k.
Proof.
  induction l as [|rec l IH] using rev_ind.
  - rewrite existingRecordMap_nil, lookup_empty. split; [set_solver | done].
  - rewrite existingRecordMap_snoc. unfold fileRecord.
    destruct (isHostRecord rec) eqn:Hrec.
    + destruct (decide (existingKey rec = k)) as [<- | Hne].
      * rewrite lookup_insert_eq. split; [done |].
        intros H. exfalso. apply (H rec); [set_solver | done | done].
      * rewrite lookup_insert_ne by done. rewrite IH. split.
        -- intros H o [Ho | ->%list_elem_of_singleton]%elem_of_app; eauto.
        -- intros H o Ho. apply H. set_solver.
    + rewrite IH. split.
      * intros H o [Ho | ->%list_elem_of_singleton]%elem_of_app; [eauto | congruence].
      * intros H o Ho. apply H. set_solver.
Qed.

(** Ties are broken by the last record in the provider's order. *)
Lemma existingRecordMap_last_wins (l1 l2 : list dns.RecordResponse)
    (o : dns.RecordResponse) :
  isHostRecord o = true →
  (∀ o', o' ∈ l2 → isHostRecord o' = true → existingKey o' ≠ existingKey o) →
  existingRecordMap (l1 ++ o :: l2) !! existingKey o = Some o.
Proof.
  intros Ho. induction l2 as [|rec l2 IH] using rev_ind; intros Hl2.
  - rewrite existingRecordMap_snoc. unfold fileRecord. rewrite Ho.
    by rewrite lookup_insert_eq.
  - replace (l1 ++ o :: l2 ++ [rec]) with ((l1 ++ o :: l2) ++ [rec])
      by (by rewrite <- app_assoc).
    rewrite existingRecordMap_snoc. unfold fileRecord.
    destruct (isHostRecord rec) eqn:Hrec.
    + rewrite lookup_insert_ne.
      * apply IH. intros o' Ho'. apply Hl2. set_solver.
      * apply Hl2; [set_solver | done].
    + apply IH. intros o' Ho'. apply Hl2. set_solver.
Qed.
End existing_map.

(** ** The observed record of a desired record *)

Section observed.
Import dnsmanager spec.

Lemma lastListed_snoc (l : list dns.RecordResponse) (rec : dns.RecordResponse)
    (name kind : string) :
  lastListed (l ++ [rec]) name kind
  = if decide (dns.Name rec = name ∧ dns.Type_ rec = kind) then Some rec
    else lastListed l name kind.
Proof.
  unfold lastListed. rewrite filter_app, filter_cons, filter_nil.
  case_decide; [by rewrite last_snoc | by rewrite app_nil_r].
Qed.

(** The lookup of the reconciler, in terms of the provider's list:
    under the key of a name and a kind it finds the record listed
    last with that name and kind. *)
Lemma lookup_lastListed (l : list dns.RecordResponse) (name kind : string) :
  isKind kind →
  existingRecordMap l !! (name +:+ "|" +:+ kind) = lastListed l name kind.
Proof.
  intros Hkind. induction l as [|rec l IH] using rev_ind; [done |].
  rewrite existingRecordMap_snoc, lastListed_snoc. unfold fileRecord.
  case_decide as Hrec.
  - destruct Hrec as [<- <-].
    rewrite (proj2 (isHostRecord_kind rec) Hkind). unfold existingKey.
    by rewrite lookup_insert_eq.
  - destruct (isHostRecord rec) eqn:Hhost; [| done].
    rewrite lookup_insert_ne; [done |]. unfold existingKey. intros Heq.
    apply host_key_inj in Heq as [? ?]; [tauto | | done].
    by apply isHostRecord_kind.
Qed.

Lemma lookup_desired (l : list dns.RecordResponse) (d : DNSRecord) :
  isKind (Type_ d) →
  existingRecordMap l !! prepareRecordKey d = lastListed l (fullName d) (Type_ d).
Proof. intros Hd. rewrite prepareRecordKey_fullName. by apply lookup_lastListed. Qed.

Lemma relevantIP_kind (kind ipv4 ipv6 ip : string) :
  relevantIP kind ipv4 ipv6 = Some ip → isKind kind.
Proof.
  unfold relevantIP, isKind, ARecord, AAAARecord.
  repeat case_bool_decide; intros; simplify_eq; auto.
Qed.








(** The address the reconciler compares with, and the test by which
    it skips a record, in terms of the address the record's kind
    publishes. *)
Lemma expectedContent_relevantIP (d : DNSRecord) (ipv4 ipv6 ip : string) :
  relevantIP (Type_ d) ipv4 ipv6 = Some ip →
  expectedContent d ipv4 ipv6 = ip ∧ (skipped d ipv4 ipv6 = false ↔ ip ≠ "").
Proof.
  unfold relevantIP, expectedContent, skipped, ARecord, AAAARecord.
  destruct (decide (Type_ d = "A")) as [HA | HA].
  - rewrite !(bool_decide_eq_true_2 (Type_ d = "A")) by done. intros [= <-].
    split; [done |]. rewrite orb_false_iff, !bool_decide_eq_false.
    split; [intros [H _] ? | intros ?; split; intros [? ?]]; try tauto. congruence.
  - rewrite !(bool_decide_eq_false_2 (Type_ d = "A")) by done.
    case_bool_decide as H6; [| done]. intros [= <-].
    rewrite (bool_decide_eq_true_2 _ H6).
    split; [done |]. rewrite orb_false_iff, !bool_decide_eq_false.
    split; [intros [_ H] ? | intros ?; split; intros [? ?]]; tauto.
Qed.
End observed.

(** ** The two batches *)

Section batches.
Import dnsmanager spec.

Variables (existingRecords : list dns.RecordResponse) (ipv4 ipv6 : string).

Local Abbreviation existing := (existingRecordMap existingRecords).

Lemma plan_nil : plan existingRecords [] ipv4 ipv6 = ([], []).
Proof. done. Qed.

Lemma plan_snoc (records : list DNSRecord) (d : DNSRecord) :
  plan existingRecords (records ++ [d]) ipv4 ipv6
  = ensure_step existing ipv4 ipv6 (plan existingRecords records ipv4 ipv6) d.
Proof. unfold plan. by rewrite fold_left_app. Qed.

(** A desired record is in the create batch exactly when it has an
    address to publish and nothing is filed under its key. *)
Lemma plan_create_iff (records : list DNSRecord) (d : DNSRecord) :
  d ∈ (plan existingRecords records ipv4 ipv6).1 ↔
  d ∈ records ∧ skipped d ipv4 ipv6 = false ∧ existing !! prepareRecordKey d = None.
Proof.
  induction records as [|x records IH] using rev_ind.
  - rewrite plan_nil. simpl. rewrite !elem_of_nil. tauto.
  - rewrite plan_snoc.
    destruct (plan existingRecords records ipv4 ipv6) as [c u]. simpl in IH.
    unfold ensure_step.
    destruct (skipped x ipv4 ipv6) eqn:Hx; simpl.
    { rewrite IH, elem_of_app, list_elem_of_singleton. split.
      - intros (? & ? & ?). auto.
      - intros ([? | ->] & ? & ?); [auto | congruence]. }
    destruct (existing !! prepareRecordKey x) as [o|] eqn:Hk.
    + assert (d ∈ c ↔ d ∈ records ++ [x] ∧ skipped d ipv4 ipv6 = false
                      ∧ existing !! prepareRecordKey d = None) as Hc.
      { rewrite IH, elem_of_app, list_elem_of_singleton. split.
        - intros (? & ? & ?). auto.
        - intros ([? | ->] & ? & ?); [auto | congruence]. }
      by case_bool_decide.
    + simpl. rewrite !elem_of_app, IH, list_elem_of_singleton. split.
      * intros [(? & ? & ?) | ->]; auto.
      * intros ([? | ->] & ? & ?); auto.
Qed.

(** An entry is in the update batch exactly when its desired record
    has an address to publish, a record is filed under its key, that
    record differs in content or in the proxied flag, and the entry
    carries that record's ID. *)
Lemma plan_update_iff (records : list DNSRecord) (u : UpdateDNSRecord) :
  u ∈ (plan existingRecords records ipv4 ipv6).2 ↔
  Embedded u ∈ records ∧ skipped (Embedded u) ipv4 ipv6 = false ∧
  ∃ o, existing !! prepareRecordKey (Embedded u) = Some o
       ∧ differs o (Embedded u) ipv4 ipv6 ∧ ID u = dns.ID o.
Proof.
  induction records as [|x records IH] using rev_ind.
  - rewrite plan_nil. simpl. rewrite !elem_of_nil. tauto.
  - rewrite plan_snoc.
    destruct (plan existingRecords records ipv4 ipv6) as [c us]. simpl in IH.
    unfold ensure_step.
    destruct (skipped x ipv4 ipv6) eqn:Hx; simpl.
    { rewrite IH, elem_of_app, list_elem_of_singleton. split.
      - intros (? & ? & ?). auto.
      - intros ([? | Heq] & Hs & ?); [auto |]. rewrite Heq in Hs. congruence. }
    destruct (existing !! prepareRecordKey x) as [o|] eqn:Hk.
    + case_bool_decide as Hd; simpl.
      * rewrite !elem_of_app, IH, !list_elem_of_singleton. split.
        -- intros [(? & ? & ?) | ->]; simpl; [auto |].
           split; [by right |]. split; [done |]. by exists o.
        -- intros ([Hin | Heq] & Hs & o' & Hk' & Hd' & Hid);
             [left; split; [done |]; split; [done |]; by exists o' |].
           right. destruct u as [id e]. simpl in *. subst e.
           rewrite Hk in Hk'. injection Hk' as <-. by subst id.
      * rewrite IH, elem_of_app, list_elem_of_singleton. split.
        -- intros (? & ? & ?). auto.
        -- intros ([Hin | Heq] & Hs & o' & Hk' & Hd' & Hid);
             [split; [done |]; split; [done |]; by exists o' |].
           rewrite Heq, Hk in Hk'. injection Hk' as <-.
           rewrite Heq in Hd'. done.
    + simpl. rewrite IH, elem_of_app, list_elem_of_singleton. split.
      * intros (? & ? & ?). auto.
      * intros ([Hin | Heq] & Hs & o' & Hk' & Hd'); [| by rewrite Heq, Hk in Hk'].
        split; [done |]; split; [done |]; by exists o'.
Qed.
End batches.

(** ** Runs of the DNS manager *)

(** Unfold the monad down to the functions of the client and the
    runtime. *)
Ltac go_unfold :=
  unfold bind, ret, emit, logPrint, perform, value, final, events in *; simpl in *.

(** A property of every event of a trace put together with [++] and
    [::]. *)
Ltac forall_events :=
  repeat first [ apply Forall_nil_2
               | apply Forall_cons_2
               | apply Forall_app_2 ];
  try done.

(** The same, in the goal only. *)
Ltac go_goal :=
  unfold bind, ret, emit, logPrint, perform, value, final, events; simpl.

Section manager_runs.
Import dnsmanager spec.
Context {St : Type} `{client : !CloudflareClient St}.

(** [EnsureDNSRecords] along its three paths: the listing fails; both
    batches are empty; one batch call is made. *)
Lemma EnsureDNSRecords_run (zoneID : string) (records : list DNSRecord)
    (ipv4 ipv6 : string) (st : St) :
  EnsureDNSRecords zoneID records ipv4 ipv6 st =
  let listCall := CallListDNSRecords {| dns.ListZoneID := zoneID |} in
  match ListDNSRecords {| dns.ListZoneID := zoneID |} st with
  | ((_, Some e), st1) => (Some (listFailure e), st1, [listCall])
  | ((existingRecords, None), st1) =>
      let p := plan existingRecords records ipv4 ipv6 in
      match p with
      | ([], []) => (None, st1, [listCall; Log LogNoRecords])
      | _ =>
          let batchReq := batchRequest zoneID p.1 p.2 ipv4 ipv6 in
          let '(err, st2) := BatchDNSRecords batchReq st1 in
          (batchResult err, st2, [listCall; CallBatchDNSRecords batchReq])
      end
  end.
Proof.
  unfold EnsureDNSRecords, GetDNSRecords, callListDNSRecords, callBatchDNSRecords.
  go_unfold.
  destruct (ListDNSRecords _ st) as [[existingRecords [e|]] st1]; simpl; [done |].
  destruct (plan existingRecords records ipv4 ipv6) as [c u]; simpl.
  destruct c as [|x c], u as [|y u]; simpl; try done;
    destruct (BatchDNSRecords _ st1) as [[e|] st2]; done.
Qed.
End manager_runs.

(** ** What goes into the request *)

Section request.
Import dnsmanager spec.

Variables (ipv4 ipv6 : string).

Lemma prepareBatchCreate_snoc (records : list DNSRecord) (d : DNSRecord) :
  prepareBatchCreate (records ++ [d]) ipv4 ipv6
  = prepareBatchCreate_step ipv4 ipv6 (prepareBatchCreate records ipv4 ipv6) d.
Proof. unfold prepareBatchCreate. by rewrite fold_left_app. Qed.

Lemma prepareBatchUpdate_snoc (records : list UpdateDNSRecord) (u : UpdateDNSRecord) :
  prepareBatchUpdate (records ++ [u]) ipv4 ipv6
  = prepareBatchUpdate_step ipv4 ipv6 (prepareBatchUpdate records ipv4 ipv6) u.
Proof. unfold prepareBatchUpdate. by rewrite fold_left_app. Qed.

Lemma prepareBatchCreate_omap (records : list DNSRecord) :
  prepareBatchCreate records ipv4 ipv6 = omap (postOf ipv4 ipv6) records.
Proof.
  induction records as [|d records IH] using rev_ind; [done |].
  rewrite prepareBatchCreate_snoc, IH, omap_app. simpl.
  unfold prepareBatchCreate_step, postOf.
  repeat case_bool_decide; simpl; by rewrite ?app_nil_r.
Qed.

Lemma prepareBatchUpdate_omap (records : list UpdateDNSRecord) :
  prepareBatchUpdate records ipv4 ipv6 = omap (putOf ipv4 ipv6) records.
Proof.
  induction records as [|u records IH] using rev_ind; [done |].
  rewrite prepareBatchUpdate_snoc, IH, omap_app. simpl.
  unfold prepareBatchUpdate_step, putOf.
  repeat case_bool_decide; simpl; by rewrite ?app_nil_r.
Qed.

Lemma postOf_Some (d : DNSRecord) (p : dns.RecordBatchParamsPostUnion) :
  postOf ipv4 ipv6 d = Some p → isKind (Type_ d) ∧ dns.PostType p = Type_ d.
Proof.
  unfold postOf, isKind. repeat case_bool_decide; intros [= <-]; simpl; auto.
Qed.

Lemma putOf_Some (u : UpdateDNSRecord) (p : dns.BatchPutUnionParam) :
  putOf ipv4 ipv6 u = Some p →
  isKind (Type_ (Embedded u)) ∧ dns.PutType p = Type_ (Embedded u) ∧ dns.PutID p = ID u.
Proof.
  unfold putOf, isKind. repeat case_bool_decide; intros [= <-]; simpl; auto.
Qed.

Lemma batchRequest_Posts (zoneID : string) (c : list DNSRecord)
    (u : list UpdateDNSRecord) :
  default [] (dns.Posts (batchRequest zoneID c u ipv4 ipv6))
  = prepareBatchCreate c ipv4 ipv6.
Proof. by destruct c. Qed.

Lemma batchRequest_Puts (zoneID : string) (c : list DNSRecord)
    (u : list UpdateDNSRecord) :
  default [] (dns.Puts (batchRequest zoneID c u ipv4 ipv6))
  = prepareBatchUpdate u ipv4 ipv6.
Proof. by destruct u. Qed.
End request.

(** ** The reconciler *)

Section reconciler.
Import dnsmanager spec.
Context {St : Type} `{client : !CloudflareClient St}.

(** C1 (minimal diff). When the listing succeeds, [EnsureDNSRecords]
    sends the two batches computed from it, or nothing when both are
    empty. Take a desired record [d] whose kind publishes the address
    [ip] (the IPv4 address for kind A, the IPv6 address for kind
    AAAA), not empty, and for which the provider lists the record [o]
    last under the full name and kind of [d]. The entry for [d]
    carrying the ID of [o] is in the update batch if and only if the
    content of [o] differs from [ip] or its proxied flag differs from
    the desired one; it is then sent, in the one request of the call,
    under the ID of [o], with the kind and name of [d], the content
    [ip] and the desired flag; every update entry for [d] carries that
    ID and stems from such a difference; [d] is never in the create
    batch; and when content and flag both match, [d] is in neither
    batch. *)
Theorem EnsureDNSRecords_minimal_diff (zoneID : string) (records : list DNSRecord)
    (ipv4 ipv6 : string) (st st1 : St) (existingRecords : list dns.RecordResponse)
    (d : DNSRecord) (o : dns.RecordResponse) (ip : string) :
  ListDNSRecords {| dns.ListZoneID := zoneID |} st = ((existingRecords, None), st1) →
  d ∈ records →
  relevantIP (Type_ d) ipv4 ipv6 = Some ip →
  ip ≠ "" →
  lastListed existingRecords (fullName d) (Type_ d) = Some o →
  let recordsToCreate := (plan existingRecords records ipv4 ipv6).1 in
  let recordsToUpdate := (plan existingRecords records ipv4 ipv6).2 in
  let listCall := CallListDNSRecords {| dns.ListZoneID := zoneID |} in
  let request := batchRequest zoneID recordsToCreate recordsToUpdate ipv4 ipv6 in
  let unequal := dns.Content o ≠ ip ∨ dns.Proxied o ≠ Proxied d in
  events (EnsureDNSRecords zoneID records ipv4 ipv6 st)
    = (if bool_decide (recordsToCreate = [] ∧ recordsToUpdate = [])
       then [listCall; Log LogNoRecords]
       else [listCall; CallBatchDNSRecords request])
  ∧ ({| ID := dns.ID o; Embedded := d |} ∈ recordsToUpdate ↔ unequal)
  ∧ (unequal →
     events (EnsureDNSRecords zoneID records ipv4 ipv6 st)
       = [listCall; CallBatchDNSRecords request]
     ∧ ∃ p, p ∈ default [] (dns.Puts request)
            ∧ dns.PutID p = dns.ID o
            ∧ dns.PutType p = Type_ d
            ∧ putParam p = {| dns.ParamName := Name d;
                              dns.ParamContent := ip;
                              dns.ParamProxied := Proxied d;
                              dns.ParamTTL := 1 |})
  ∧ (∀ u, u ∈ recordsToUpdate → Embedded u = d → ID u = dns.ID o ∧ unequal)
  ∧ (d ∉ recordsToCreate)
  ∧ (¬ unequal →
     (d ∉ recordsToCreate) ∧ ∀ u, u ∈ recordsToUpdate → Embedded u ≠ d).
Proof.
  intros Hlist Hd Hip Hne Hlast. cbv zeta.
  pose proof (relevantIP_kind _ _ _ _ Hip) as Hkind.
  destruct (expectedContent_relevantIP d ipv4 ipv6 ip Hip) as [Hexp Hskip].
  apply Hskip in Hne as Hns.
  assert (existingRecordMap existingRecords !! prepareRecordKey d = Some o) as Hk
    by (by rewrite lookup_desired).
  assert (differs o d ipv4 ipv6 ↔ dns.Content o ≠ ip ∨ dns.Proxied o ≠ Proxied d)
    as Hdiffers by (unfold differs; by rewrite Hexp).
  assert ({| ID := dns.ID o; Embedded := d |} ∈ (plan existingRecords records ipv4 ipv6).2
          ↔ dns.Content o ≠ ip ∨ dns.Proxied o ≠ Proxied d) as Hiff.
  { rewrite <- Hdiffers, plan_update_iff. simpl. split.
    - intros (_ & _ & o' & Hk' & Hdiff & _). rewrite Hk in Hk'. by injection Hk' as <-.
    - intros Hdiff. split; [done |]. split; [done |]. by exists o. }
  assert (∀ u, u ∈ (plan existingRecords records ipv4 ipv6).2 → Embedded u = d →
               ID u = dns.ID o ∧ (dns.Content o ≠ ip ∨ dns.Proxied o ≠ Proxied d))
    as Hany.
  { intros u Hu Heq. apply plan_update_iff in Hu as (_ & _ & o' & Hk' & Hdiff & Hid).
    rewrite Heq, Hk in Hk'. injection Hk' as <-. rewrite Heq in Hdiff.
    split; [done | by apply Hdiffers]. }
  assert (d ∉ (plan existingRecords records ipv4 ipv6).1) as Hnc.
  { rewrite plan_create_iff. intros (_ & _ & Hnone). by rewrite Hk in Hnone. }
  assert (events (EnsureDNSRecords zoneID records ipv4 ipv6 st)
          = (if bool_decide ((plan existingRecords records ipv4 ipv6).1 = []
                             ∧ (plan existingRecords records ipv4 ipv6).2 = [])
             then [CallListDNSRecords {| dns.ListZoneID := zoneID |}; Log LogNoRecords]
             else [CallListDNSRecords {| dns.ListZoneID := zoneID |};
                   CallBatchDNSRecords
                     (batchRequest zoneID (plan existingRecords records ipv4 ipv6).1
                        (plan existingRecords records ipv4 ipv6).2 ipv4 ipv6)]))
    as Hev.
  { unfold events. rewrite EnsureDNSRecords_run, Hlist. simpl.
    destruct (plan existingRecords records ipv4 ipv6) as [c u]; simpl.
    destruct c as [|x c], u as [|y u]; simpl; try done;
      by destruct (BatchDNSRecords _ st1). }
  split; [done |]. split; [done |].
  split; [| split; [done | split; [done |]]].
  - intros Hdiff. apply Hiff in Hdiff as Hin. split.
    + rewrite Hev. rewrite bool_decide_eq_false_2; [done |].
      intros [_ Hu]. rewrite Hu in Hin. by apply elem_of_nil in Hin.
    + rewrite batchRequest_Puts, prepareBatchUpdate_omap.
      destruct Hkind as [HA | HA].
      * exists (dns.BatchPutARecordParam (dns.ID o) (toDNSARecord d ipv4)).
        split.
        { apply list_elem_of_omap. eexists. split; [exact Hin |].
          unfold putOf. simpl. by rewrite bool_decide_eq_true_2. }
        unfold relevantIP in Hip. rewrite HA in Hip. injection Hip as <-.
        by rewrite HA.
      * exists (dns.BatchPutAAAARecordParam (dns.ID o) (toDNSAAAARecord d ipv6)).
        split.
        { apply list_elem_of_omap. eexists. split; [exact Hin |].
          unfold putOf. simpl. rewrite HA.
          by rewrite bool_decide_eq_false_2, bool_decide_eq_true_2. }
        unfold relevantIP in Hip. rewrite HA in Hip. injection Hip as <-.
        by rewrite HA.
  - intros Hsame. split; [done |]. intros u Hu Heq.
    by destruct (Hany u Hu Heq) as [_ ?].
Qed.
End reconciler.

Lemma EnsureDNSRecords_minimal_diff_witness :
  {| dnsmanager.ID := "r3"; dnsmanager.Embedded := example.www6 |}
    ∈ (dnsmanager.plan [example.apexOld; example.www6New]
         [example.apex; example.www6] "2.2.2.2" "2001:db8::2").2
  ↔ dns.Content example.www6New ≠ "2001:db8::2"
    ∨ dns.Proxied example.www6New ≠ dnsmanager.Proxied example.www6.
Proof.
  pose proof (@EnsureDNSRecords_minimal_diff unit
    (dnsmanager.mockClient (example.provider [example.apexOld; example.www6New]))
    "z1" [example.apex; example.www6] "2.2.2.2" "2001:db8::2" tt tt
    [example.apexOld; example.www6New] example.www6 example.www6New
    "2001:db8::2") as H.
  apply H; [reflexivity | | reflexivity | discriminate | reflexivity].
  apply list_elem_of_further, list_elem_of_here.
Defined.

Section reconciler_idempotence.
Import dnsmanager spec.
Context {St : Type} `{client : !CloudflareClient St}.

(** Both batches are empty exactly when the provider's records show
    what the desired records ask for. *)
Lemma plan_empty_iff (existingRecords : list dns.RecordResponse)
    (records : list DNSRecord) (ipv4 ipv6 : string) :
  plan existingRecords records ipv4 ipv6 = ([], []) ↔
  settled existingRecords records ipv4 ipv6.
Proof.
  split.
  - intros Hp d Hd Hs.
    destruct (existingRecordMap existingRecords !! prepareRecordKey d) as [o|] eqn:Hk.
    + exists o. split; [done |].
      destruct (decide (dns.Content o = expectedContent d ipv4 ipv6)) as [Hc | Hc];
        [destruct (decide (dns.Proxied o = Proxied d)) as [Hx | Hx]; [done |] |];
        exfalso;
        assert ({| ID := dns.ID o; Embedded := d |}
                  ∈ (plan existingRecords records ipv4 ipv6).2) as Hin
          by (apply plan_update_iff; simpl; split; [done |]; split; [done |];
              exists o; unfold differs; auto);
        rewrite Hp in Hin; by apply elem_of_nil in Hin.
    + exfalso.
      assert (d ∈ (plan existingRecords records ipv4 ipv6).1) as Hin
        by (by apply plan_create_iff).
      rewrite Hp in Hin. by apply elem_of_nil in Hin.
  - intros Hset.
    destruct (plan existingRecords records ipv4 ipv6) as [c u] eqn:Hp.
    destruct c as [|x c].
    + destruct u as [|y u]; [done |]. exfalso.
      assert (y ∈ (plan existingRecords records ipv4 ipv6).2) as Hin
        by (rewrite Hp; apply list_elem_of_here).
      apply plan_update_iff in Hin as (Hy & Hs & o & Hk & [Hd | Hd] & _);
        destruct (Hset _ Hy Hs) as (o' & Hk' & Hc & Hx);
        rewrite Hk in Hk'; injection Hk' as <-; done.
    + exfalso.
      assert (x ∈ (plan existingRecords records ipv4 ipv6).1) as Hin
        by (rewrite Hp; apply list_elem_of_here).
      apply plan_create_iff in Hin as (Hx & Hs & Hk).
      destruct (Hset _ Hx Hs) as (o' & Hk' & _). by rewrite Hk in Hk'.
Qed.

End reconciler_idempotence.

(** ** What a call leaves at a provider that applies its batch *)

Section after_batch.
Import dnsmanager spec.

Variables (root : string) (l : list dns.RecordResponse).
Variables (records : list DNSRecord) (ipv4 ipv6 : string).

Hypothesis Hkinds : Forall (λ d, isKind (Type_ d)) records.
Hypothesis Hroot : Forall (λ d, Root d = root) records.
Hypothesis Hdesired :
  ∀ d1 d2, d1 ∈ records → d2 ∈ records →
           Name d1 = Name d2 → Type_ d1 = Type_ d2 → Proxied d1 = Proxied d2.
Hypothesis Hids : NoDup (dns.ID <$> l).

Local Abbreviation creates := ((plan l records ipv4 ipv6).1).
Local Abbreviation updates := ((plan l records ipv4 ipv6).2).
Local Abbreviation posts := (prepareBatchCreate creates ipv4 ipv6).
Local Abbreviation puts := (prepareBatchUpdate updates ipv4 ipv6).












End after_batch.

(** ** Idempotence *)

Section idempotence.
Import dnsmanager spec.
Context {St : Type} `{client : !CloudflareClient St}.

End idempotence.



(** Nor is this a matter of the provider: whatever the provider
    lists, the two batches computed for these two desired records
    are not both empty. *)
Example conflicting_records_never_settle (l : list dns.RecordResponse) :
  let other := {| dnsmanager.Root := "example.com"; dnsmanager.Name := "www";
                  dnsmanager.Type_ := "A"; dnsmanager.Proxied := false |} in
  dnsmanager.plan l [example.www; other] "2.2.2.2" "" ≠ ([], []).
Proof.
  intros other Hp. apply plan_empty_iff in Hp.
  destruct (Hp example.www) as (o & Ho & _ & Hx);
    [apply list_elem_of_here | done |].
  destruct (Hp other) as (o' & Ho' & _ & Hx');
    [apply list_elem_of_further, list_elem_of_here | done |].
  change (dnsmanager.prepareRecordKey other)
    with (dnsmanager.prepareRecordKey example.www) in Ho'.
  rewrite Ho in Ho'. injection Ho' as <-. simpl in Hx, Hx'. congruence.
Qed.

(** ** What the reconciler leaves alone *)

Section reconciler_frame.
Import dnsmanager spec.
Context {St : Type} `{client : !CloudflareClient St}.

Lemma skipped_AAAA (d : DNSRecord) (ipv4 : string) :
  Type_ d = AAAARecord → skipped d ipv4 "" = true.
Proof.
  intros H. unfold skipped.
  rewrite (bool_decide_eq_true_2 (Type_ d = AAAARecord ∧ _)) by done.
  apply orb_true_r.
Qed.

Lemma skipped_A (d : DNSRecord) (ipv6 : string) :
  Type_ d = ARecord → skipped d "" ipv6 = true.
Proof.
  intros H. unfold skipped.
  by rewrite (bool_decide_eq_true_2 (Type_ d = ARecord ∧ _)) by done.
Qed.

(** Whatever is in one of the two batches had an address to publish. *)
Lemma plan_not_skipped (existingRecords : list dns.RecordResponse)
    (records : list DNSRecord) (ipv4 ipv6 : string) :
  (∀ d, d ∈ (plan existingRecords records ipv4 ipv6).1 → skipped d ipv4 ipv6 = false)
  ∧ (∀ u, u ∈ (plan existingRecords records ipv4 ipv6).2 →
          skipped (Embedded u) ipv4 ipv6 = false).
Proof.
  split.
  - by intros d (_ & ? & _)%plan_create_iff.
  - by intros u (_ & ? & _)%plan_update_iff.
Qed.

(** An error of [EnsureDNSRecords] is an error of the provider: of
    the listing, or of the batch call. *)
Lemma EnsureDNSRecords_error_origin (zoneID : string) (records : list DNSRecord)
    (ipv4 ipv6 : string) (st : St) (err : error) :
  value (EnsureDNSRecords zoneID records ipv4 ipv6 st) = Some err →
  (∃ e, (ListDNSRecords {| dns.ListZoneID := zoneID |} st).1.2 = Some e
        ∧ err = listFailure e)
  ∨ (∃ e req st1, (BatchDNSRecords req st1).1 = Some e
                  ∧ CallBatchDNSRecords req
                      ∈ events (EnsureDNSRecords zoneID records ipv4 ipv6 st)
                  ∧ err = Wrap "failed to execute batch DNS record update: " e).
Proof.
  rewrite EnsureDNSRecords_run. unfold value, events.
  destruct (ListDNSRecords _ st) as [[existingRecords [e|]] st1]; simpl.
  - intros [= <-]. left. by exists e.
  - destruct (plan existingRecords records ipv4 ipv6) as [c u]; simpl.
    destruct c as [|x c], u as [|y u]; simpl; try done;
      match goal with
      | |- context [BatchDNSRecords ?req st1] =>
          destruct (BatchDNSRecords req st1) as [[e|] st2] eqn:Hb; simpl; [| done];
          intros [= <-]; right; exists e, req, st1; rewrite Hb; simpl;
          split; [done |]; split; [| done];
          apply list_elem_of_further, list_elem_of_here
      end.
Qed.

(** The entries of the request are the entries prepared from the two
    batches; an unset field stands for no entries. *)

(** A batch call is only ever made after a successful listing, with
    the request built from the two batches computed from it. *)
Lemma EnsureDNSRecords_batch_sent (zoneID : string) (records : list DNSRecord)
    (ipv4 ipv6 : string) (st : St) (req : dns.RecordBatchParams) :
  CallBatchDNSRecords req ∈ events (EnsureDNSRecords zoneID records ipv4 ipv6 st) →
  ∃ existingRecords st1,
    ListDNSRecords {| dns.ListZoneID := zoneID |} st = ((existingRecords, None), st1)
    ∧ req = batchRequest zoneID (plan existingRecords records ipv4 ipv6).1
                         (plan existingRecords records ipv4 ipv6).2 ipv4 ipv6.
Proof.
  rewrite EnsureDNSRecords_run. unfold events.
  destruct (ListDNSRecords _ st) as [[existingRecords [e|]] st1]; simpl.
  - intros Hin. apply list_elem_of_singleton in Hin. discriminate.
  - intros Hin. exists existingRecords, st1. split; [done |].
    destruct (plan existingRecords records ipv4 ipv6) as [c u]; simpl in *.
    destruct c as [|x c], u as [|y u]; simpl in *;
      try (destruct (BatchDNSRecords _ st1) as [? ?]; simpl in Hin);
      repeat (apply elem_of_cons in Hin as [Hin | Hin]; [try discriminate |]);
      try (by apply elem_of_nil in Hin);
      by injection Hin.
Qed.

(** C3 (no-op on a missing address). With an empty IPv6 address no
    AAAA record is in the create batch, in the update batch, or among
    the entries prepared for the request, whatever the provider
    holds; likewise for A records with an empty IPv4 address. A
    record left out this way causes no error: whenever
    [EnsureDNSRecords] returns one, it is the error of a provider
    call. *)
Theorem EnsureDNSRecords_skips_missing_address (zoneID : string)
    (records : list DNSRecord) (ipv4 ipv6 : string) (st : St)
    (existingRecords : list dns.RecordResponse) :
  let recordsToCreate := (plan existingRecords records ipv4 ipv6).1 in
  let recordsToUpdate := (plan existingRecords records ipv4 ipv6).2 in
  (ipv6 = "" →
     (∀ d, d ∈ recordsToCreate → Type_ d ≠ AAAARecord)
     ∧ (∀ u, u ∈ recordsToUpdate → Type_ (Embedded u) ≠ AAAARecord)
     ∧ (∀ p, p ∈ prepareBatchCreate recordsToCreate ipv4 ipv6 → dns.PostType p ≠ "AAAA")
     ∧ (∀ p, p ∈ prepareBatchUpdate recordsToUpdate ipv4 ipv6 → dns.PutType p ≠ "AAAA"))
  ∧ (ipv4 = "" →
     (∀ d, d ∈ recordsToCreate → Type_ d ≠ ARecord)
     ∧ (∀ u, u ∈ recordsToUpdate → Type_ (Embedded u) ≠ ARecord)
     ∧ (∀ p, p ∈ prepareBatchCreate recordsToCreate ipv4 ipv6 → dns.PostType p ≠ "A")
     ∧ (∀ p, p ∈ prepareBatchUpdate recordsToUpdate ipv4 ipv6 → dns.PutType p ≠ "A"))
  ∧ (∀ req,
       CallBatchDNSRecords req ∈ events (EnsureDNSRecords zoneID records ipv4 ipv6 st) →
       (ipv6 = "" →
          (∀ p, p ∈ default [] (dns.Posts req) → dns.PostType p ≠ "AAAA")
          ∧ (∀ p, p ∈ default [] (dns.Puts req) → dns.PutType p ≠ "AAAA"))
       ∧ (ipv4 = "" →
          (∀ p, p ∈ default [] (dns.Posts req) → dns.PostType p ≠ "A")
          ∧ (∀ p, p ∈ default [] (dns.Puts req) → dns.PutType p ≠ "A")))
  ∧ (∀ err, value (EnsureDNSRecords zoneID records ipv4 ipv6 st) = Some err →
       (∃ e, (ListDNSRecords {| dns.ListZoneID := zoneID |} st).1.2 = Some e
             ∧ err = listFailure e)
       ∨ (∃ e req st1, (BatchDNSRecords req st1).1 = Some e
                       ∧ CallBatchDNSRecords req
                           ∈ events (EnsureDNSRecords zoneID records ipv4 ipv6 st)
                       ∧ err = Wrap "failed to execute batch DNS record update: " e)).
Proof.
  simpl.
  assert (∀ ex,
    (ipv6 = "" →
     (∀ d, d ∈ (plan ex records ipv4 ipv6).1 → Type_ d ≠ AAAARecord)
     ∧ (∀ u, u ∈ (plan ex records ipv4 ipv6).2 → Type_ (Embedded u) ≠ AAAARecord)
     ∧ (∀ p, p ∈ prepareBatchCreate (plan ex records ipv4 ipv6).1 ipv4 ipv6
             → dns.PostType p ≠ "AAAA")
     ∧ (∀ p, p ∈ prepareBatchUpdate (plan ex records ipv4 ipv6).2 ipv4 ipv6
             → dns.PutType p ≠ "AAAA"))
    ∧ (ipv4 = "" →
     (∀ d, d ∈ (plan ex records ipv4 ipv6).1 → Type_ d ≠ ARecord)
     ∧ (∀ u, u ∈ (plan ex records ipv4 ipv6).2 → Type_ (Embedded u) ≠ ARecord)
     ∧ (∀ p, p ∈ prepareBatchCreate (plan ex records ipv4 ipv6).1 ipv4 ipv6
             → dns.PostType p ≠ "A")
     ∧ (∀ p, p ∈ prepareBatchUpdate (plan ex records ipv4 ipv6).2 ipv4 ipv6
             → dns.PutType p ≠ "A"))) as Hplan; last first.
  { destruct (Hplan existingRecords) as [H6 H4].
    split; [done |]. split; [done |]. split.
    - intros req (ex & st1 & _ & ->)%EnsureDNSRecords_batch_sent.
      rewrite batchRequest_Posts, batchRequest_Puts.
      destruct (Hplan ex) as [H6' H4']. split.
      + intros Hv. by destruct (H6' Hv) as (_ & _ & ? & ?).
      + intros Hv. by destruct (H4' Hv) as (_ & _ & ? & ?).
    - intros err. apply EnsureDNSRecords_error_origin. }
  clear existingRecords. intros existingRecords.
  destruct (plan_not_skipped existingRecords records ipv4 ipv6) as [Hc Hu].
  split.
  - intros ->.
    assert (∀ d, d ∈ (plan existingRecords records ipv4 "").1 → Type_ d ≠ AAAARecord) as H1.
    { intros d Hd Ht. apply Hc in Hd. by rewrite skipped_AAAA in Hd. }
    assert (∀ u, u ∈ (plan existingRecords records ipv4 "").2
                 → Type_ (Embedded u) ≠ AAAARecord) as H2.
    { intros u Hin Ht. apply Hu in Hin. by rewrite skipped_AAAA in Hin. }
    split; [done |]. split; [done |]. split.
    + intros p. rewrite prepareBatchCreate_omap.
      intros (d & Hd & Hp)%list_elem_of_omap.
      apply postOf_Some in Hp as [_ ->]. by apply H1.
    + intros p. rewrite prepareBatchUpdate_omap.
      intros (u & Hin & Hp)%list_elem_of_omap.
      apply putOf_Some in Hp as (_ & -> & _). by apply H2.
  - intros ->.
    assert (∀ d, d ∈ (plan existingRecords records "" ipv6).1 → Type_ d ≠ ARecord) as H1.
    { intros d Hd Ht. apply Hc in Hd. by rewrite skipped_A in Hd. }
    assert (∀ u, u ∈ (plan existingRecords records "" ipv6).2
                 → Type_ (Embedded u) ≠ ARecord) as H2.
    { intros u Hin Ht. apply Hu in Hin. by rewrite skipped_A in Hin. }
    split; [done |]. split; [done |]. split.
    + intros p. rewrite prepareBatchCreate_omap.
      intros (d & Hd & Hp)%list_elem_of_omap.
      apply postOf_Some in Hp as [_ ->]. by apply H1.
    + intros p. rewrite prepareBatchUpdate_omap.
      intros (u & Hin & Hp)%list_elem_of_omap.
      apply putOf_Some in Hp as (_ & -> & _). by apply H2.
Qed.
End reconciler_frame.

Lemma EnsureDNSRecords_skips_missing_address_witness :
  Forall (λ d, dnsmanager.Type_ d ≠ dnsmanager.AAAARecord)
    (dnsmanager.plan [example.apexOld] [example.apex; example.www6] "2.2.2.2" "").1
  ∧ Forall (λ p, dns.PostType p ≠ "AAAA")
      (dnsmanager.prepareBatchCreate
         (dnsmanager.plan [example.apexOld] [example.apex; example.www6] "2.2.2.2" "").1
         "2.2.2.2" "").
Proof.
  pose proof (@EnsureDNSRecords_skips_missing_address unit
    (dnsmanager.mockClient (example.provider [example.apexOld]))
    "z1" [example.apex; example.www6] "2.2.2.2" "" tt [example.apexOld]) as H.
  cbv zeta in H. destruct H as [H _].
  destruct (H eq_refl) as (H1 & _ & H3 & _).
  split; apply Forall_forall; assumption.
Defined.

(** The scenario of the changed address: the apex record is held at the
    old address and [www] is not held at all; the apex goes into the
    update batch under the ID the provider gave it, [www] into the
    create batch, and one request carries both. *)
Example EnsureDNSRecords_changed_address :
  let r := @dnsmanager.EnsureDNSRecords unit
             (dnsmanager.mockClient (example.provider [example.apexOld]))
             "z1" [example.apex; example.www] "2.2.2.2" "" tt in
  dnsmanager.plan [example.apexOld] [example.apex; example.www] "2.2.2.2" ""
    = ([example.www],
       [{| dnsmanager.ID := "r1"; dnsmanager.Embedded := example.apex |}])
  ∧ events r
    = [CallListDNSRecords {| dns.ListZoneID := "z1" |};
       CallBatchDNSRecords
         {| dns.ZoneID := "z1";
            dns.Posts := Some [dns.ARecordParam
                                 {| dns.ParamName := "www"; dns.ParamContent := "2.2.2.2";
                                    dns.ParamProxied := true; dns.ParamTTL := 1 |}];
            dns.Puts := Some [dns.BatchPutARecordParam "r1"
                                {| dns.ParamName := "@"; dns.ParamContent := "2.2.2.2";
                                   dns.ParamProxied := false; dns.ParamTTL := 1 |}] |}]
  ∧ value r = None.
Proof. vm_compute. done. Qed.

(** A desired record of a type outside the data model (the
    configuration admits A and AAAA only) is kept by the second loop,
    since nothing is filed under its key, and dropped when the request
    is prepared: the request is sent with no entry. *)
Example EnsureDNSRecords_other_type :
  let cname := {| dnsmanager.Root := "example.com"; dnsmanager.Name := "www";
                  dnsmanager.Type_ := "CNAME"; dnsmanager.Proxied := false |} in
  let r := @dnsmanager.EnsureDNSRecords unit
             (dnsmanager.mockClient (example.provider [example.apexNew]))
             "z1" [cname] "2.2.2.2" "" tt in
  dnsmanager.plan [example.apexNew] [cname] "2.2.2.2" "" = ([cname], [])
  ∧ events r
    = [CallListDNSRecords {| dns.ListZoneID := "z1" |};
       CallBatchDNSRecords
         {| dns.ZoneID := "z1"; dns.Posts := Some []; dns.Puts := None |}].
Proof. vm_compute. done. Qed.

Section reconciler_writes.
Import dnsmanager spec.
Context {St : Type} `{client : !CloudflareClient St}.

(** C5 (one write, no delete). A call of [EnsureDNSRecords] makes at
    most one batch call and no delete call. When the listing succeeds
    and both batches are empty it returns success after the listing
    and one log line, with no write. In a batch that is sent, every
    create entry is for a desired record of kind A or AAAA, and every
    update entry is for a desired record of kind A or AAAA and
    carries the ID of a listed record of that same kind: a record of
    another type, desired or existing, is in no batch. *)
Theorem EnsureDNSRecords_single_write (zoneID : string) (records : list DNSRecord)
    (ipv4 ipv6 : string) (st : St) :
  let r := EnsureDNSRecords zoneID records ipv4 ipv6 st in
  (length (filter isBatchWrite (events r)) ≤ 1)%nat
  ∧ filter isDelete (events r) = []
  ∧ (∀ existingRecords st1,
       ListDNSRecords {| dns.ListZoneID := zoneID |} st = ((existingRecords, None), st1) →
       plan existingRecords records ipv4 ipv6 = ([], []) →
       r = (None, st1, [CallListDNSRecords {| dns.ListZoneID := zoneID |};
                        Log LogNoRecords]))
  ∧ (∀ req, CallBatchDNSRecords req ∈ events r →
       ∃ existingRecords,
         (ListDNSRecords {| dns.ListZoneID := zoneID |} st).1 = (existingRecords, None)
         ∧ (∀ p, p ∈ default [] (dns.Posts req) →
              ∃ d, d ∈ records ∧ isKind (Type_ d) ∧ dns.PostType p = Type_ d)
         ∧ (∀ p, p ∈ default [] (dns.Puts req) →
              ∃ d o, d ∈ records ∧ o ∈ existingRecords
                     ∧ isKind (Type_ d) ∧ isHostRecord o = true
                     ∧ dns.Type_ o = Type_ d
                     ∧ dns.PutType p = Type_ d ∧ dns.PutID p = dns.ID o)).
Proof.
  simpl. split; [| split; [| split]].
  - rewrite EnsureDNSRecords_run. unfold events.
    destruct (ListDNSRecords _ st) as [[existingRecords [e|]] st1]; simpl; [lia |].
    destruct (plan existingRecords records ipv4 ipv6) as [c u]; simpl.
    destruct c as [|x c], u as [|y u]; simpl; try lia;
      destruct (BatchDNSRecords _ st1) as [? ?]; simpl; lia.
  - rewrite EnsureDNSRecords_run. unfold events.
    destruct (ListDNSRecords _ st) as [[existingRecords [e|]] st1]; simpl; [done |].
    destruct (plan existingRecords records ipv4 ipv6) as [c u]; simpl.
    destruct c as [|x c], u as [|y u]; simpl; try done;
      by destruct (BatchDNSRecords _ st1) as [? ?].
  - intros existingRecords st1 Hlist Hp.
    rewrite EnsureDNSRecords_run, Hlist. simpl. by rewrite Hp.
  - intros req (existingRecords & st1 & Hlist & ->)%EnsureDNSRecords_batch_sent.
    exists existingRecords. rewrite Hlist. split; [done |].
    rewrite batchRequest_Posts, batchRequest_Puts. split.
    + intros p. rewrite prepareBatchCreate_omap.
      intros (d & Hd & Hp)%list_elem_of_omap.
      apply plan_create_iff in Hd as (Hd & _ & _).
      apply postOf_Some in Hp as [Hk Ht]. by exists d.
    + intros p. rewrite prepareBatchUpdate_omap.
      intros (u & Hu & Hp)%list_elem_of_omap.
      apply plan_update_iff in Hu as (Hd & _ & o & Hlook & _ & Hid).
      apply putOf_Some in Hp as (Hk & Ht & Hpid).
      apply existingRecordMap_lookup_Some in Hlook as (Ho & Hhost & Hkey).
      exists (Embedded u), o.
      assert (dns.Type_ o = Type_ (Embedded u)) as Hty.
      { symmetry in Hkey. by apply key_match_iff in Hkey as [_ ?]. }
      rewrite Hpid, Hid. done.
Qed.
End reconciler_writes.

(** ** Matching by key *)

Section matching.
Import dnsmanager spec.

(** C4 (the reconciliation key). The key of a desired record is
    [root|kind] for the name [@] and [name.root|kind] otherwise.
    Among records of kind A or AAAA (the only ones filed in the map
    of existing records), a desired record named [@] has the key of
    an existing record exactly when that record's full name is the
    zone root and its kind is the same; a desired record named [www]
    on [example.com] has the key of an existing record exactly when
    that record's full name is [www.example.com] and its kind is the
    same. What the lookup of [EnsureDNSRecords] finds for a desired
    record is a listed record with the desired full name and kind,
    and it finds one whenever such a record is listed. *)
Theorem prepareRecordKey_matching (d : DNSRecord) (o : dns.RecordResponse)
    (existingRecords : list dns.RecordResponse) :
  prepareRecordKey d
    = (if bool_decide (Name d = "@")
       then Root d +:+ "|" +:+ Type_ d
       else Name d +:+ "." +:+ Root d +:+ "|" +:+ Type_ d)
  ∧ (isKind (Type_ d) → isHostRecord o = true → Name d = "@" →
     (prepareRecordKey d = existingKey o ↔
      dns.Name o = Root d ∧ dns.Type_ o = Type_ d))
  ∧ (isKind (Type_ d) → isHostRecord o = true →
     Name d = "www" → Root d = "example.com" →
     (prepareRecordKey d = existingKey o ↔
      dns.Name o = "www.example.com" ∧ dns.Type_ o = Type_ d))
  ∧ (isKind (Type_ d) →
     existingRecordMap existingRecords !! prepareRecordKey d = Some o →
     o ∈ existingRecords ∧ dns.Name o = fullName d ∧ dns.Type_ o = Type_ d)
  ∧ (isKind (Type_ d) → o ∈ existingRecords →
     dns.Name o = fullName d → dns.Type_ o = Type_ d →
     ∃ o', existingRecordMap existingRecords !! prepareRecordKey d = Some o'
           ∧ dns.Name o' = fullName d ∧ dns.Type_ o' = Type_ d).
Proof.
  split; [| split; [| split; [| split]]].
  - rewrite prepareRecordKey_fullName. unfold fullName.
    case_bool_decide; [done |]. by rewrite string_app_assoc.
  - intros Hk Ho Hn. rewrite (key_match_iff d o Hk Ho).
    unfold fullName. by rewrite Hn.
  - intros Hk Ho Hn Hr. rewrite (key_match_iff d o Hk Ho).
    unfold fullName. by rewrite Hn, Hr.
  - intros Hk (Hin & Ho & Hkey)%existingRecordMap_lookup_Some.
    split; [done |]. symmetry in Hkey. by apply key_match_iff in Hkey.
  - intros Hk Hin Hn Ht.
    assert (isHostRecord o = true) as Ho
      by (apply isHostRecord_kind; by rewrite Ht).
    destruct (existingRecordMap existingRecords !! prepareRecordKey d) as [o'|] eqn:Hl.
    + exists o'. split; [done |].
      apply existingRecordMap_lookup_Some in Hl as (_ & Ho' & Hkey).
      symmetry in Hkey. by apply key_match_iff in Hkey.
    + exfalso. apply existingRecordMap_lookup_None with (o := o) in Hl; [| done | done].
      apply Hl. symmetry. by apply key_match_iff.
Qed.
End matching.

(** Outside the two kinds the key does not determine the name: a
    desired record whose type holds the separator has the key of an A
    record with another name. *)
Example key_outside_kinds :
  let d := {| dnsmanager.Root := "com"; dnsmanager.Name := "@";
              dnsmanager.Type_ := "B|A"; dnsmanager.Proxied := false |} in
  let o := {| dns.ID := "r"; dns.Name := "com|B"; dns.Type_ := "A";
              dns.Content := "1.1.1.1"; dns.Proxied := false |} in
  dnsmanager.prepareRecordKey d = dnsmanager.existingKey o
  ∧ dnsmanager.isHostRecord o = true
  ∧ dns.Name o ≠ dnsmanager.Root d.
Proof. vm_compute. done. Qed.

Lemma prepareRecordKey_matching_witness :
  dnsmanager.prepareRecordKey example.www = dnsmanager.existingKey example.wwwNew
  ↔ dns.Name example.wwwNew = "www.example.com"
    ∧ dns.Type_ example.wwwNew = dnsmanager.Type_ example.www.
Proof.
  pose proof (prepareRecordKey_matching example.www example.wwwNew [example.wwwNew])
    as (_ & _ & H & _).
  apply H; [by left | reflexivity | reflexivity | reflexivity].
Defined.

(** ** The zone resolver *)

Section zone_resolver.
Import dnsmanager spec ipwatcher.
Context {St : Type} `{client : !CloudflareClient St}.

Lemma GetZoneIDByName_run (zoneName : string) (st : St) :
  GetZoneIDByName zoneName st =
  let listCall := CallListZones {| zones.NameFilter := zoneName |} in
  match ListZones {| zones.NameFilter := zoneName |} st with
  | ((_, Some e), st1) => (("", Some (Wrap "failed to list zones: " e)), st1, [listCall])
  | (([], None), st1) =>
      (("", Some (Errorf ("zone " +:+ zoneName +:+ " not found"))), st1, [listCall])
  | ((z :: _, None), st1) => ((zones.ID z, None), st1, [listCall])
  end.
Proof.
  unfold GetZoneIDByName, callListZones. go_unfold.
  by destruct (ListZones _ st) as [[[|z zs] [e|]] st1].
Qed.

(** C6 (zone resolution). [GetZoneIDByName] makes one listing call
    with the name as filter. It returns the not-found error naming
    the zone exactly when the listing succeeds with an empty list;
    when the listing succeeds with a non-empty list it returns the ID
    of the first zone; when the listing fails it returns that failure
    wrapped. [getZoneID] on a cache hit returns the cached ID,
    touches nothing and calls nothing; on a miss it does what
    [GetZoneIDByName] does, and stores the ID under the name when one
    was resolved, leaving the cache alone otherwise. *)
Theorem zone_resolution (zoneName : string) (st : St) (w : IPWatcher St) :
  let notFound := Errorf ("zone " +:+ zoneName +:+ " not found") in
  events (GetZoneIDByName zoneName st) = [CallListZones {| zones.NameFilter := zoneName |}]
  ∧ (value (GetZoneIDByName zoneName st) = ("", Some notFound) ↔
     (ListZones {| zones.NameFilter := zoneName |} st).1 = ([], None))
  ∧ (∀ err, (value (GetZoneIDByName zoneName st)).2 = Some err →
       err = notFound
       ∨ ∃ e, (ListZones {| zones.NameFilter := zoneName |} st).1.2 = Some e
              ∧ err = Wrap "failed to list zones: " e)
  ∧ match (ListZones {| zones.NameFilter := zoneName |} st).1 with
    | (z :: _, None) => value (GetZoneIDByName zoneName st) = (zones.ID z, None)
    | ([], None) => value (GetZoneIDByName zoneName st) = ("", Some notFound)
    | (_, Some e) =>
        value (GetZoneIDByName zoneName st) = ("", Some (Wrap "failed to list zones: " e))
    end
  ∧ match zoneCache w !! zoneName with
    | Some zoneID => getZoneID zoneName w = ((zoneID, None), w, [])
    | None =>
        let r := GetZoneIDByName zoneName (outside w) in
        let r' := getZoneID zoneName w in
        events r' = events r
        ∧ outside (final r') = final r
        ∧ match value r with
          | (zID, None) =>
              value r' = (zID, None)
              ∧ zoneCache (final r') = <[zoneName := zID]> (zoneCache w)
              ∧ zoneCache (final r') !! zoneName = Some zID
          | (_, Some e) =>
              value r' = ("", Some e) ∧ zoneCache (final r') = zoneCache w
          end
    end.
Proof.
  simpl. split; [| split; [| split; [| split]]].
  - rewrite GetZoneIDByName_run. unfold events.
    by destruct (ListZones _ st) as [[[|z zs] [e|]] st1].
  - rewrite GetZoneIDByName_run. unfold value.
    destruct (ListZones _ st) as [[[|z zs] [e|]] st1]; simpl;
      split; intros H; try done; by inversion H.
  - intros err. rewrite GetZoneIDByName_run. unfold value.
    destruct (ListZones _ st) as [[[|z zs] [e|]] st1]; simpl; intros [= <-];
      by (by left) || (right; by exists e).
  - rewrite GetZoneIDByName_run. unfold value.
    by destruct (ListZones _ st) as [[[|z zs] [e|]] st1].
  - unfold getZoneID, gets, call, storeZone, modify. go_unfold.
    destruct (zoneCache w !! zoneName) as [zoneID|] eqn:Hc; simpl; [done |].
    destruct (GetZoneIDByName zoneName (outside w)) as [[[zID [e|]] st1] t]; simpl.
    + by rewrite app_nil_r.
    + rewrite !app_nil_r. by rewrite lookup_insert_eq.
Qed.
End zone_resolver.

Lemma zone_resolution_witness :
  value (@dnsmanager.GetZoneIDByName unit (dnsmanager.mockClient example.emptyProvider)
           "nosuchzone.com" tt)
  = ("", Some (Errorf "zone nosuchzone.com not found")).
Proof.
  pose proof (@zone_resolution unit (dnsmanager.mockClient example.emptyProvider)
                "nosuchzone.com" tt
                (ipwatcher.NewIPWatcher
                   {| config.RefreshRate := 1%Z; config.SyncRate := 1%Z;
                      config.SupportsIPv6 := false; config.Domains := [] |} tt))
    as (_ & H & _).
  apply H. reflexivity.
Defined.

(** ** The sweep over the domains *)

Section sweeps.
Import dnsmanager spec ipwatcher.
Context {St : Type} `{client : !CloudflareClient St}.

Lemma outcomes_app (t1 t2 : list Event) :
  outcomes (t1 ++ t2) = outcomes t1 ++ outcomes t2.
Proof. apply omap_app. Qed.

Lemma getZoneID_outcomes (zoneName : string) (w : IPWatcher St) :
  outcomes (events (getZoneID zoneName w)) = [].
Proof.
  unfold getZoneID, gets, call, storeZone, modify. go_unfold.
  destruct (zoneCache w !! zoneName) as [zoneID|]; simpl; [done |].
  pose proof (GetZoneIDByName_run zoneName (outside w)) as Hrun.
  destruct (GetZoneIDByName zoneName (outside w)) as [[[zID err] st1] t].
  assert (t = [CallListZones {| zones.NameFilter := zoneName |}]) as ->.
  { simpl in Hrun.
    destruct (ListZones _ (outside w)) as [[[|z zs] [e|]] st2]; by inversion Hrun. }
  by destruct err.
Qed.

Lemma EnsureDNSRecords_outcomes (zoneID : string) (records : list DNSRecord)
    (ipv4 ipv6 : string) (w : IPWatcher St) :
  outcomes (events (call (EnsureDNSRecords zoneID records ipv4 ipv6) w)) = [].
Proof.
  unfold call, events. rewrite EnsureDNSRecords_run. simpl.
  destruct (ListDNSRecords _ (outside w)) as [[existingRecords [e|]] st1]; simpl; [done |].
  destruct (plan existingRecords records ipv4 ipv6) as [c u]; simpl.
  destruct c as [|x c], u as [|y u]; simpl; try done;
    by destruct (BatchDNSRecords _ st1) as [? ?].
Qed.

(** One domain of a sweep: the zone lookup, then the reconciliation
    of the domain's records unless the lookup failed, then the line
    for the domain. *)
Lemma sweep_step_run (logFailed : string → error → LogLine) (logOk : string → LogLine)
    (ipv4 ipv6 : string) (lastErr : option error) (domain : config.Domain)
    (w : IPWatcher St) :
  sweep_step logFailed logOk ipv4 ipv6 lastErr domain w =
  let rz := getZoneID (config.ZoneName domain) w in
  match value rz with
  | (_, Some e) =>
      (Some e, final rz, events rz ++ [Log (LogZoneIDFailed (config.ZoneName domain) e)])
  | (zoneID, None) =>
      let re := call (EnsureDNSRecords zoneID (dnsRecordsOf domain) ipv4 ipv6) (final rz) in
      match value re with
      | Some e =>
          (Some e, final re,
           events rz ++ events re ++ [Log (logFailed (config.ZoneName domain) e)])
      | None =>
          (lastErr, final re,
           events rz ++ events re ++ [Log (logOk (config.ZoneName domain))])
      end
  end.
Proof.
  unfold sweep_step. go_goal.
  destruct (getZoneID (config.ZoneName domain) w) as [[[zoneID [e|]] w1] tz]; simpl;
    [done |].
  destruct (call (EnsureDNSRecords zoneID (dnsRecordsOf domain) ipv4 ipv6) w1)
    as [[[e|] w2] te]; simpl; by rewrite <- ?app_assoc.
Qed.

(** The desired records of a configured domain: one for each
    configured record, in order, with the zone name as root. *)
Lemma dnsRecordsOf_desired (domain : config.Domain) :
  Forall2 (λ c x, Root x = config.ZoneName domain ∧ Name x = config.Name c
                  ∧ Type_ x = config.Type_ c ∧ Proxied x = config.Proxied c)
          (config.Records domain) (dnsRecordsOf domain).
Proof.
  unfold dnsRecordsOf. induction (config.Records domain) as [|c cs IH]; simpl;
    by constructor.
Qed.

(** The four fields tell a desired record. *)
Lemma desired_unique (zoneName : string) (cs : list config.Record_)
    (xs ys : list DNSRecord) :
  Forall2 (λ c x, Root x = zoneName ∧ Name x = config.Name c
                  ∧ Type_ x = config.Type_ c ∧ Proxied x = config.Proxied c) cs xs →
  Forall2 (λ c x, Root x = zoneName ∧ Name x = config.Name c
                  ∧ Type_ x = config.Type_ c ∧ Proxied x = config.Proxied c) cs ys →
  xs = ys.
Proof.
  intros Hx. revert ys. induction Hx as [|c x cs xs (H1 & H2 & H3 & H4) _ IH];
    intros ys Hy; inversion Hy as [|? y ? ys' (G1 & G2 & G3 & G4) Hys]; subst; [done |].
  f_equal; [| by apply IH]. destruct x, y; simpl in *; congruence.
Qed.

(** [EnsureDNSRecords] always begins by listing the records of the
    zone. *)
Lemma EnsureDNSRecords_lists (zoneID : string) (records : list DNSRecord)
    (ipv4 ipv6 : string) (w : IPWatcher St) :
  CallListDNSRecords {| dns.ListZoneID := zoneID |}
    ∈ events (call (EnsureDNSRecords zoneID records ipv4 ipv6) w).
Proof.
  unfold call, events. rewrite EnsureDNSRecords_run. simpl.
  destruct (ListDNSRecords _ (outside w)) as [[existingRecords [e|]] st1]; simpl;
    [apply list_elem_of_here |].
  destruct (plan existingRecords records ipv4 ipv6) as [c u]; simpl.
  destruct c as [|x c], u as [|y u]; simpl;
    try (destruct (BatchDNSRecords _ st1) as [? ?]; simpl);
    apply list_elem_of_here.
Qed.

Section one_sweep.
Variables (logFailed : string → error → LogLine) (logOk : string → LogLine).
Variables (ipv4 ipv6 : string).
Hypothesis logFailed_outcome :
  ∀ z e, domainOutcome (Log (logFailed z e)) = Some (z, Some e).
Hypothesis logOk_outcome :
  ∀ z, domainOutcome (Log (logOk z)) = Some (z, None).

Local Abbreviation step := (sweep_step logFailed logOk ipv4 ipv6).

(** One domain: whatever the earlier domains came to, the domain is
    looked up and reconciled, one line is logged for it, and
    [lastErr] changes only if it failed. *)
Lemma sweep_step_outcome (lastErr : option error) (domain : config.Domain)
    (w : IPWatcher St) :
  outcomes (events (step lastErr domain w))
    = [(config.ZoneName domain, domainError ipv4 ipv6 domain w)]
  ∧ value (step lastErr domain w)
    = match domainError ipv4 ipv6 domain w with
      | Some e => Some e
      | None => lastErr
      end.
Proof.
  unfold domainError.
  pose proof (getZoneID_outcomes (config.ZoneName domain) w) as Hz.
  unfold sweep_step. unfold events in Hz. go_goal.
  destruct (getZoneID (config.ZoneName domain) w) as [[[zoneID [e|]] w1] tz];
    simpl in Hz |- *.
  - rewrite outcomes_app, Hz. done.
  - pose proof (EnsureDNSRecords_outcomes zoneID (dnsRecordsOf domain) ipv4 ipv6 w1)
      as He.
    unfold events in He.
    destruct (call (EnsureDNSRecords zoneID (dnsRecordsOf domain) ipv4 ipv6) w1)
      as [[[e|] w2] te]; simpl in He |- *;
      rewrite !outcomes_app, Hz, He; simpl;
      [pose proof (logFailed_outcome (config.ZoneName domain) e) as HL
      | pose proof (logOk_outcome (config.ZoneName domain)) as HL];
      simpl in HL; by rewrite HL.
Qed.

Lemma sweep_cons (d : config.Domain) (ds : list config.Domain)
    (lastErr : option error) (w : IPWatcher St) :
  sweep step (d :: ds) lastErr w
  = let r1 := step lastErr d w in
    let r2 := sweep step ds (value r1) (final r1) in
    (value r2, final r2, events r1 ++ events r2).
Proof.
  simpl. go_goal. destruct (step lastErr d w) as [[e1 w1] t1]. simpl.
  by destruct (sweep step ds e1 w1) as [[e2 w2] t2].
Qed.

Lemma sweep_app (ds1 ds2 : list config.Domain) (lastErr : option error)
    (w : IPWatcher St) :
  sweep step (ds1 ++ ds2) lastErr w
  = let r1 := sweep step ds1 lastErr w in
    let r2 := sweep step ds2 (value r1) (final r1) in
    (value r2, final r2, events r1 ++ events r2).
Proof.
  revert lastErr w. induction ds1 as [|d ds1 IH]; intros lastErr w.
  - simpl. go_goal. by destruct (sweep step ds2 lastErr w) as [[? ?] ?].
  - rewrite <- app_comm_cons, !sweep_cons. cbv zeta. rewrite IH. cbv zeta.
    unfold value, final, events. simpl. by rewrite app_assoc.
Qed.

(** The whole loop: one line per domain, in the configured order,
    and the last error of those lines as the result. *)
Lemma sweep_outcomes (domains : list config.Domain) (lastErr : option error)
    (w : IPWatcher St) :
  (outcomes (events (sweep step domains lastErr w))).*1 = config.ZoneName <$> domains
  ∧ value (sweep step domains lastErr w)
    = lastErrorFrom lastErr (outcomes (events (sweep step domains lastErr w))).
Proof.
  revert lastErr w. induction domains as [|d ds IH]; intros lastErr w.
  - done.
  - rewrite sweep_cons. cbv zeta.
    destruct (sweep_step_outcome lastErr d w) as [Ho Hv].
    destruct (IH (value (step lastErr d w)) (final (step lastErr d w))) as [IH1 IH2].
    split.
    + unfold events at 1. simpl. rewrite outcomes_app, Ho. simpl.
      f_equal. exact IH1.
    + unfold value at 1, events at 1. simpl. rewrite outcomes_app, Ho, IH2, Hv. done.
Qed.

(** The line of each domain carries the error the domain came to in
    the state the domains before it left behind. *)
Lemma sweep_each (ds1 ds2 : list config.Domain) (domain : config.Domain)
    (lastErr : option error) (w : IPWatcher St) :
  outcomes (events (sweep step (ds1 ++ domain :: ds2) lastErr w)) !! length ds1
  = Some (config.ZoneName domain,
          domainError ipv4 ipv6 domain (final (sweep step ds1 lastErr w))).
Proof.
  rewrite sweep_app. cbv zeta. rewrite sweep_cons. cbv zeta.
  unfold events at 1. simpl. unfold events at 2. simpl.
  rewrite !outcomes_app.
  destruct (sweep_outcomes ds1 lastErr w) as [Hn _].
  assert (length (outcomes (events (sweep step ds1 lastErr w))) = length ds1) as Hlen.
  { rewrite <- (length_fmap fst), Hn. by rewrite length_fmap. }
  rewrite lookup_app_r by lia. rewrite Hlen, Nat.sub_diag.
  destruct (sweep_step_outcome (value (sweep step ds1 lastErr w)) domain
              (final (sweep step ds1 lastErr w))) as [Ho _].
  unfold events in Ho at 1. by rewrite Ho.
Qed.

(** What the sweep does when it reaches a domain: on the watcher the
    domains before left, the zone lookup and, if the zone is
    resolved, the reconciliation of the domain's records; their
    events follow those of the domains before, and the next domains
    go on from where they leave the watcher. *)
Lemma sweep_attempt (ds1 ds2 : list config.Domain) (domain : config.Domain)
    (lastErr : option error) (w : IPWatcher St) :
  let before := sweep step ds1 lastErr w in
  let rz := getZoneID (config.ZoneName domain) (final before) in
  let re zoneID :=
    call (EnsureDNSRecords zoneID (dnsRecordsOf domain) ipv4 ipv6) (final rz) in
  let reached := sweep step (ds1 ++ [domain]) lastErr w in
  (∃ line,
     events reached
     = events before
       ++ events rz
       ++ match value rz with
          | (_, Some _) => []
          | (zoneID, None) => events (re zoneID)
          end
       ++ [Log line]
     ∧ domainOutcome (Log line)
       = Some (config.ZoneName domain,
               match value rz with
               | (_, Some e) => Some e
               | (zoneID, None) => value (re zoneID)
               end))
  ∧ final reached
    = match value rz with
      | (_, Some _) => final rz
      | (zoneID, None) => final (re zoneID)
      end
  ∧ sweep step (ds1 ++ domain :: ds2) lastErr w
    = (let rest := sweep step ds2 (value reached) (final reached) in
       (value rest, final rest, events reached ++ events rest)).
Proof.
  cbv zeta. split; [| split].
  - rewrite sweep_app. cbv zeta. rewrite run_events.
    rewrite (sweep_cons domain []). cbv zeta. rewrite run_events. simpl.
    rewrite app_nil_r, sweep_step_run. cbv zeta.
    destruct (value (getZoneID _ _)) as [zoneID [e|]].
    + exists (LogZoneIDFailed (config.ZoneName domain) e). by rewrite run_events.
    + destruct (value (call _ _)) as [e|] eqn:Hve.
      * exists (logFailed (config.ZoneName domain) e). rewrite run_events.
        split; [done | apply logFailed_outcome].
      * exists (logOk (config.ZoneName domain)). rewrite run_events.
        split; [done | apply logOk_outcome].
  - rewrite sweep_app. cbv zeta. rewrite run_final.
    rewrite (sweep_cons domain []). cbv zeta. rewrite run_final. simpl.
    rewrite sweep_step_run. cbv zeta.
    destruct (value (getZoneID _ _)) as [zoneID [e|]]; [done |].
    by destruct (value (call _ _)) as [e|].
  - replace (ds1 ++ domain :: ds2) with ((ds1 ++ [domain]) ++ ds2)
      by (by rewrite <- app_assoc).
    by rewrite sweep_app.
Qed.
End one_sweep.
End sweeps.

(** What [lastError] picks: nothing when no outcome is an error, and
    otherwise the error after which every outcome is a success. *)
Lemma lastErrorFrom_snoc (init : option error) (os : list (string * option error))
    (o : string * option error) :
  spec.lastErrorFrom init (os ++ [o])
  = match o.2 with Some e => Some e | None => spec.lastErrorFrom init os end.
Proof. unfold spec.lastErrorFrom. by rewrite fold_left_app. Qed.

Lemma lastError_None (os : list (string * option error)) :
  spec.lastError os = None ↔ ∀ o, o ∈ os → o.2 = None.
Proof.
  unfold spec.lastError. induction os as [|o os IH] using rev_ind.
  - split; [| done]. intros _ o Ho. by apply elem_of_nil in Ho.
  - rewrite lastErrorFrom_snoc. destruct o as [z [e|]]; simpl.
    + split; [done |]. intros H. specialize (H (z, Some e)). simpl in H.
      apply H. apply elem_of_app. right. apply list_elem_of_here.
    + rewrite IH. split.
      * intros H o [Ho | ->%list_elem_of_singleton]%elem_of_app; auto.
      * intros H o Ho. apply H. apply elem_of_app. by left.
Qed.

Lemma lastError_Some (os : list (string * option error)) (e : error) :
  spec.lastError os = Some e ↔
  ∃ l1 z l2, os = l1 ++ (z, Some e) :: l2 ∧ ∀ o, o ∈ l2 → o.2 = None.
Proof.
  unfold spec.lastError. induction os as [|o os IH] using rev_ind.
  - split; [done |]. intros (l1 & z & l2 & H & _). by destruct l1.
  - rewrite lastErrorFrom_snoc. destruct o as [z [e'|]]; simpl.
    + split.
      * intros [= ->]. exists os, z, []. split; [done |].
        intros o Ho. by apply elem_of_nil in Ho.
      * intros (l1 & z' & l2 & H & Hl2).
        destruct l2 as [|x l2 _] using rev_ind.
        -- apply app_inj_tail in H as [_ H]. by injection H as _ ->.
        -- rewrite app_comm_cons, app_assoc in H.
           apply app_inj_tail in H as [_ <-].
           specialize (Hl2 (z, Some e')). simpl in Hl2. discriminate Hl2.
           apply elem_of_app. right. apply list_elem_of_here.
    + rewrite IH. split.
      * intros (l1 & z' & l2 & -> & Hl2). exists l1, z', (l2 ++ [(z, None)]).
        split; [by rewrite <- app_assoc |].
        intros o [Ho | ->%list_elem_of_singleton]%elem_of_app; auto.
      * intros (l1 & z' & l2 & H & Hl2).
        destruct l2 as [|x l2 _] using rev_ind.
        -- apply app_inj_tail in H as [_ H]. discriminate H.
        -- rewrite app_comm_cons, app_assoc in H.
           apply app_inj_tail in H as [-> <-].
           exists l1, z', l2. split; [done |].
           intros o Ho. apply Hl2. apply elem_of_app. by left.
Qed.

Section sweep_properties.
Import dnsmanager spec ipwatcher.
Context {St : Type} `{client : !CloudflareClient St}.

Lemma updateAllDNSRecords_run (w : IPWatcher St) :
  updateAllDNSRecords w
  = sweep (sweep_step LogEnsureFailed LogUpdated
             (loadString (currentIPv4 w)) (loadString (currentIPv6 w)))
          (config.Domains (config_ w)) None w.
Proof.
  unfold updateAllDNSRecords, gets. go_goal.
  by destruct (sweep _ _ None w) as [[? ?] ?].
Qed.

Lemma verifyDNSRecords_run (w : IPWatcher St) :
  verifyDNSRecords w
  = let r := sweep (sweep_step LogVerifyFailed LogUpToDate
                      (loadString (currentIPv4 w)) (loadString (currentIPv6 w)))
                   (config.Domains (config_ w)) None w in
    (value r, final r, Log LogVerifying :: events r).
Proof.
  unfold verifyDNSRecords, gets. go_goal.
  by destruct (sweep _ _ None w) as [[? ?] ?].
Qed.

(** C7 (best effort across domains). In a sweep, by
    [updateAllDNSRecords] or by [verifyDNSRecords], every configured
    domain is attempted, in the configured order, whatever the
    domains before it came to: when the sweep reaches a domain, on
    the watcher the domains before it left, it makes the zone lookup
    of the domain and, if the zone is resolved, runs
    [EnsureDNSRecords] for that zone on the records configured for
    the domain (one desired record per configured record, in order,
    with the zone name as root) and the stored addresses, so the
    provider is asked for the records of the zone; the calls of
    lookup and reconciliation are in the trace of the sweep, followed
    by the line logged for the domain and by the attempts of the
    domains after it, which go on from the watcher the attempt left.
    The line of a domain carries the error of its zone lookup, or
    else of its reconciliation; and the sweep returns the last error
    among those lines: no error when every domain succeeded, and
    otherwise the error after which every domain succeeded. *)
Theorem sweep_best_effort (w : IPWatcher St) :
  let domains := config.Domains (config_ w) in
  let ipv4 := loadString (currentIPv4 w) in
  let ipv6 := loadString (currentIPv6 w) in
  let sweeps :=
    [(updateAllDNSRecords w, sweep_step LogEnsureFailed LogUpdated ipv4 ipv6, []);
     (verifyDNSRecords w, sweep_step LogVerifyFailed LogUpToDate ipv4 ipv6,
      [Log LogVerifying])] in
  ∀ r step opening, (r, step, opening) ∈ sweeps →
    (outcomes (events r)).*1 = config.ZoneName <$> domains
    ∧ (∀ ds1 d ds2, domains = ds1 ++ d :: ds2 →
         outcomes (events r) !! length ds1
         = Some (config.ZoneName d,
                 domainError ipv4 ipv6 d (final (sweep step ds1 None w))))
    ∧ value r = lastError (outcomes (events r))
    ∧ (value r = None ↔ ∀ o, o ∈ outcomes (events r) → o.2 = None)
    ∧ (∀ e, value r = Some e ↔
            ∃ l1 z l2, outcomes (events r) = l1 ++ (z, Some e) :: l2
                       ∧ ∀ o, o ∈ l2 → o.2 = None)
    ∧ (∀ ds1 d ds2, domains = ds1 ++ d :: ds2 →
         let before := sweep step ds1 None w in
         let rz := getZoneID (config.ZoneName d) (final before) in
         let reached := sweep step (ds1 ++ [d]) None w in
         ∃ desired line,
           Forall2 (λ c x, Root x = config.ZoneName d ∧ Name x = config.Name c
                           ∧ Type_ x = config.Type_ c
                           ∧ Proxied x = config.Proxied c)
                   (config.Records d) desired
           ∧ let re zoneID :=
               call (EnsureDNSRecords zoneID desired ipv4 ipv6) (final rz) in
             events r
             = opening ++ events before ++ events rz
               ++ match value rz with
                  | (_, Some _) => []
                  | (zoneID, None) => events (re zoneID)
                  end
               ++ Log line
                  :: events (sweep step ds2 (value reached) (final reached))
             ∧ final reached
               = match value rz with
                 | (_, Some _) => final rz
                 | (zoneID, None) => final (re zoneID)
                 end
             ∧ domainOutcome (Log line)
               = Some (config.ZoneName d,
                       match value rz with
                       | (_, Some e) => Some e
                       | (zoneID, None) => value (re zoneID)
                       end)
             ∧ (∀ zoneID, value rz = (zoneID, None) →
                  CallListDNSRecords {| dns.ListZoneID := zoneID |} ∈ events r)).
Proof.
  simpl. intros r step opening Hin.
  assert (r = (value (sweep step (config.Domains (config_ w)) None w),
               final (sweep step (config.Domains (config_ w)) None w),
               opening ++ events (sweep step (config.Domains (config_ w)) None w))
          ∧ ((outcomes (events r)).*1 = config.ZoneName <$> config.Domains (config_ w)
             ∧ (∀ ds1 d ds2, config.Domains (config_ w) = ds1 ++ d :: ds2 →
                  outcomes (events r) !! length ds1
                  = Some (config.ZoneName d,
                          domainError (loadString (currentIPv4 w))
                            (loadString (currentIPv6 w)) d
                            (final (sweep step ds1 None w))))
             ∧ value r = lastError (outcomes (events r))))
    as (Hr & H1 & H2 & H3).
  { apply elem_of_cons in Hin as [[= -> -> ->] | Hin];
      [| apply list_elem_of_singleton in Hin as [= -> -> ->]].
    - rewrite updateAllDNSRecords_run. split.
      + by destruct (sweep _ _ None w) as [[? ?] ?].
      + split; [| split].
        * by apply sweep_outcomes.
        * intros ds1 d ds2 ->. by apply sweep_each.
        * by apply sweep_outcomes.
    - rewrite verifyDNSRecords_run. cbv zeta. split.
      + done.
      + unfold events at 1 2 3, value at 1. simpl.
        change (outcomes (Log LogVerifying :: ?t)) with (outcomes t).
        split; [| split].
        * by apply sweep_outcomes.
        * intros ds1 d ds2 ->. by apply sweep_each.
        * by apply sweep_outcomes. }
  split; [done |]. split; [done |]. split; [done |].
  split; [rewrite H3; apply lastError_None |].
  split; [intros e; rewrite H3; apply lastError_Some |].
  intros ds1 d ds2 Hsplit.
  assert (∃ logFailed logOk,
            step = sweep_step logFailed logOk (loadString (currentIPv4 w))
                     (loadString (currentIPv6 w))
            ∧ (∀ z e, domainOutcome (Log (logFailed z e)) = Some (z, Some e))
            ∧ (∀ z, domainOutcome (Log (logOk z)) = Some (z, None)))
    as (logFailed & logOk & -> & HlogF & HlogO).
  { apply elem_of_cons in Hin as [[= _ -> _] | Hin];
      [| apply list_elem_of_singleton in Hin as [= _ -> _]]; by eexists _, _. }
  destruct (sweep_attempt logFailed logOk (loadString (currentIPv4 w))
              (loadString (currentIPv6 w)) HlogF HlogO ds1 ds2 d None w)
    as ((line & Hev & Hline) & Hfin & Hall).
  cbv zeta in Hev, Hline, Hfin, Hall.
  exists (dnsRecordsOf d), line. split; [apply dnsRecordsOf_desired |].
  assert (events r
          = opening
            ++ events (sweep (sweep_step logFailed logOk (loadString (currentIPv4 w))
                                (loadString (currentIPv6 w))) ds1 None w)
            ++ events (getZoneID (config.ZoneName d)
                         (final (sweep (sweep_step logFailed logOk
                                          (loadString (currentIPv4 w))
                                          (loadString (currentIPv6 w))) ds1 None w)))
            ++ match value (getZoneID (config.ZoneName d)
                              (final (sweep (sweep_step logFailed logOk
                                               (loadString (currentIPv4 w))
                                               (loadString (currentIPv6 w)))
                                        ds1 None w))) with
               | (_, Some _) => []
               | (zoneID, None) =>
                   events (call (EnsureDNSRecords zoneID (dnsRecordsOf d)
                                   (loadString (currentIPv4 w))
                                   (loadString (currentIPv6 w)))
                             (final (getZoneID (config.ZoneName d)
                                       (final (sweep (sweep_step logFailed logOk
                                                        (loadString (currentIPv4 w))
                                                        (loadString (currentIPv6 w)))
                                                 ds1 None w)))))
               end
            ++ Log line
               :: events (sweep (sweep_step logFailed logOk (loadString (currentIPv4 w))
                                   (loadString (currentIPv6 w))) ds2
                            (value (sweep (sweep_step logFailed logOk
                                             (loadString (currentIPv4 w))
                                             (loadString (currentIPv6 w)))
                                      (ds1 ++ [d]) None w))
                            (final (sweep (sweep_step logFailed logOk
                                             (loadString (currentIPv4 w))
                                             (loadString (currentIPv6 w)))
                                      (ds1 ++ [d]) None w)))) as Hevr.
  { rewrite Hr, run_events, Hsplit, Hall, run_events, Hev.
    by rewrite <- !app_assoc. }
  split; [done |]. split; [done |]. split; [done |].
  intros zoneID Hz. rewrite Hevr, Hz.
  apply elem_of_app. right. apply elem_of_app. right. apply elem_of_app. right.
  apply elem_of_app. left. apply EnsureDNSRecords_lists.
Qed.
End sweep_properties.

(** The scenario of the unknown zone: the first domain fails with the
    not-found error, the second is still reconciled (here with nothing
    to write), and the sweep returns the error of the first. *)
Example sweep_unknown_zone :
  let r := @ipwatcher.updateAllDNSRecords unit
             (dnsmanager.mockClient (example.selective [example.apexNew; example.wwwNew]))
             (example.watcher "2.2.2.2") in
  spec.outcomes (events r)
    = [("nosuchzone.com", Some (Errorf "zone nosuchzone.com not found"));
       ("example.com", None)]
  ∧ value r = Some (Errorf "zone nosuchzone.com not found")
  ∧ filter spec.isBatchWrite (events r) = []
  ∧ filter (λ e, spec.isProviderCall e = true) (events r)
    = [CallListZones {| zones.NameFilter := "nosuchzone.com" |};
       CallListZones {| zones.NameFilter := "example.com" |};
       CallListDNSRecords {| dns.ListZoneID := "z1" |}].
Proof. vm_compute. done. Qed.

Lemma sweep_best_effort_witness :
  let r := @ipwatcher.updateAllDNSRecords unit
             (dnsmanager.mockClient (example.selective [example.apexNew; example.wwwNew]))
             (example.watcher "2.2.2.2") in
  value r = spec.lastError (spec.outcomes (events r))
  ∧ CallListDNSRecords {| dns.ListZoneID := "z1" |} ∈ events r.
Proof.
  pose proof (@sweep_best_effort unit
    (dnsmanager.mockClient (example.selective [example.apexNew; example.wwwNew]))
    (example.watcher "2.2.2.2")) as H.
  cbv zeta in H. edestruct H as (_ & _ & H3 & _ & _ & H6); [apply list_elem_of_here |].
  split; [exact H3 |].
  destruct (H6 [{| config.ZoneName := "nosuchzone.com";
                   config.Records := [{| config.Name := "@"; config.Type_ := "A";
                                         config.Proxied := false |}] |}]
               {| config.ZoneName := "example.com";
                  config.Records := [{| config.Name := "@"; config.Type_ := "A";
                                        config.Proxied := false |};
                                     {| config.Name := "www"; config.Type_ := "A";
                                        config.Proxied := true |}] |}
               [] eq_refl) as (desired & line & _ & _ & _ & _ & Hlist).
  apply (Hlist "z1"). reflexivity.
Defined.

(** ** The IP lookup *)

Section ip_lookup.
Import ipfetcher.
Context {St : Type} `{rt : !GoRuntime St}.

(** The two shapes of a result of [fetchIP]: an address and no error,
    or no address and an error. *)
Lemma fetchIP_shape (url : string) (st : St) :
  match value (fetchIP url st) with
  | (ip, None) => ip ≠ ""
  | (ip, Some _) => ip = ""
  end.
Proof.
  unfold fetchIP, callDo. go_goal.
  destruct (NewRequestWithContext http.MethodGet url) as [e|]; simpl; [done |].
  destruct (Do url st) as [[resp [e|]] st1]; simpl; [done |].
  case_bool_decide; simpl; [done |].
  destruct (http.Body resp) as [body [e|]]; simpl; [done |].
  by case_bool_decide.
Qed.

(** C10 (no empty address without an error). [fetchIP], and so
    [GetIPv4] and [GetIPv6], never returns the empty string with a nil
    error: a result without error holds a non-empty address, and a
    result with an error holds the empty string. When the request is
    sent and answered, the result is without error exactly when the
    status is 200, the body is read without error and it does not
    trim to the empty string; the address returned is then the
    trimmed body. *)
Theorem fetchIP_never_empty_without_error (url : string) (st : St) :
  let r := value (fetchIP url st) in
  r ≠ ("", None)
  ∧ value (GetIPv4 st) ≠ ("", None)
  ∧ value (GetIPv6 st) ≠ ("", None)
  ∧ match r with
    | (ip, None) => ip ≠ ""
    | (ip, Some _) => ip = ""
    end
  ∧ (∀ resp st1,
       NewRequestWithContext http.MethodGet url = None →
       Do url st = ((resp, None), st1) →
       (r.2 = None ↔
        http.StatusCode resp = http.StatusOK
        ∧ (http.Body resp).2 = None
        ∧ TrimSpace (http.Body resp).1 ≠ "")
       ∧ (r.2 = None → r.1 = TrimSpace (http.Body resp).1)).
Proof.
  assert (∀ u, match value (fetchIP u st) with
               | (ip, None) => ip ≠ ""
               | (ip, Some _) => ip = ""
               end) as Hshape.
  { intros u. apply fetchIP_shape. }
  assert (∀ u, value (fetchIP u st) ≠ ("", None)) as Hne.
  { intros u Heq. specialize (Hshape u). by rewrite Heq in Hshape. }
  simpl. split; [done |]. split; [apply Hne |]. split; [apply Hne |].
  split; [apply Hshape |].
  intros resp st1 Hreq Hdo. unfold fetchIP, callDo. go_goal.
  rewrite Hreq, Hdo. simpl.
  case_bool_decide as Hs; simpl.
  { split; [| done]. split; [done |]. by intros [? _]. }
  destruct (http.Body resp) as [body [e|]]; simpl.
  { split; [| done]. split; [done |]. by intros (_ & ? & _). }
  case_bool_decide as Hip; simpl.
  - split; [| done]. split; [done |]. by intros (_ & _ & ?).
  - split; [| done]. split; [| done]. intros _. done.
Qed.
End ip_lookup.

Lemma fetchIP_never_empty_without_error_witness :
  (value (@ipfetcher.fetchIP unit
            (spec.cannedRuntime
               (λ _, ({| http.StatusCode := 200;
                         http.Body := (String "010" "203.0.113.7 ", None) |}, None)))
            ipfetcher.ipv4URL tt)).1
  = "203.0.113.7".
Proof.
  pose proof (@fetchIP_never_empty_without_error unit
    (spec.cannedRuntime
       (λ _, ({| http.StatusCode := 200;
                 http.Body := (String "010" "203.0.113.7 ", None) |}, None)))
    ipfetcher.ipv4URL tt) as (_ & _ & _ & _ & H).
  edestruct H as [_ Hip]; [reflexivity | reflexivity |].
  rewrite Hip; reflexivity.
Defined.

(** ** The poll *)

Section frame.
Import dnsmanager spec ipwatcher.
Context {St : Type} `{client : !CloudflareClient St} `{rt : !GoRuntime St}.

Lemma sameLocal_refl (w : IPWatcher St) : sameLocal w w.
Proof. by repeat split. Qed.

Lemma sameLocal_trans (w1 w2 w3 : IPWatcher St) :
  sameLocal w1 w2 → sameLocal w2 w3 → sameLocal w1 w3.
Proof.
  intros (? & ? & ? & ? & ?) (? & ? & ? & ? & ?).
  repeat split; congruence.
Qed.

(** A call into the DNS manager or the IP fetcher changes the outside
    only, and emits what the callee emits. *)
Lemma call_frame {A} (m : M St A) (w : IPWatcher St) :
  sameLocal w (final (call m w))
  ∧ zoneCache (final (call m w)) = zoneCache w
  ∧ outside (final (call m w)) = final (m (outside w))
  ∧ value (call m w) = value (m (outside w))
  ∧ events (call m w) = events (m (outside w)).
Proof.
  unfold call, final, value, events, sameLocal.
  by destruct (m (outside w)) as [[a st] t].
Qed.

Lemma getZoneID_frame (zoneName : string) (w : IPWatcher St) :
  sameLocal w (final (getZoneID zoneName w))
  ∧ Forall isSweepEvent (events (getZoneID zoneName w)).
Proof.
  unfold getZoneID, gets, call, storeZone, modify. go_goal.
  destruct (zoneCache w !! zoneName) as [zoneID|]; simpl.
  { split; [apply sameLocal_refl | constructor]. }
  pose proof (GetZoneIDByName_run zoneName (outside w)) as Hrun.
  destruct (GetZoneIDByName zoneName (outside w)) as [[[zID err] st1] t].
  assert (t = [CallListZones {| zones.NameFilter := zoneName |}]) as ->.
  { simpl in Hrun.
    destruct (ListZones _ (outside w)) as [[[|z zs] [e|]] st2]; by inversion Hrun. }
  destruct err; simpl; (split; [by repeat split | by repeat constructor]).
Qed.

Lemma EnsureDNSRecords_frame (zoneID : string) (records : list DNSRecord)
    (ipv4 ipv6 : string) (st : St) :
  Forall isSweepEvent (events (EnsureDNSRecords zoneID records ipv4 ipv6 st)).
Proof.
  rewrite EnsureDNSRecords_run. unfold events.
  destruct (ListDNSRecords _ st) as [[existingRecords [e|]] st1]; simpl;
    [by repeat constructor |].
  destruct (plan existingRecords records ipv4 ipv6) as [c u]; simpl.
  destruct c as [|x c], u as [|y u]; simpl; try (by repeat constructor);
    destruct (BatchDNSRecords _ st1) as [? ?]; by repeat constructor.
Qed.

Section one_sweep.
Variables (logFailed : string → error → LogLine) (logOk : string → LogLine).
Variables (ipv4 ipv6 : string).
Hypothesis logFailed_sweep : ∀ z e, isSweepEvent (Log (logFailed z e)).
Hypothesis logOk_sweep : ∀ z, isSweepEvent (Log (logOk z)).

Lemma sweep_step_frame (lastErr : option error) (domain : config.Domain)
    (w : IPWatcher St) :
  sameLocal w (final (sweep_step logFailed logOk ipv4 ipv6 lastErr domain w))
  ∧ Forall isSweepEvent
      (events (sweep_step logFailed logOk ipv4 ipv6 lastErr domain w)).
Proof.
  destruct (getZoneID_frame (config.ZoneName domain) w) as [Hz1 Hz2].
  unfold sweep_step. unfold final in Hz1. unfold events in Hz2. go_goal.
  destruct (getZoneID (config.ZoneName domain) w) as [[[zoneID [e|]] w1] tz];
    simpl in Hz1, Hz2 |- *.
  - split; [done |]. apply Forall_app. split; [done | by repeat constructor].
  - destruct (call_frame (EnsureDNSRecords zoneID (dnsRecordsOf domain) ipv4 ipv6) w1)
      as (Hc1 & _ & _ & _ & Hc2).
    pose proof (EnsureDNSRecords_frame zoneID (dnsRecordsOf domain) ipv4 ipv6
                  (outside w1)) as Hc3.
    rewrite <- Hc2 in Hc3. unfold final in Hc1. unfold events in Hc3.
    destruct (call (EnsureDNSRecords zoneID (dnsRecordsOf domain) ipv4 ipv6) w1)
      as [[[e|] w2] te]; simpl in Hc1, Hc3 |- *;
      (split; [by eapply sameLocal_trans |]);
      repeat (apply Forall_app; split); try done;
      repeat constructor; auto.
Qed.

Lemma sweep_frame (domains : list config.Domain) (lastErr : option error)
    (w : IPWatcher St) :
  sameLocal w (final (sweep (sweep_step logFailed logOk ipv4 ipv6) domains lastErr w))
  ∧ Forall isSweepEvent
      (events (sweep (sweep_step logFailed logOk ipv4 ipv6) domains lastErr w)).
Proof.
  revert lastErr w. induction domains as [|d ds IH]; intros lastErr w.
  - split; [apply sameLocal_refl | constructor].
  - rewrite sweep_cons. cbv zeta.
    destruct (sweep_step_frame lastErr d w) as [H1 H2].
    destruct (IH (value (sweep_step logFailed logOk ipv4 ipv6 lastErr d w))
                 (final (sweep_step logFailed logOk ipv4 ipv6 lastErr d w)))
      as [H3 H4].
    split.
    + unfold final at 1. simpl. by eapply sameLocal_trans.
    + unfold events at 1. simpl. by apply Forall_app.
Qed.
End one_sweep.

(** A sweep leaves the configuration, the two current addresses and
    the two tickers as they were, and emits sweep events only. *)
Lemma updateAllDNSRecords_frame (w : IPWatcher St) :
  sameLocal w (final (updateAllDNSRecords w))
  ∧ Forall isSweepEvent (events (updateAllDNSRecords w)).
Proof. rewrite updateAllDNSRecords_run. by apply sweep_frame. Qed.

Lemma verifyDNSRecords_frame (w : IPWatcher St) :
  sameLocal w (final (verifyDNSRecords w))
  ∧ Forall isSweepEvent (events (verifyDNSRecords w)).
Proof.
  rewrite verifyDNSRecords_run. cbv zeta. unfold final at 1, events at 1. simpl.
  destruct (sweep_frame LogVerifyFailed LogUpToDate
              (loadString (currentIPv4 w)) (loadString (currentIPv6 w))
              (λ _ _, I) (λ _, I) (config.Domains (config_ w)) None w) as [H1 H2].
  split; [done |]. by constructor.
Qed.
End frame.

Section poll.
Import dnsmanager spec ipwatcher.
Context {St : Type} `{client : !CloudflareClient St} `{rt : !GoRuntime St}.

Lemma fetchIP_events (url : string) (st : St) :
  Forall isFetchEvent (events (ipfetcher.fetchIP url st)).
Proof.
  unfold ipfetcher.fetchIP, ipfetcher.callDo. go_goal.
  destruct (NewRequestWithContext http.MethodGet url) as [e|]; simpl; [constructor |].
  destruct (Do url st) as [[resp [e|]] st1]; simpl; [by repeat constructor |].
  case_bool_decide; simpl; [by repeat constructor |].
  destruct (http.Body resp) as [body [e|]]; simpl; [by repeat constructor |].
  case_bool_decide; by repeat constructor.
Qed.

(** A failed fetch hands back the empty string. *)
Lemma fetchIP_error_empty (url : string) (st : St) :
  (value (ipfetcher.fetchIP url st)).2 ≠ None → (value (ipfetcher.fetchIP url st)).1 = "".
Proof.
  pose proof (fetchIP_shape url st) as H.
  destruct (value (ipfetcher.fetchIP url st)) as [ip [e|]]; simpl in *; done.
Qed.

(** The two fetches of a poll: the IPv4 lookup, then the IPv6 lookup
    if the configuration has IPv6, the empty string otherwise. Only
    the outside changes. *)
Lemma fetchNewIPs_run (w : IPWatcher St) :
  let r4 := ipfetcher.GetIPv4 (outside w) in
  let r6 := ipfetcher.GetIPv6 (final r4) in
  let r := fetchNewIPs w in
  sameLocal w (final r)
  ∧ zoneCache (final r) = zoneCache w
  ∧ Forall isFetchEvent (events r)
  ∧ (value r).1 = (value r4).1
  ∧ (value r).2 = (if config.SupportsIPv6 (config_ w) then (value r6).1 else "")
  ∧ outside (final r)
    = (if config.SupportsIPv6 (config_ w) then final r6 else final r4).
Proof.
  pose proof (fetchIP_events ipfetcher.ipv4URL (outside w)) as He4.
  pose proof (fetchIP_events ipfetcher.ipv6URL
                (final (ipfetcher.GetIPv4 (outside w)))) as He6.
  unfold fetchNewIPs, gets, call, ipfetcher.GetIPv4, ipfetcher.GetIPv6 in *.
  unfold events, final in He4, He6. go_goal.
  destruct (ipfetcher.fetchIP ipfetcher.ipv4URL (outside w)) as [[[ip4 err4] st1] t4].
  simpl in *.
  assert (Forall isFetchEvent
            (t4 ++ match err4 with
                   | Some e => [Log (LogFetchIPv4Failed e)]
                   | None => []
                   end)) as Ht4.
  { apply Forall_app. split; [done |]. destruct err4; by repeat constructor. }
  destruct err4 as [e4|]; simpl in *;
    (destruct (config.SupportsIPv6 (config_ w)); simpl;
     [ destruct (ipfetcher.fetchIP ipfetcher.ipv6URL st1) as [[[ip6 [e6|]] st2] t6];
       simpl in *
     | ]);
    (split; [by repeat split |]); (split; [done |]); (split; [| done]);
    rewrite ?app_nil_r; forall_events.
Qed.
End poll.

Section poll_run.
Import dnsmanager spec ipwatcher.
Context {St : Type} `{client : !CloudflareClient St} `{rt : !GoRuntime St}.

Lemma changed_test (new old : string) :
  bool_decide (new ≠ old) && bool_decide (new ≠ "")
  = bool_decide (changed new old).
Proof.
  unfold changed. repeat case_bool_decide; simpl; try done; tauto.
Qed.

(** [checkAndUpdateIP] along its two paths. *)
Lemma checkAndUpdateIP_run (w : IPWatcher St) :
  let old4 := loadString (currentIPv4 w) in
  let old6 := loadString (currentIPv6 w) in
  let rf := fetchNewIPs w in
  let new4 := (value rf).1 in
  let new6 := (value rf).2 in
  let w2 := afterStores old4 old6 new4 new6 (final rf) in
  checkAndUpdateIP w =
  if bool_decide (changed new4 old4 ∨ changed new6 old6)
  then match time.Reset (Now (outside (final rf))) (syncInterval (config_ (final rf)))
                        (syncTicker (final rf)) with
       | Returned _ =>
           (Returned (value (updateAllDNSRecords w2)),
            final (updateAllDNSRecords w2),
            events rf ++ changeLines old4 old6 new4 new6
              ++ events (updateAllDNSRecords w2))
       | Panicked p => (Panicked p, w2, events rf ++ changeLines old4 old6 new4 new6)
       end
  else (Returned None, final rf, events rf).
Proof.
  unfold checkAndUpdateIP, afterStores, changeLines.
  unfold gets, storeIPv4, storeIPv6, resetSyncTicker, setSyncTicker, modify.
  go_goal.
  destruct (fetchNewIPs w) as [[[new4 new6] w1] tf]. simpl.
  rewrite !changed_test.
  destruct (decide (changed new4 (loadString (currentIPv4 w)))) as [H4 | H4];
    destruct (decide (changed new6 (loadString (currentIPv6 w)))) as [H6 | H6];
    rewrite ?(bool_decide_eq_true_2 _ H4), ?(bool_decide_eq_false_2 _ H4),
            ?(bool_decide_eq_true_2 _ H6), ?(bool_decide_eq_false_2 _ H6); simpl;
    try (rewrite bool_decide_eq_true_2 by auto;
         destruct (time.Reset (Now (outside w1)) (syncInterval (config_ w1))
                              (syncTicker w1)) as [t'|p]; simpl;
         [destruct (updateAllDNSRecords _) as [[e w3] tu]; simpl;
          by rewrite ?app_nil_r, <- ?app_assoc
         | by rewrite ?app_nil_r, <- ?app_assoc]).
  rewrite bool_decide_eq_false_2 by tauto.
  rewrite ?app_nil_r. by destruct w1.
Qed.
End poll_run.

Section poll_properties.
Import dnsmanager spec ipwatcher.
Context {St : Type} `{client : !CloudflareClient St} `{rt : !GoRuntime St}.

Lemma changeLines_IPv4 (old4 old6 new4 new6 a b : string) :
  Log (LogIPv4Changed a b) ∈ changeLines old4 old6 new4 new6
  ↔ changed new4 old4 ∧ a = old4 ∧ b = new4.
Proof.
  unfold changeLines. rewrite elem_of_app. split.
  - intros [H | H].
    + destruct (decide (changed new4 old4));
        [apply list_elem_of_singleton in H; by injection H as -> ->
        | by apply elem_of_nil in H].
    + destruct (decide (changed new6 old6));
        [apply list_elem_of_singleton in H; discriminate
        | by apply elem_of_nil in H].
  - intros (Hc & -> & ->). left. rewrite decide_True by done.
    apply list_elem_of_here.
Qed.

Lemma changeLines_IPv6 (old4 old6 new4 new6 a b : string) :
  Log (LogIPv6Changed a b) ∈ changeLines old4 old6 new4 new6
  ↔ changed new6 old6 ∧ a = old6 ∧ b = new6.
Proof.
  unfold changeLines. rewrite elem_of_app. split.
  - intros [H | H].
    + destruct (decide (changed new4 old4));
        [apply list_elem_of_singleton in H; discriminate
        | by apply elem_of_nil in H].
    + destruct (decide (changed new6 old6));
        [apply list_elem_of_singleton in H; by injection H as -> ->
        | by apply elem_of_nil in H].
  - intros (Hc & -> & ->). right. rewrite decide_True by done.
    apply list_elem_of_here.
Qed.

Lemma changeLines_no_call (old4 old6 new4 new6 : string) :
  Forall (λ e, isProviderCall e = false) (changeLines old4 old6 new4 new6).
Proof.
  unfold changeLines.
  destruct (decide (changed new4 old4)), (decide (changed new6 old6));
    simpl; forall_events.
Qed.

Lemma fetch_event_no_call (t : list Event) :
  Forall isFetchEvent t → Forall (λ e, isProviderCall e = false) t.
Proof.
  intros H. eapply Forall_impl; [exact H |].
  intros e He. by destruct e.
Qed.

(** In the events of a poll, a line reporting a change can only be one
    of the lines logged between the fetches and the sweep. *)
Lemma poll_report_inv (tf tc tu : list Event) (line : LogLine) :
  Forall isFetchEvent tf → Forall isSweepEvent tu →
  isFetchEvent (Log line) = false → isSweepEvent (Log line) = false →
  Log line ∈ tf ++ tc ++ tu ↔ Log line ∈ tc.
Proof.
  intros Hf Hu Hnf Hnu. rewrite !elem_of_app. split; [| auto].
  intros [Hin | [Hin | Hin]]; [| done |].
  - rewrite Forall_forall in Hf. apply Hf in Hin. rewrite Hnf in Hin. done.
  - rewrite Forall_forall in Hu. apply Hu in Hin. rewrite Hnu in Hin. done.
Qed.

(** A poll with the sync ticker made: the reset panics exactly when
    the verify period is not positive. *)
Lemma checkAndUpdateIP_made (w : IPWatcher St) :
  is_Some (syncTicker w) →
  let old4 := loadString (currentIPv4 w) in
  let old6 := loadString (currentIPv6 w) in
  let rf := fetchNewIPs w in
  let new4 := (value rf).1 in
  let new6 := (value rf).2 in
  let w2 := afterStores old4 old6 new4 new6 (final rf) in
  checkAndUpdateIP w =
  if bool_decide (changed new4 old4 ∨ changed new6 old6)
  then if bool_decide (0 < syncInterval (config_ w))%Z
       then (Returned (value (updateAllDNSRecords w2)),
             final (updateAllDNSRecords w2),
             events rf ++ changeLines old4 old6 new4 new6
               ++ events (updateAllDNSRecords w2))
       else (Panicked NonPositiveInterval, w2,
             events rf ++ changeLines old4 old6 new4 new6)
  else (Returned None, final rf, events rf).
Proof.
  intros [tk Htk]. cbv zeta. rewrite checkAndUpdateIP_run. cbv zeta.
  destruct (fetchNewIPs_run w) as ((Hcfg & _ & _ & _ & Hst) & _).
  cbv zeta in Hcfg, Hst. rewrite Hcfg, Hst, Htk. unfold time.Reset.
  case_bool_decide as Hany; [| done].
  destruct (decide (0 < syncInterval (config_ w))%Z) as [Hpos | Hpos].
  - rewrite (bool_decide_eq_false_2 (syncInterval (config_ w) ≤ 0)%Z) by lia.
    by rewrite (bool_decide_eq_true_2 _ Hpos).
  - rewrite (bool_decide_eq_true_2 (syncInterval (config_ w) ≤ 0)%Z) by lia.
    by rewrite (bool_decide_eq_false_2 _ Hpos).
Qed.

(** The addresses a poll leaves stored, whether it returns or
    panics. *)
Lemma checkAndUpdateIP_stored (w : IPWatcher St) :
  let old4 := loadString (currentIPv4 w) in
  let old6 := loadString (currentIPv6 w) in
  let new4 := (value (fetchNewIPs w)).1 in
  let new6 := (value (fetchNewIPs w)).2 in
  let r := checkAndUpdateIP w in
  config_ (final r) = config_ w
  ∧ currentIPv4 (final r)
    = (if decide (changed new4 old4) then Some new4 else currentIPv4 w)
  ∧ currentIPv6 (final r)
    = (if decide (changed new6 old6) then Some new6 else currentIPv6 w)
  ∧ refreshTicker (final r) = refreshTicker w.
Proof.
  cbv zeta. rewrite checkAndUpdateIP_run. cbv zeta.
  destruct (fetchNewIPs_run w) as ((Hcfg & Hc4 & Hc6 & Hrt & _) & _).
  cbv zeta in Hcfg, Hc4, Hc6, Hrt.
  set (w2 := afterStores _ _ _ _ _).
  assert (config_ w2 = config_ w
          ∧ currentIPv4 w2
            = (if decide (changed (value (fetchNewIPs w)).1 (loadString (currentIPv4 w)))
               then Some (value (fetchNewIPs w)).1 else currentIPv4 w)
          ∧ currentIPv6 w2
            = (if decide (changed (value (fetchNewIPs w)).2 (loadString (currentIPv6 w)))
               then Some (value (fetchNewIPs w)).2 else currentIPv6 w)
          ∧ refreshTicker w2 = refreshTicker w) as (Hw0 & Hw4 & Hw6 & Hwr).
  { unfold w2, afterStores. simpl. by rewrite Hcfg, Hc4, Hc6, Hrt. }
  destruct (updateAllDNSRecords_frame w2) as [(Hu0 & Hu4 & Hu6 & Hur & _) _].
  case_bool_decide as Hany.
  - destruct (time.Reset _ _ _) as [t'|p]; rewrite run_final.
    + by rewrite Hu0, Hu4, Hu6, Hur.
    + done.
  - rewrite run_final, Hcfg, Hc4, Hc6, Hrt, !decide_False by tauto. done.
Qed.

(** C8 (stale values are kept). In a poll by [checkAndUpdateIP], with
    the tickers made: a fetch that fails yields the empty string, and
    so does the IPv6 side when IPv6 is off; the address stored for a
    family after the poll is the fetched one if that is non-empty and
    differs from the one stored before, and is the one stored before
    otherwise, so a stored address is never cleared; a change of a
    family is reported exactly when the fetched value is non-empty and
    differs from the stored one; when a family changed, the new
    values are in place, with no provider call made yet, when the
    sweep over the domains starts, and the poll returns what the
    sweep returns, unless the verify period of the configuration is
    not positive: then the reset of the sync ticker panics, after the
    stores and before any provider call; when no family changed,
    nothing is stored, no provider call is made and the poll returns
    no error. *)
Theorem checkAndUpdateIP_retains (w : IPWatcher St) :
  is_Some (syncTicker w) →
  let old4 := loadString (currentIPv4 w) in
  let old6 := loadString (currentIPv6 w) in
  let r4 := ipfetcher.GetIPv4 (outside w) in
  let r6 := ipfetcher.GetIPv6 (final r4) in
  let rf := fetchNewIPs w in
  let new4 := (value rf).1 in
  let new6 := (value rf).2 in
  let w2 := afterStores old4 old6 new4 new6 (final rf) in
  let r := checkAndUpdateIP w in
  (new4 = (value r4).1 ∧ ((value r4).2 ≠ None → new4 = ""))
  ∧ (new6 = (if config.SupportsIPv6 (config_ w) then (value r6).1 else "")
     ∧ ((value r6).2 ≠ None → new6 = ""))
  ∧ (currentIPv4 (final r)
       = (if decide (changed new4 old4) then Some new4 else currentIPv4 w)
     ∧ currentIPv6 (final r)
       = (if decide (changed new6 old6) then Some new6 else currentIPv6 w))
  ∧ ((new4 = "" → currentIPv4 (final r) = currentIPv4 w)
     ∧ (new6 = "" → currentIPv6 (final r) = currentIPv6 w))
  ∧ ((old4 ≠ "" → loadString (currentIPv4 (final r)) ≠ "")
     ∧ (old6 ≠ "" → loadString (currentIPv6 (final r)) ≠ ""))
  ∧ ((∀ a b, Log (LogIPv4Changed a b) ∈ events r
             ↔ changed new4 old4 ∧ a = old4 ∧ b = new4)
     ∧ (∀ a b, Log (LogIPv6Changed a b) ∈ events r
               ↔ changed new6 old6 ∧ a = old6 ∧ b = new6))
  ∧ (changed new4 old4 ∨ changed new6 old6 →
     r = (if bool_decide (0 < syncInterval (config_ w))%Z
          then (Returned (value (updateAllDNSRecords w2)),
                final (updateAllDNSRecords w2),
                events rf ++ changeLines old4 old6 new4 new6
                  ++ events (updateAllDNSRecords w2))
          else (Panicked NonPositiveInterval, w2,
                events rf ++ changeLines old4 old6 new4 new6))
     ∧ Forall (λ e, isProviderCall e = false)
              (events rf ++ changeLines old4 old6 new4 new6)
     ∧ loadString (currentIPv4 w2) = (if decide (changed new4 old4) then new4 else old4)
     ∧ loadString (currentIPv6 w2) = (if decide (changed new6 old6) then new6 else old6))
  ∧ (¬ (changed new4 old4 ∨ changed new6 old6) →
     r = (Returned None, final rf, events rf)
     ∧ Forall (λ e, isProviderCall e = false) (events r)
     ∧ zoneCache (final r) = zoneCache w).
Proof.
  intros Hmade. cbv zeta.
  destruct (fetchNewIPs_run w) as (Hloc & Hcache & Hfe & Hn4 & Hn6 & Hout).
  cbv zeta in Hloc, Hcache, Hfe, Hn4, Hn6, Hout.
  destruct Hloc as (Hcfg & Hc4 & Hc6 & Hrt & Hst).
  pose proof (checkAndUpdateIP_made w Hmade) as Hrun. cbv zeta in Hrun.
  destruct (checkAndUpdateIP_stored w) as (_ & Hf4 & Hf6 & _).
  cbv zeta in Hf4, Hf6.
  set (old4 := loadString (currentIPv4 w)) in *.
  set (old6 := loadString (currentIPv6 w)) in *.
  set (rf := fetchNewIPs w) in *.
  set (new4 := (value rf).1) in *.
  set (new6 := (value rf).2) in *.
  set (w2 := afterStores old4 old6 new4 new6 (final rf)) in *.
  destruct (updateAllDNSRecords_frame w2) as [_ Hue].
  assert (currentIPv4 w2
          = (if decide (changed new4 old4) then Some new4 else currentIPv4 w)) as Hw4.
  { unfold w2, afterStores. simpl. by rewrite Hc4. }
  assert (currentIPv6 w2
          = (if decide (changed new6 old6) then Some new6 else currentIPv6 w)) as Hw6.
  { unfold w2, afterStores. simpl. by rewrite Hc6. }
  split; [| split; [| split; [done | split; [| split; [| split; [| split]]]]]].
  - split; [done |]. intros Herr. rewrite Hn4. by apply fetchIP_error_empty.
  - split; [done |]. intros Herr. rewrite Hn6.
    destruct (config.SupportsIPv6 (config_ w)); [| done].
    by apply fetchIP_error_empty.
  - split.
    + intros Hempty. rewrite Hf4. rewrite decide_False; [done |].
      by intros [? _].
    + intros Hempty. rewrite Hf6. rewrite decide_False; [done |].
      by intros [? _].
  - split.
    + intros Hold. rewrite Hf4.
      destruct (decide (changed new4 old4)) as [[? _] | _]; [done |].
      by destruct (currentIPv4 w).
    + intros Hold. rewrite Hf6.
      destruct (decide (changed new6 old6)) as [[? _] | _]; [done |].
      by destruct (currentIPv6 w).
  - assert (∀ line, isFetchEvent (Log line) = false → isSweepEvent (Log line) = false →
              (Log line ∈ events (checkAndUpdateIP w)
               ↔ (changed new4 old4 ∨ changed new6 old6)
                 ∧ Log line ∈ changeLines old4 old6 new4 new6)) as Hline.
    { intros line Hnf Hnu. rewrite Hrun. case_bool_decide as Hany.
      - case_bool_decide; rewrite run_events.
        + rewrite poll_report_inv by done. tauto.
        + rewrite <- (app_nil_r (changeLines old4 old6 new4 new6)) at 1.
          rewrite poll_report_inv by done. tauto.
      - rewrite run_events. split; [| tauto].
        intros Hin. rewrite Forall_forall in Hfe. apply Hfe in Hin.
        by rewrite Hnf in Hin. }
    split; intros a b; rewrite Hline by done.
    + rewrite changeLines_IPv4. tauto.
    + rewrite changeLines_IPv6. tauto.
  - intros Hany. rewrite Hrun, bool_decide_eq_true_2 by done.
    split; [done |]. split.
    + apply Forall_app_2; [by apply fetch_event_no_call | apply changeLines_no_call].
    + rewrite Hw4, Hw6.
      by destruct (decide (changed new4 old4)), (decide (changed new6 old6)).
  - intros Hnone. rewrite Hrun, bool_decide_eq_false_2 by done.
    split; [done |]. split; [by apply fetch_event_no_call | done].
Qed.
End poll_properties.

Lemma checkAndUpdateIP_retains_witness :
  ipwatcher.currentIPv4
    (final (@ipwatcher.checkAndUpdateIP unit
              (dnsmanager.mockClient (example.selective [example.apexOld]))
              example.failingNet (example.watcher "1.1.1.1")))
  = Some "1.1.1.1".
Proof.
  pose proof (@checkAndUpdateIP_retains unit
    (dnsmanager.mockClient (example.selective [example.apexOld]))
    example.failingNet (example.watcher "1.1.1.1")) as H.
  destruct H as (_ & _ & _ & [H _] & _); [by eexists |].
  apply H. reflexivity.
Defined.

(** ** The scheduler *)

Section scheduler.
Import dnsmanager spec ipwatcher.
Context {St : Type} `{client : !CloudflareClient St} `{rt : !GoRuntime St}.

Lemma syncInterval_verifyPeriod (cfg : config.Config) :
  syncInterval cfg = verifyPeriod cfg.
Proof. done. Qed.

Lemma refreshInterval_refreshPeriod (cfg : config.Config) :
  refreshInterval cfg = refreshPeriod cfg.
Proof. done. Qed.

(** Entering the [select] with a nil ticker panics. *)
Lemma Run_turn_nil (c : SelectCase) (w : IPWatcher St) :
  refreshTicker w = None ∨ syncTicker w = None →
  Run_turn c w = (Some (Panicked NilPointerDereference), w, []).
Proof.
  unfold Run_turn, gets. go_goal.
  intros [H | H]; rewrite H; [done |]. by destruct (refreshTicker w).
Qed.

(** A turn of the loop for a refresh tick: the poll, and a line in
    the log if it failed; the loop goes on unless the poll panics. *)
Lemma Run_turn_refresh (w : IPWatcher St) :
  is_Some (refreshTicker w) → is_Some (syncTicker w) →
  Run_turn RefreshTick w =
  let r := checkAndUpdateIP (afterRefreshTick w) in
  (match value r with
   | Panicked p => Some (Panicked p)
   | Returned _ => None
   end,
   final r,
   events r ++ match value r with
               | Returned (Some e) => [Log (LogCheckError e)]
               | _ => []
               end).
Proof.
  intros [tr Hr] [ts Hs].
  unfold Run_turn, gets, setRefreshTicker, modify, afterRefreshTick. go_goal.
  rewrite Hr, Hs. simpl. rewrite ?Hr, ?Hs.
  destruct (checkAndUpdateIP _) as [[[[e|]|p] w1] t]; simpl; by rewrite ?app_nil_r.
Qed.

(** The sync ticker after a poll that finds the ticker made. *)
Lemma checkAndUpdateIP_syncTicker (w : IPWatcher St) (tk : time.Ticker) :
  syncTicker w = Some tk →
  let old4 := loadString (currentIPv4 w) in
  let old6 := loadString (currentIPv6 w) in
  let r4 := ipfetcher.GetIPv4 (outside w) in
  let r6 := ipfetcher.GetIPv6 (final r4) in
  let new4 := (value r4).1 in
  let new6 := if config.SupportsIPv6 (config_ w) then (value r6).1 else "" in
  let detected := if config.SupportsIPv6 (config_ w) then final r6 else final r4 in
  syncTicker (final (checkAndUpdateIP w))
  = if bool_decide (changed new4 old4 ∨ changed new6 old6)
    then if bool_decide (0 < syncInterval (config_ w))%Z
         then Some {| time.period := syncInterval (config_ w);
                      time.next := (Now detected + syncInterval (config_ w))%Z |}
         else Some tk
    else Some tk.
Proof.
  intros Htk. cbv zeta.
  destruct (fetchNewIPs_run w) as (Hloc & _ & _ & Hn4 & Hn6 & Hout).
  cbv zeta in Hloc, Hn4, Hn6, Hout.
  destruct Hloc as (Hcfg & _ & _ & _ & Hst).
  rewrite checkAndUpdateIP_made by (by eexists). cbv zeta. rewrite Hn4, Hn6.
  set (w2 := afterStores _ _ _ _ _).
  assert (syncTicker w2
          = if bool_decide
                 (changed (value (ipfetcher.GetIPv4 (outside w))).1
                          (loadString (currentIPv4 w))
                  ∨ changed
                      (if config.SupportsIPv6 (config_ w)
                       then (value (ipfetcher.GetIPv6
                                      (final (ipfetcher.GetIPv4 (outside w))))).1
                       else "")
                      (loadString (currentIPv6 w)))
            then if bool_decide (0 < syncInterval (config_ w))%Z
                 then Some {| time.period := syncInterval (config_ w);
                              time.next :=
                                (Now (if config.SupportsIPv6 (config_ w)
                                      then final (ipfetcher.GetIPv6
                                                    (final (ipfetcher.GetIPv4 (outside w))))
                                      else final (ipfetcher.GetIPv4 (outside w)))
                                 + syncInterval (config_ w))%Z |}
                 else Some tk
            else Some tk) as Hw2.
  { unfold w2, afterStores. simpl. rewrite Hcfg, Hst, Hout, Htk. unfold time.Reset.
    case_bool_decide; [| done].
    destruct (decide (0 < syncInterval (config_ w))%Z) as [Hpos | Hpos].
    - rewrite (bool_decide_eq_false_2 (syncInterval (config_ w) ≤ 0)%Z) by lia.
      by rewrite (bool_decide_eq_true_2 _ Hpos).
    - rewrite (bool_decide_eq_true_2 (syncInterval (config_ w) ≤ 0)%Z) by lia.
      by rewrite (bool_decide_eq_false_2 _ Hpos). }
  destruct (updateAllDNSRecords_frame w2) as [(_ & _ & _ & _ & Hs) _].
  case_bool_decide as Hany.
  - case_bool_decide as Hpos; rewrite run_final; [by rewrite Hs |].
    by rewrite Hw2.
  - by rewrite run_final, Hst.
Qed.
End scheduler.

Section scheduler_properties.
Import dnsmanager spec ipwatcher.
Context {St : Type} `{client : !CloudflareClient St} `{rt : !GoRuntime St}.

Lemma keepsConfig_ret {A} (a : A) : keepsConfig (St := St) (ret a).
Proof. done. Qed.

Lemma keepsConfig_bind {A B} (m : M (IPWatcher St) A) (k : A → M (IPWatcher St) B) :
  keepsConfig m → (∀ a, keepsConfig (k a)) → keepsConfig (bind m k).
Proof.
  intros Hm Hk w. specialize (Hm w). unfold bind, final in *.
  destruct (m w) as [[a w1] t1]. specialize (Hk a w1). unfold final in Hk.
  destruct (k a w1) as [[b w2] t2]. simpl in *. congruence.
Qed.

Lemma keepsConfig_gets {A} (f : IPWatcher St → A) : keepsConfig (St := St) (gets f).
Proof. done. Qed.

Lemma keepsConfig_logPrint (line : LogLine) :
  keepsConfig (logPrint (S := IPWatcher St) line).
Proof. done. Qed.

Lemma keepsConfig_call {A} (m : M St A) : keepsConfig (call m).
Proof. intros w. by destruct (call_frame m w) as [(? & _) _]. Qed.

Lemma keepsConfig_updateAllDNSRecords : keepsConfig updateAllDNSRecords.
Proof. intros w. by destruct (updateAllDNSRecords_frame w) as [(? & _) _]. Qed.

Lemma keepsConfig_fetchAndUpdateIPs : keepsConfig fetchAndUpdateIPs.
Proof.
  unfold fetchAndUpdateIPs.
  apply keepsConfig_bind; [apply keepsConfig_call |]. intros [ipv4 err4].
  apply keepsConfig_bind.
  { destruct err4; [apply keepsConfig_logPrint |].
    apply keepsConfig_bind; [done |]. intros _. apply keepsConfig_logPrint. }
  intros _. apply keepsConfig_bind; [apply keepsConfig_gets |]. intros supportsIPv6.
  apply keepsConfig_bind; [| intros _; apply keepsConfig_updateAllDNSRecords].
  destruct supportsIPv6; [| apply keepsConfig_ret].
  apply keepsConfig_bind; [apply keepsConfig_call |]. intros [ipv6 err6].
  destruct err6; [apply keepsConfig_logPrint |].
  apply keepsConfig_bind; [done |]. intros _. apply keepsConfig_logPrint.
Qed.

(** [Run] up to the loop: the first pass, then the two tickers, each
    made unless its interval is not positive, in which case [Run]
    panics there. *)
Lemma Run_run (cases : list SelectCase) (w : IPWatcher St) :
  Run cases w =
  let r0 := fetchAndUpdateIPs w in
  let opening :=
    Log LogStarting
    :: events r0
       ++ match value r0 with
          | Some e => [Log (LogInitialFetchFailed e)]
          | None => []
          end in
  if bool_decide (refreshInterval (config_ w) ≤ 0)%Z then
    (Some (Panicked NonPositiveInterval), final r0, opening)
  else if bool_decide (syncInterval (config_ w) ≤ 0)%Z then
    (Some (Panicked NonPositiveInterval),
     mkIPWatcher (config_ (final r0)) (zoneCache (final r0))
       (currentIPv4 (final r0)) (currentIPv6 (final r0))
       (refreshTicker (armed (final r0))) (syncTicker (final r0))
       (outside (final r0)),
     opening)
  else
    let rl := Run_loop cases (armed (final r0)) in
    (value rl, final rl, opening ++ Log LogIntervals :: events rl).
Proof.
  pose proof (keepsConfig_fetchAndUpdateIPs w) as Hcfg.
  unfold Run, gets, setRefreshTicker, setSyncTicker, modify, armed, time.NewTicker.
  unfold final in Hcfg. go_goal.
  destruct (fetchAndUpdateIPs w) as [[err w1] t]. simpl in Hcfg |- *.
  destruct (decide (refreshInterval (config_ w) ≤ 0)%Z) as [Hr | Hr];
    [rewrite (bool_decide_eq_true_2 _ Hr) | rewrite (bool_decide_eq_false_2 _ Hr)].
  { destruct err as [e|]; simpl; rewrite Hcfg, (bool_decide_eq_true_2 _ Hr); simpl;
      by rewrite ?app_nil_r. }
  destruct (decide (syncInterval (config_ w) ≤ 0)%Z) as [Hs | Hs];
    [rewrite (bool_decide_eq_true_2 _ Hs) | rewrite (bool_decide_eq_false_2 _ Hs)].
  { destruct err as [e|]; simpl;
      rewrite Hcfg, (bool_decide_eq_false_2 _ Hr); simpl;
      rewrite ?Hcfg, (bool_decide_eq_true_2 _ Hs); simpl;
      by rewrite ?app_nil_r. }
  destruct err as [e|]; simpl;
    rewrite Hcfg, (bool_decide_eq_false_2 _ Hr); simpl;
    rewrite ?Hcfg, (bool_decide_eq_false_2 _ Hs); simpl; rewrite ?Hcfg;
    match goal with
    | |- context [Run_loop cases ?w'] => destruct (Run_loop cases w') as [[v w2] tl]
    end; simpl; rewrite ?app_nil_r, <- ?app_assoc; simpl;
    by rewrite <- ?app_assoc.
Qed.

(** [Run] makes the sync ticker with the period [syncInterval], when
    both intervals are positive. *)
Lemma Run_arms_syncTicker (w : IPWatcher St) :
  (0 < refreshInterval (config_ w))%Z → (0 < syncInterval (config_ w))%Z →
  syncTicker (final (Run [] w))
  = Some {| time.period := syncInterval (config_ w);
            time.next := (Now (outside (final (fetchAndUpdateIPs w)))
                          + syncInterval (config_ w))%Z |}.
Proof.
  intros Hr Hs. rewrite Run_run. cbv zeta.
  rewrite !bool_decide_eq_false_2 by lia. rewrite run_final. simpl.
  by rewrite (keepsConfig_fetchAndUpdateIPs w).
Qed.

(** C9 (a change resets the verify trigger). Take a poll with the
    sync ticker made and a positive verify period, alone or as the
    turn of the loop of [Run] for a refresh tick. If it detects a
    change of either family, then after it the sync ticker has the
    verify period, a minute over the sync rate, and its next tick is
    due one full verify period after the reading of the clock when
    the fetches of the poll were done, whatever was scheduled before;
    the ticker is already so when the sweep over the domains starts.
    If the poll detects no change, the sync ticker is as it was. The
    verify period is the period [Run] makes the sync ticker with, one
    period after the reading of the clock at the end of its first
    pass, when both periods are positive. *)
Theorem refresh_change_resets_verify (w : IPWatcher St) (tk : time.Ticker) :
  syncTicker w = Some tk →
  is_Some (refreshTicker w) →
  (0 < verifyPeriod (config_ w))%Z →
  let old4 := loadString (currentIPv4 w) in
  let old6 := loadString (currentIPv6 w) in
  let r4 := ipfetcher.GetIPv4 (outside w) in
  let r6 := ipfetcher.GetIPv6 (final r4) in
  let new4 := (value r4).1 in
  let new6 := if config.SupportsIPv6 (config_ w) then (value r6).1 else "" in
  let detected := if config.SupportsIPv6 (config_ w) then final r6 else final r4 in
  let anyChange := changed new4 old4 ∨ changed new6 old6 in
  let reset := {| time.period := verifyPeriod (config_ w);
                  time.next := (Now detected + verifyPeriod (config_ w))%Z |} in
  (∀ r, r ∈ [effect (checkAndUpdateIP w); effect (Run_turn RefreshTick w)] →
     (anyChange → syncTicker (final r) = Some reset)
     ∧ (¬ anyChange → syncTicker (final r) = Some tk))
  ∧ (anyChange →
     ∃ w2 before,
       syncTicker w2 = Some reset
       ∧ Forall (λ e, isProviderCall e = false) before
       ∧ events (checkAndUpdateIP w) = before ++ events (updateAllDNSRecords w2)
       ∧ value (checkAndUpdateIP w) = Returned (value (updateAllDNSRecords w2)))
  ∧ (∀ w0 : IPWatcher St,
       positivePeriods (config_ w0) →
       syncTicker (final (Run [] w0))
       = Some {| time.period := verifyPeriod (config_ w0);
                 time.next := (Now (outside (final (fetchAndUpdateIPs w0)))
                               + verifyPeriod (config_ w0))%Z |}).
Proof.
  intros Htk Hrt Hpos. cbv zeta. split; [| split].
  - intros r Hr.
    assert (final r = final (checkAndUpdateIP w)
            ∨ final r = final (checkAndUpdateIP (afterRefreshTick w))) as Hcase.
    { apply elem_of_cons in Hr as [-> | Hr]; [by left |].
      apply list_elem_of_singleton in Hr as ->. right.
      unfold effect. rewrite run_final.
      by rewrite Run_turn_refresh by (done || by eexists). }
    assert (syncTicker (final r)
            = if bool_decide
                   (changed (value (ipfetcher.GetIPv4 (outside w))).1
                            (loadString (currentIPv4 w))
                    ∨ changed
                        (if config.SupportsIPv6 (config_ w)
                         then (value (ipfetcher.GetIPv6
                                        (final (ipfetcher.GetIPv4 (outside w))))).1
                         else "")
                        (loadString (currentIPv6 w)))
              then Some {| time.period := verifyPeriod (config_ w);
                           time.next :=
                             (Now (if config.SupportsIPv6 (config_ w)
                                   then final (ipfetcher.GetIPv6
                                                 (final (ipfetcher.GetIPv4 (outside w))))
                                   else final (ipfetcher.GetIPv4 (outside w)))
                              + verifyPeriod (config_ w))%Z |}
              else Some tk) as Hs.
    { destruct Hcase as [-> | ->].
      - rewrite (checkAndUpdateIP_syncTicker w tk Htk). cbv zeta.
        rewrite syncInterval_verifyPeriod.
        by rewrite (bool_decide_eq_true_2 _ Hpos).
      - rewrite (checkAndUpdateIP_syncTicker (afterRefreshTick w) tk Htk). cbv zeta.
        unfold afterRefreshTick. simpl. rewrite syncInterval_verifyPeriod.
        by rewrite (bool_decide_eq_true_2 _ Hpos). }
    rewrite Hs. split; intros Hany.
    + by rewrite bool_decide_eq_true_2.
    + by rewrite bool_decide_eq_false_2.
  - intros Hany.
    destruct (fetchNewIPs_run w) as (Hloc & _ & Hfe & Hn4 & Hn6 & Hout).
    cbv zeta in Hloc, Hfe, Hn4, Hn6, Hout.
    destruct Hloc as (Hcfg & _ & _ & _ & Hst).
    pose proof (checkAndUpdateIP_made w (ex_intro _ tk Htk)) as Hrun.
    cbv zeta in Hrun.
    rewrite Hn4, Hn6 in Hrun. rewrite bool_decide_eq_true_2 in Hrun by done.
    rewrite syncInterval_verifyPeriod, (bool_decide_eq_true_2 _ Hpos) in Hrun.
    set (new4 := (value (ipfetcher.GetIPv4 (outside w))).1) in *.
    set (new6 := if config.SupportsIPv6 (config_ w)
                 then (value (ipfetcher.GetIPv6
                                (final (ipfetcher.GetIPv4 (outside w))))).1
                 else "") in *.
    exists (afterStores (loadString (currentIPv4 w)) (loadString (currentIPv6 w))
                        new4 new6 (final (fetchNewIPs w))),
           (events (fetchNewIPs w)
            ++ changeLines (loadString (currentIPv4 w)) (loadString (currentIPv6 w))
                           new4 new6).
    split; [| split; [| split]].
    + unfold afterStores. simpl. rewrite bool_decide_eq_true_2 by done.
      rewrite Hst, Htk, Hcfg, Hout. unfold time.Reset.
      rewrite syncInterval_verifyPeriod.
      by rewrite (bool_decide_eq_false_2 (verifyPeriod (config_ w) ≤ 0)%Z) by lia.
    + apply Forall_app_2;
        [apply fetch_event_no_call, Hfe | apply changeLines_no_call].
    + rewrite Hrun. rewrite run_events. by rewrite app_assoc.
    + by rewrite Hrun.
  - intros w0 [Hr0 Hs0]. by apply Run_arms_syncTicker.
Qed.
End scheduler_properties.

Lemma refresh_change_resets_verify_witness :
  ipwatcher.syncTicker
    (final (@ipwatcher.Run_turn example.World example.memoryProvider
              (example.tickingNet "2.2.2.2") ipwatcher.RefreshTick
              (example.tickingWatcher "1.1.1.1")))
  = Some {| time.period := 30000000000%Z; time.next := 30000001005%Z |}.
Proof.
  pose proof (@refresh_change_resets_verify example.World example.memoryProvider
    (example.tickingNet "2.2.2.2") (example.tickingWatcher "1.1.1.1")
    {| time.period := (30 * time.Second)%Z; time.next := (30 * time.Second)%Z |} eq_refl) as H.
  destruct H as [H _]; [by eexists | reflexivity |].
  cbv zeta in H. edestruct H as [Hreset _].
  - apply list_elem_of_further, list_elem_of_here.
  - rewrite final_effect in Hreset. rewrite Hreset; [reflexivity |].
    left. split; discriminate.
Defined.

(** * Further properties *)

(** ** Keys within a zone *)

Section keys_in_zone.
Import dnsmanager spec.

(** X1. Within one zone, two desired records of kind A or AAAA have
    the same reconciliation key exactly when they have the same name
    and the same kind: distinct (name, kind) pairs never collide. *)
Theorem prepareRecordKey_inj_in_zone (d1 d2 : DNSRecord) :
  Root d1 = Root d2 → isKind (Type_ d1) → isKind (Type_ d2) →
  prepareRecordKey d1 = prepareRecordKey d2 ↔ Name d1 = Name d2 ∧ Type_ d1 = Type_ d2.
Proof.
  intros Hr H1 H2. rewrite !prepareRecordKey_fullName. split.
  - intros Heq. apply host_key_inj in Heq as [Hn Ht]; [| done | done].
    split; [| done]. by apply fullName_inj_in_zone.
  - intros [Hn Ht]. unfold fullName. by rewrite Hr, Hn, Ht.
Qed.
End keys_in_zone.

Lemma prepareRecordKey_inj_in_zone_witness :
  dnsmanager.prepareRecordKey example.www = dnsmanager.prepareRecordKey example.www6
  ↔ dnsmanager.Name example.www = dnsmanager.Name example.www6
    ∧ dnsmanager.Type_ example.www = dnsmanager.Type_ example.www6.
Proof.
  apply (prepareRecordKey_inj_in_zone example.www example.www6);
    [reflexivity | by left | by right].
Defined.

(** ** The shape of the two batches *)

Section batch_shape.
Import dnsmanager spec.

Variables (existingRecords : list dns.RecordResponse) (ipv4 ipv6 : string).

Local Abbreviation existing := (existingRecordMap existingRecords).

(** The body of the second loop only ever appends to what it was
    given. *)
Lemma ensure_step_acc (c : list DNSRecord) (u : list UpdateDNSRecord) (d : DNSRecord) :
  ensure_step existing ipv4 ipv6 (c, u) d
  = (c ++ (ensure_step existing ipv4 ipv6 ([], []) d).1,
     u ++ (ensure_step existing ipv4 ipv6 ([], []) d).2).
Proof.
  unfold ensure_step.
  destruct (skipped d ipv4 ipv6); simpl; [by rewrite !app_nil_r |].
  destruct (existing !! prepareRecordKey d) as [o|]; simpl; [| by rewrite app_nil_r].
  case_bool_decide; simpl; by rewrite ?app_nil_r.
Qed.

(** What one desired record adds to the two batches. *)
Lemma ensure_step_one (d : DNSRecord) :
  (ensure_step existing ipv4 ipv6 ([], []) d).1
    = (if wantsCreate existingRecords ipv4 ipv6 d then [d] else [])
  ∧ Embedded <$> (ensure_step existing ipv4 ipv6 ([], []) d).2
    = (if wantsUpdate existingRecords ipv4 ipv6 d then [d] else []).
Proof.
  unfold ensure_step, wantsCreate, wantsUpdate.
  destruct (skipped d ipv4 ipv6); simpl; [done |].
  destruct (existing !! prepareRecordKey d) as [o|]; simpl; [| done].
  by case_bool_decide.
Qed.

(** X2. Reconciling a concatenation of desired lists gives the
    concatenation of the batches of the parts: the fate of a desired
    record does not depend on the records listed with it. *)
Theorem plan_app (records1 records2 : list DNSRecord) :
  plan existingRecords (records1 ++ records2) ipv4 ipv6
  = ((plan existingRecords records1 ipv4 ipv6).1
       ++ (plan existingRecords records2 ipv4 ipv6).1,
     (plan existingRecords records1 ipv4 ipv6).2
       ++ (plan existingRecords records2 ipv4 ipv6).2).
Proof.
  induction records2 as [|d records2 IH] using rev_ind.
  - rewrite app_nil_r, plan_nil. simpl. rewrite !app_nil_r.
    by destruct (plan existingRecords records1 ipv4 ipv6).
  - rewrite app_assoc, !plan_snoc, IH.
    destruct (plan existingRecords records1 ipv4 ipv6) as [c1 u1].
    destruct (plan existingRecords records2 ipv4 ipv6) as [c2 u2].
    cbn [fst snd].
    rewrite ensure_step_acc, (ensure_step_acc c2 u2). cbn [fst snd].
    by rewrite !app_assoc.
Qed.

(** X3. The create batch is the list of the desired records that have
    an address to publish and no existing record under their key, in
    the order given and with repetitions kept; the records of the
    update batch are, likewise, those found under their key with a
    different content or proxied flag. So no desired record is in both
    batches, and the two batches together are no longer than the
    desired list. *)
Theorem plan_filter (records : list DNSRecord) :
  let p := plan existingRecords records ipv4 ipv6 in
  p.1 = filter (wantsCreate existingRecords ipv4 ipv6) records
  ∧ Embedded <$> p.2 = filter (wantsUpdate existingRecords ipv4 ipv6) records
  ∧ (∀ d, d ∈ p.1 → ∀ u, u ∈ p.2 → Embedded u ≠ d)
  ∧ (length p.1 + length p.2 ≤ length records)%nat.
Proof.
  cbv zeta.
  assert ((plan existingRecords records ipv4 ipv6).1
            = filter (wantsCreate existingRecords ipv4 ipv6) records
          ∧ Embedded <$> (plan existingRecords records ipv4 ipv6).2
            = filter (wantsUpdate existingRecords ipv4 ipv6) records) as [Hc Hu].
  { induction records as [|d records' IH] using rev_ind; [done |].
    rewrite plan_snoc, !filter_app.
    destruct (plan existingRecords records' ipv4 ipv6) as [c u]. simpl in IH.
    destruct IH as [IHc IHu].
    rewrite ensure_step_acc. cbn [fst snd]. rewrite fmap_app, IHc, IHu.
    destruct (ensure_step_one d) as [-> ->].
    rewrite !filter_cons, !filter_nil.
    by destruct (wantsCreate existingRecords ipv4 ipv6 d),
                (wantsUpdate existingRecords ipv4 ipv6 d). }
  split; [done |]. split; [done |]. split.
  - intros d Hd u Hin Heq.
    apply plan_create_iff in Hd as (_ & _ & Hnone).
    apply plan_update_iff in Hin as (_ & _ & o & Hsome & _).
    rewrite Heq, Hnone in Hsome. done.
  - assert (length (plan existingRecords records ipv4 ipv6).2
            = length (filter (wantsUpdate existingRecords ipv4 ipv6) records)) as ->
      by (by rewrite <- Hu, length_fmap).
    rewrite Hc. clear Hc Hu.
    induction records as [|d records' IH]; [done |].
    rewrite !filter_cons.
    assert (¬ (wantsCreate existingRecords ipv4 ipv6 d
               ∧ wantsUpdate existingRecords ipv4 ipv6 d)) as Hex.
    { unfold wantsCreate, wantsUpdate. intros [H1 H2].
      apply andb_prop_elim in H1 as [_ H1]. apply andb_prop_elim in H2 as [_ H2].
      apply bool_decide_unpack in H1. by rewrite H1 in H2. }
    repeat case_decide; simpl; try lia. tauto.
Qed.

(** X4. When the provider lists several A or AAAA records under one
    name and kind, the last one listed is the one a desired record is
    compared with: it is what the lookup finds, and an update entry for
    the desired record carries its ID. *)
Theorem last_listed_wins (l1 l2 : list dns.RecordResponse) (o : dns.RecordResponse)
    (records : list DNSRecord) (d : DNSRecord) :
  existingRecords = l1 ++ o :: l2 →
  isHostRecord o = true →
  (∀ o', o' ∈ l2 → isHostRecord o' = true → existingKey o' ≠ existingKey o) →
  prepareRecordKey d = existingKey o →
  existing !! prepareRecordKey d = Some o
  ∧ ∀ u, u ∈ (plan existingRecords records ipv4 ipv6).2 → Embedded u = d →
         ID u = dns.ID o.
Proof.
  intros -> Ho Hl2 Hkey.
  assert (existingRecordMap (l1 ++ o :: l2) !! prepareRecordKey d = Some o) as Hlook.
  { rewrite Hkey. by apply existingRecordMap_last_wins. }
  split; [done |]. intros u Hu Heq.
  apply plan_update_iff in Hu as (_ & _ & o' & Hlook' & _ & Hid).
  rewrite Heq, Hlook in Hlook'. by injection Hlook' as <-.
Qed.
End batch_shape.

Lemma last_listed_wins_witness :
  dnsmanager.existingRecordMap [example.apexOld; example.apexNew]
    !! dnsmanager.prepareRecordKey example.apex
  = Some example.apexNew.
Proof.
  apply (last_listed_wins [example.apexOld; example.apexNew] "2.2.2.2" ""
           [example.apexOld] [] example.apexNew [example.apex] example.apex).
  - reflexivity.
  - reflexivity.
  - intros o' Ho'. by apply elem_of_nil in Ho'.
  - reflexivity.
Defined.

(** ** What a request carries *)

Section request_content.
Import dnsmanager spec.
Context {St : Type} `{client : !CloudflareClient St}.

Lemma not_skipped_address (d : DNSRecord) (ipv4 ipv6 : string) :
  skipped d ipv4 ipv6 = false →
  (Type_ d = ARecord → ipv4 ≠ "") ∧ (Type_ d = AAAARecord → ipv6 ≠ "").
Proof.
  unfold skipped. intros H. apply orb_false_elim in H as [H1 H2].
  apply bool_decide_eq_false in H1. apply bool_decide_eq_false in H2.
  split; intros Ht Hip; tauto.
Qed.

(** X5. Every entry of a request that [EnsureDNSRecords] sends carries
    a non-empty address, the IPv4 one under type A and the IPv6 one
    under type AAAA, the automatic TTL, and the name and proxied flag
    of a desired record of that type; the request is for the zone the
    call was given. *)
Theorem EnsureDNSRecords_request_content (zoneID : string) (records : list DNSRecord)
    (ipv4 ipv6 : string) (st : St) (req : dns.RecordBatchParams) :
  CallBatchDNSRecords req ∈ events (EnsureDNSRecords zoneID records ipv4 ipv6 st) →
  dns.ZoneID req = zoneID
  ∧ (∀ p, p ∈ default [] (dns.Posts req) →
       dns.ParamContent (postParam p) ≠ ""
       ∧ dns.ParamContent (postParam p)
         = (if bool_decide (dns.PostType p = "A") then ipv4 else ipv6)
       ∧ dns.ParamTTL (postParam p) = dns.TTL1
       ∧ ∃ d, d ∈ records ∧ Type_ d = dns.PostType p
              ∧ Name d = dns.ParamName (postParam p)
              ∧ Proxied d = dns.ParamProxied (postParam p))
  ∧ (∀ p, p ∈ default [] (dns.Puts req) →
       dns.ParamContent (putParam p) ≠ ""
       ∧ dns.ParamContent (putParam p)
         = (if bool_decide (dns.PutType p = "A") then ipv4 else ipv6)
       ∧ dns.ParamTTL (putParam p) = dns.TTL1
       ∧ ∃ d, d ∈ records ∧ Type_ d = dns.PutType p
              ∧ Name d = dns.ParamName (putParam p)
              ∧ Proxied d = dns.ParamProxied (putParam p)).
Proof.
  intros (existingRecords & st1 & Hlist & ->)%EnsureDNSRecords_batch_sent.
  split; [done |]. rewrite batchRequest_Posts, batchRequest_Puts.
  split.
  - intros p. rewrite prepareBatchCreate_omap.
    intros (d & Hd & Hp)%list_elem_of_omap.
    apply plan_create_iff in Hd as (Hd & Hs & _).
    apply not_skipped_address in Hs as [H4 H6].
    unfold postOf in Hp. repeat case_bool_decide; try done;
      injection Hp as <-; simpl;
      (split; [auto |]); (split; [done |]); (split; [done |]); by exists d.
  - intros p. rewrite prepareBatchUpdate_omap.
    intros (u & Hu & Hp)%list_elem_of_omap.
    apply plan_update_iff in Hu as (Hd & Hs & _).
    apply not_skipped_address in Hs as [H4 H6].
    unfold putOf in Hp. repeat case_bool_decide; try done;
      injection Hp as <-; simpl;
      (split; [auto |]); (split; [done |]); (split; [done |]); by exists (Embedded u).
Qed.
End request_content.

Lemma EnsureDNSRecords_request_content_witness :
  dns.ZoneID
    (dnsmanager.batchRequest "z1" [example.www]
       [{| dnsmanager.ID := "r1"; dnsmanager.Embedded := example.apex |}] "2.2.2.2" "")
  = "z1".
Proof.
  apply (@EnsureDNSRecords_request_content unit
           (dnsmanager.mockClient (example.provider [example.apexOld]))
           "z1" [example.apex; example.www] "2.2.2.2" "" tt).
  vm_compute. apply list_elem_of_further, list_elem_of_here.
Defined.

(** ** Error and edge behaviour of the DNS manager *)

Section manager_edges.
Import dnsmanager spec.
Context {St : Type} `{client : !CloudflareClient St}.

(** X6. With no address known for either family, [EnsureDNSRecords] on
    desired records of kind A or AAAA writes nothing, whatever the
    provider lists: both batches are empty, and when the listing
    succeeds the call logs the no-op line and returns success. *)
Theorem EnsureDNSRecords_no_address (zoneID : string) (records : list DNSRecord)
    (st : St) :
  Forall (λ d, isKind (Type_ d)) records →
  (∀ existingRecords, plan existingRecords records "" "" = ([], []))
  ∧ filter isBatchWrite (events (EnsureDNSRecords zoneID records "" "" st)) = []
  ∧ ((ListDNSRecords {| dns.ListZoneID := zoneID |} st).1.2 = None →
     value (EnsureDNSRecords zoneID records "" "" st) = None
     ∧ events (EnsureDNSRecords zoneID records "" "" st)
       = [CallListDNSRecords {| dns.ListZoneID := zoneID |}; Log LogNoRecords]).
Proof.
  intros Hkinds.
  assert (∀ existingRecords, plan existingRecords records "" "" = ([], [])) as Hplan.
  { intros existingRecords. apply plan_empty_iff. intros d Hd Hs. exfalso.
    rewrite Forall_forall in Hkinds. destruct (Hkinds d Hd) as [Ht | Ht].
    - by rewrite skipped_A in Hs.
    - by rewrite skipped_AAAA in Hs. }
  split; [done |]. rewrite EnsureDNSRecords_run. unfold events, value.
  destruct (ListDNSRecords _ st) as [[existingRecords [e|]] st1]; simpl.
  - split; [done |]. done.
  - rewrite Hplan. simpl. done.
Qed.

(** X7. The two ways [EnsureDNSRecords] fails. If the listing fails, no
    batch is computed or sent: the listing is the only call, and the
    error reads [failed to get existing DNS records: failed to list DNS
    records: ] followed by the cause. If the batch call fails, the
    error reads [failed to execute batch DNS record update: ] followed
    by the cause. In both cases the provider is left as the failing
    call left it. *)
Theorem EnsureDNSRecords_failures (zoneID : string) (records : list DNSRecord)
    (ipv4 ipv6 : string) (st : St) :
  let r := EnsureDNSRecords zoneID records ipv4 ipv6 st in
  (∀ l e st1,
     ListDNSRecords {| dns.ListZoneID := zoneID |} st = ((l, Some e), st1) →
     events r = [CallListDNSRecords {| dns.ListZoneID := zoneID |}]
     ∧ final r = st1
     ∧ ∃ err, value r = Some err
              ∧ Error err = "failed to get existing DNS records: "
                            +:+ "failed to list DNS records: " +:+ Error e)
  ∧ (∀ req e st1 st2,
       CallBatchDNSRecords req ∈ events r →
       (ListDNSRecords {| dns.ListZoneID := zoneID |} st).2 = st1 →
       BatchDNSRecords req st1 = (Some e, st2) →
       final r = st2
       ∧ ∃ err, value r = Some err
                ∧ Error err = "failed to execute batch DNS record update: " +:+ Error e).
Proof.
  cbv zeta. split.
  - intros l e st1 Hlist. rewrite EnsureDNSRecords_run, Hlist.
    unfold events, final, value. simpl.
    split; [done |]. split; [done |]. eexists. split; [done |]. done.
  - intros req e st1 st2 Hin Hst Hbatch. pose proof Hin as Hsent.
    apply EnsureDNSRecords_batch_sent in Hin as (existingRecords & st1' & Hlist & ->).
    rewrite Hlist in Hst. simpl in Hst. subst st1'.
    revert Hsent. rewrite EnsureDNSRecords_run, Hlist. unfold final, value, events. simpl.
    destruct (plan existingRecords records ipv4 ipv6) as [c u] eqn:Hp. simpl in *.
    destruct c as [|x c], u as [|y u]; simpl in *.
    + intros Hsent. exfalso.
      apply elem_of_cons in Hsent as [Hsent | Hsent]; [done |].
      apply list_elem_of_singleton in Hsent. done.
    + rewrite Hbatch. simpl. intros _. split; [done |]. eexists. split; done.
    + rewrite Hbatch. simpl. intros _. split; [done |]. eexists. split; done.
    + rewrite Hbatch. simpl. intros _. split; [done |]. eexists. split; done.
Qed.

(** X8. [DeleteDNSRecord] makes one call, the deletion of the given
    record in the given zone, and no listing or batch call; it returns
    success when the provider does, and otherwise an error that names
    the record and ends in the cause. *)
Theorem DeleteDNSRecord_run (zoneID recordID : string) (st : St) :
  let r := DeleteDNSRecord_ zoneID recordID st in
  let answer := DeleteDNSRecord recordID {| dns.DeleteZoneID := zoneID |} st in
  events r = [CallDeleteDNSRecord recordID {| dns.DeleteZoneID := zoneID |}]
  ∧ final r = answer.2
  ∧ (answer.1 = None ↔ value r = None)
  ∧ (∀ e, answer.1 = Some e →
       ∃ err, value r = Some err
              ∧ Error err = "failed to delete DNS record " +:+ recordID +:+ ": "
                            +:+ Error e).
Proof.
  cbv zeta. unfold DeleteDNSRecord_, callDeleteDNSRecord. go_goal.
  destruct (DeleteDNSRecord recordID _ st) as [[e|] st1]; simpl.
  - split; [done |]. split; [done |]. split; [done |].
    intros e' [= <-]. eexists. split; [done |]. simpl.
    by rewrite !string_app_assoc.
  - split; [done |]. split; [done |]. split; [done |]. done.
Qed.
End manager_edges.

Lemma EnsureDNSRecords_no_address_witness :
  events (@dnsmanager.EnsureDNSRecords unit
            (dnsmanager.mockClient (example.provider [example.apexOld]))
            "z1" [example.apex; example.www6] "" "" tt)
  = [CallListDNSRecords {| dns.ListZoneID := "z1" |}; Log LogNoRecords].
Proof.
  pose proof (@EnsureDNSRecords_no_address unit
    (dnsmanager.mockClient (example.provider [example.apexOld]))
    "z1" [example.apex; example.www6] tt) as H.
  destruct H as (_ & _ & H).
  - apply Forall_cons_2; [by left |]. apply Forall_cons_2; [by right |]. apply Forall_nil_2.
  - destruct (H eq_refl) as [_ He]. exact He.
Defined.

(** ** The real client *)

Section real_client.
Import dnsmanager spec.
Context {St : Type} `{sdk : !cloudflare.Client St}.

Lemma collectHostRecords_filter (yielded : list dns.RecordResponse) :
  collectHostRecords yielded = filter isHostRecord yielded.
Proof.
  unfold collectHostRecords.
  induction yielded as [|rec l IH] using rev_ind; [done |].
  rewrite fold_left_app, filter_app, IH. simpl.
  rewrite filter_cons, filter_nil.
  destruct (isHostRecord rec); simpl; [done | by rewrite app_nil_r].
Qed.

Lemma existingRecordMap_app (l1 l2 : list dns.RecordResponse) :
  existingRecordMap (l1 ++ l2) = fold_left fileRecord l2 (existingRecordMap l1).
Proof. unfold existingRecordMap. by rewrite fold_left_app. Qed.

Lemma existingRecordMap_filter (l : list dns.RecordResponse) :
  existingRecordMap (filter isHostRecord l) = existingRecordMap l.
Proof.
  induction l as [|rec l IH] using rev_ind; [done |].
  rewrite filter_app, !existingRecordMap_app, IH. simpl.
  rewrite filter_cons, filter_nil. unfold fileRecord at 2.
  destruct (isHostRecord rec) eqn:Hrec; simpl; [| done].
  unfold fileRecord. by rewrite Hrec.
Qed.

(** X9. [ListDNSRecords] of the real client hands back the records of
    type A or AAAA that the cursor yields, in the order yielded, and
    nothing of what was collected when the cursor ends in an error.
    The second filter, in [EnsureDNSRecords], then changes nothing:
    the batches computed from the filtered list are those computed
    from everything the cursor yields. [ListZones] of the real client
    turns a nil page into an empty list. *)
Theorem RealCloudflareClient_listing (params : dns.RecordListParams)
    (zparams : zones.ZoneListParams) (st : St)
    (records : list DNSRecord) (ipv4 ipv6 : string) :
  let yielded := (cloudflare.DNS_Records_ListAutoPaging params st).1.1 in
  let listed := (ListDNSRecords (CloudflareClient := RealCloudflareClient) params st).1 in
  (ListDNSRecords (CloudflareClient := RealCloudflareClient) params st).2
    = (cloudflare.DNS_Records_ListAutoPaging params st).2
  ∧ listed.2 = (cloudflare.DNS_Records_ListAutoPaging params st).1.2
  ∧ listed.1 = (match listed.2 with
                | Some _ => []
                | None => filter isHostRecord yielded
                end)
  ∧ Forall (λ rec, isHostRecord rec = true) listed.1
  ∧ plan (filter isHostRecord yielded) records ipv4 ipv6 = plan yielded records ipv4 ipv6
  ∧ ((cloudflare.Zones_List zparams st).1 = (None, None) →
     (ListZones (CloudflareClient := RealCloudflareClient) zparams st).1 = ([], None)).
Proof.
  cbv zeta. simpl.
  destruct (cloudflare.DNS_Records_ListAutoPaging params st) as [[yielded [e|]] st1];
    simpl.
  - split; [done |]. split; [done |]. split; [done |]. split; [constructor |].
    split.
    + unfold plan. by rewrite existingRecordMap_filter.
    + destruct (cloudflare.Zones_List zparams st) as [[page err] st2]. simpl.
      by intros [= -> ->].
  - split; [done |]. split; [done |]. rewrite collectHostRecords_filter.
    split; [done |]. split.
    + apply Forall_forall. intros rec Hrec.
      apply list_elem_of_filter in Hrec as [Hrec _]. by apply Is_true_eq_true.
    + split.
      * unfold plan. by rewrite existingRecordMap_filter.
      * destruct (cloudflare.Zones_List zparams st) as [[page err] st2]. simpl.
        by intros [= -> ->].
Qed.

(** X10. The package before and after the client interface was
    introduced: each of the four methods of
    [internal/dnsmanager/dnsmanager.go], which call the SDK directly,
    returns the same value, leaves the provider in the same state and
    makes the same calls as the method of the later package run on the
    real client. *)
Theorem direct_agrees_with_interface (zoneName zoneID recordID : string)
    (records : list DNSRecord) (ipv4 ipv6 : string) (st : St) :
  dnsmanager_direct.GetZoneIDByName zoneName st
    = GetZoneIDByName (client := RealCloudflareClient) zoneName st
  ∧ dnsmanager_direct.GetDNSRecords zoneID st
    = GetDNSRecords (client := RealCloudflareClient) zoneID st
  ∧ dnsmanager_direct.EnsureDNSRecords zoneID records ipv4 ipv6 st
    = EnsureDNSRecords (client := RealCloudflareClient) zoneID records ipv4 ipv6 st
  ∧ dnsmanager_direct.DeleteDNSRecord zoneID recordID st
    = DeleteDNSRecord_ (client := RealCloudflareClient) zoneID recordID st.
Proof.
  assert (dnsmanager_direct.GetDNSRecords zoneID st
          = GetDNSRecords (client := RealCloudflareClient) zoneID st) as Hget.
  { unfold dnsmanager_direct.GetDNSRecords, GetDNSRecords, callListDNSRecords.
    go_goal.
    by destruct (cloudflare.DNS_Records_ListAutoPaging _ st) as [[yielded [e|]] st1]. }
  split; [| split; [done | split]].
  - unfold dnsmanager_direct.GetZoneIDByName, GetZoneIDByName, callListZones.
    go_goal.
    by destruct (cloudflare.Zones_List _ st) as [[[[|z zs]|] [e|]] st1].
  - unfold dnsmanager_direct.EnsureDNSRecords, dnsmanager_direct.GetDNSRecords,
      EnsureDNSRecords, GetDNSRecords, callListDNSRecords, callBatchDNSRecords.
    go_goal.
    destruct (cloudflare.DNS_Records_ListAutoPaging _ st) as [[yielded [e|]] st1];
      simpl; [done |].
    destruct (plan (collectHostRecords yielded) records ipv4 ipv6) as [c u]. simpl.
    by case_bool_decide.
  - unfold dnsmanager_direct.DeleteDNSRecord, DeleteDNSRecord_, callDeleteDNSRecord.
    by go_goal.
Qed.
End real_client.

(** ** The requests of the IP fetcher *)

Section fetcher_requests.
Import ipfetcher spec.
Context {St : Type} `{rt : !GoRuntime St}.

(** X11. A lookup sends at most one request, to the endpoint of its
    family, and changes the outside only through that request; when
    the request cannot even be built nothing is sent, the outside is
    untouched and the error says so. The two endpoints differ. *)
Theorem fetchIP_requests (url : string) (st : St) :
  let r := fetchIP url st in
  match NewRequestWithContext http.MethodGet url with
  | Some e =>
      r = (("", Some (Wrap "failed to create request: " e)), st, [])
  | None =>
      events r = [CallHTTPGet url] ∧ final r = (Do url st).2
  end
  ∧ GetIPv4 st = fetchIP "https://api.ipify.org" st
  ∧ GetIPv6 st = fetchIP "https://api6.ipify.org" st
  ∧ (∀ u, CallHTTPGet u ∈ events (GetIPv4 st) → u = ipv4URL)
  ∧ (∀ u, CallHTTPGet u ∈ events (GetIPv6 st) → u = ipv6URL)
  ∧ ipv4URL ≠ ipv6URL.
Proof.
  assert (∀ u, match NewRequestWithContext http.MethodGet u with
               | Some e => fetchIP u st
                           = (("", Some (Wrap "failed to create request: " e)), st, [])
               | None => events (fetchIP u st) = [CallHTTPGet u]
                         ∧ final (fetchIP u st) = (Do u st).2
               end) as Hone.
  { intros u. unfold fetchIP, callDo. go_goal.
    destruct (NewRequestWithContext http.MethodGet u) as [e|]; simpl; [done |].
    destruct (Do u st) as [[resp [e|]] st1]; simpl; [done |].
    case_bool_decide; simpl; [done |].
    destruct (http.Body resp) as [body [e|]]; simpl; [done |].
    by case_bool_decide. }
  assert (∀ u u', CallHTTPGet u' ∈ events (fetchIP u st) → u' = u) as Hurl.
  { intros u u' Hin. specialize (Hone u).
    destruct (NewRequestWithContext http.MethodGet u) as [e|].
    - rewrite Hone in Hin. by apply elem_of_nil in Hin.
    - destruct Hone as [Hev _]. rewrite Hev in Hin.
      apply list_elem_of_singleton in Hin. by injection Hin. }
  cbv zeta. split; [apply Hone |]. split; [done |]. split; [done |].
  split; [apply Hurl |]. split; [apply Hurl | done].
Qed.
End fetcher_requests.

(** ** The zone cache *)

Section zone_cache.
Import dnsmanager spec ipwatcher.
Context {St : Type} `{client : !CloudflareClient St}.

Lemma getZoneID_cases (zoneName : string) (w : IPWatcher St) :
  (∃ zID, zoneCache w !! zoneName = Some zID
          ∧ getZoneID zoneName w = ((zID, None), w, []))
  ∨ (zoneCache w !! zoneName = None
     ∧ events (getZoneID zoneName w) = [CallListZones {| zones.NameFilter := zoneName |}]
     ∧ ((∃ zID, value (getZoneID zoneName w) = (zID, None)
                ∧ zoneCache (final (getZoneID zoneName w))
                  = <[zoneName := zID]> (zoneCache w))
        ∨ (∃ e, value (getZoneID zoneName w) = ("", Some e)
                ∧ zoneCache (final (getZoneID zoneName w)) = zoneCache w))).
Proof.
  unfold getZoneID, gets, call, storeZone, modify. go_goal.
  destruct (zoneCache w !! zoneName) as [zoneID|] eqn:Hc; simpl.
  { left. by exists zoneID. }
  right. split; [done |].
  pose proof (GetZoneIDByName_run zoneName (outside w)) as Hrun.
  destruct (GetZoneIDByName zoneName (outside w)) as [[[zID err] st1] t].
  assert (t = [CallListZones {| zones.NameFilter := zoneName |}]) as ->.
  { simpl in Hrun.
    destruct (ListZones _ (outside w)) as [[[|z zs] [e|]] st2]; by inversion Hrun. }
  destruct err as [e|]; simpl.
  - split; [done |]. right. by exists e.
  - split; [done |]. left. by exists zID.
Qed.

(** X12. The zone cache only grows, one name at a time: [getZoneID]
    never changes or drops an entry, touches no name but the one
    asked for, and stores nothing when the lookup fails. Once a name
    has been resolved, asking again returns the same ID from the
    cache, with no provider call and no change of state. *)
Theorem getZoneID_cache (zoneName : string) (w : IPWatcher St) :
  let r := getZoneID zoneName w in
  zoneCache w ⊆ zoneCache (final r)
  ∧ (∀ n, n ≠ zoneName → zoneCache (final r) !! n = zoneCache w !! n)
  ∧ (∀ zID, value r = (zID, None) →
       getZoneID zoneName (final r) = ((zID, None), final r, []))
  ∧ ((value r).2 ≠ None → zoneCache (final r) = zoneCache w)
  ∧ (length (filter isListZones (events r)) ≤ 1)%nat
  ∧ (is_Some (zoneCache w !! zoneName) → events r = []).
Proof.
  cbv zeta.
  destruct (getZoneID_cases zoneName w)
    as [(zID & Hc & Hrun) | (Hc & Hev & [(zID & Hv & Hz) | (e & Hv & Hz)])].
  - rewrite Hrun. unfold final, value, events. simpl.
    split; [done |]. split; [done |]. split.
    + intros zID' [= <-]. exact Hrun.
    + split; [done |]. split; [lia | done].
  - rewrite Hev, Hz, Hv. simpl. split.
    + by apply insert_subseteq.
    + split; [intros n Hn; by rewrite lookup_insert_ne |]. split.
      * intros zID' [= <-].
        destruct (getZoneID_cases zoneName (final (getZoneID zoneName w)))
          as [(zID' & Hc' & Hrun') | (Hc' & _)].
        -- rewrite Hz, lookup_insert_eq in Hc'. injection Hc' as <-. exact Hrun'.
        -- rewrite Hz, lookup_insert_eq in Hc'. done.
      * split; [done |]. split; [lia |]. intros [? Hsome]. by rewrite Hc in Hsome.
  - rewrite Hev, Hz, Hv. simpl. split; [done |]. split; [done |].
    split; [done |]. split; [done |]. split; [lia |].
    intros [? Hsome]. by rewrite Hc in Hsome.
Qed.
End zone_cache.

(** ** What a sweep calls *)

Section sweep_calls.
Import dnsmanager spec ipwatcher.
Context {St : Type} `{client : !CloudflareClient St}.

(** The calls of one [EnsureDNSRecords]: one listing, at most one
    batch, nothing else. *)
Lemma EnsureDNSRecords_calls (zoneID : string) (records : list DNSRecord)
    (ipv4 ipv6 : string) (st : St) :
  let t := events (EnsureDNSRecords zoneID records ipv4 ipv6 st) in
  filter isListZones t = []
  ∧ length (filter isListDNSRecords t) = 1%nat
  ∧ (length (filter isBatchWrite t) ≤ 1)%nat
  ∧ filter isDelete t = []
  ∧ filter isHTTPGet t = [].
Proof.
  cbv zeta. rewrite EnsureDNSRecords_run. unfold events.
  destruct (ListDNSRecords _ st) as [[existingRecords [e|]] st1]; simpl.
  { repeat split; done || lia. }
  destruct (plan existingRecords records ipv4 ipv6) as [c u]; simpl.
  destruct c as [|x c], u as [|y u]; simpl;
    try (destruct (BatchDNSRecords _ st1) as [? ?]; simpl);
    repeat split; done || lia.
Qed.

(** Counting the events of a kind in the events of one domain. *)
Lemma sweep_step_calls (logFailed : string → error → LogLine) (logOk : string → LogLine)
    (ipv4 ipv6 : string) (lastErr : option error) (domain : config.Domain)
    (w : IPWatcher St) :
  let r := sweep_step logFailed logOk ipv4 ipv6 lastErr domain w in
  zoneCache w ⊆ zoneCache (final r)
  ∧ length (filter isListZones (events r))
    = (if zoneCache w !! config.ZoneName domain is Some _ then 0 else 1)%nat
  ∧ (length (filter isListDNSRecords (events r)) ≤ 1)%nat
  ∧ (length (filter isBatchWrite (events r)) ≤ 1)%nat
  ∧ filter isDelete (events r) = []
  ∧ filter isHTTPGet (events r) = [].
Proof.
  cbv zeta. rewrite sweep_step_run. cbv zeta.
  assert (zoneCache w ⊆ zoneCache (final (getZoneID (config.ZoneName domain) w))
          ∧ (events (getZoneID (config.ZoneName domain) w)
             = if zoneCache w !! config.ZoneName domain is Some _ then []
               else [CallListZones {| zones.NameFilter := config.ZoneName domain |}]))
    as [Hsub Hev].
  { destruct (getZoneID_cases (config.ZoneName domain) w)
      as [(zID & Hc & Hrun) | (Hc & Hev & [(zID & Hv & Hz) | (e & Hv & Hz)])].
    - rewrite Hrun, Hc. done.
    - rewrite Hz, Hev, Hc. split; [by apply insert_subseteq | done].
    - rewrite Hz, Hev, Hc. done. }
  unfold value, final, events in Hsub, Hev |- *.
  destruct (getZoneID (config.ZoneName domain) w) as [[[zoneID err] w1] tz].
  simpl in Hsub, Hev |- *. subst tz.
  destruct err as [e|].
  - simpl. rewrite !filter_app.
    destruct (zoneCache w !! config.ZoneName domain); simpl;
      repeat split; done || lia.
  - destruct (call_frame (EnsureDNSRecords zoneID (dnsRecordsOf domain) ipv4 ipv6) w1)
      as (_ & Hcache & _ & _ & Hce).
    destruct (EnsureDNSRecords_calls zoneID (dnsRecordsOf domain) ipv4 ipv6 (outside w1))
      as (H1 & H2 & H3 & H4 & H5).
    cbv zeta in H1, H2, H3, H4, H5. rewrite <- Hce in H1, H2, H3, H4, H5.
    unfold value, final, events in Hcache, H1, H2, H3, H4, H5 |- *.
    destruct (call (EnsureDNSRecords zoneID (dnsRecordsOf domain) ipv4 ipv6) w1)
      as [[err w2] te].
    simpl in Hcache, H1, H2, H3, H4, H5 |- *.
    destruct err as [e|]; simpl;
      rewrite !filter_app, !length_app, Hcache, H1, H4, H5;
      (destruct (zoneCache w !! config.ZoneName domain); simpl;
       repeat split; done || lia).
Qed.
End sweep_calls.


Section sweep_bounds.
Import dnsmanager spec ipwatcher.
Context {St : Type} `{client : !CloudflareClient St}.

Lemma filter_length_mono {A} (P Q : A → Prop) `{!∀ x, Decision (P x)}
    `{!∀ x, Decision (Q x)} (l : list A) :
  (∀ x, P x → Q x) → (length (filter P l) ≤ length (filter Q l))%nat.
Proof.
  intros HPQ. induction l as [|x l IH]; [done |].
  rewrite !filter_cons. repeat case_decide; simpl; try lia.
  exfalso. auto.
Qed.

Section one_sweep.
Variables (logFailed : string → error → LogLine) (logOk : string → LogLine).
Variables (ipv4 ipv6 : string).

Local Abbreviation step := (sweep_step logFailed logOk ipv4 ipv6).

Lemma sweep_calls (domains : list config.Domain) (lastErr : option error)
    (w : IPWatcher St) :
  let r := sweep step domains lastErr w in
  zoneCache w ⊆ zoneCache (final r)
  ∧ (length (filter isListZones (events r))
     ≤ length (filter (λ d, zoneCache w !! config.ZoneName d = None) domains))%nat
  ∧ (length (filter isListDNSRecords (events r)) ≤ length domains)%nat
  ∧ (length (filter isBatchWrite (events r)) ≤ length domains)%nat
  ∧ filter isDelete (events r) = []
  ∧ filter isHTTPGet (events r) = [].
Proof.
  cbv zeta. revert lastErr w. induction domains as [|d ds IH]; intros lastErr w.
  - simpl. repeat split; done || lia.
  - rewrite sweep_cons. cbv zeta.
    destruct (sweep_step_calls logFailed logOk ipv4 ipv6 lastErr d w)
      as (Hs1 & Hz1 & Hl1 & Hb1 & Hd1 & Hh1).
    cbv zeta in Hs1, Hz1, Hl1, Hb1, Hd1, Hh1.
    destruct (IH (value (step lastErr d w)) (final (step lastErr d w)))
      as (Hs2 & Hz2 & Hl2 & Hb2 & Hd2 & Hh2).
    rewrite run_final, !run_events.
    rewrite !filter_app, !length_app, Hd1, Hd2, Hh1, Hh2.
    split; [by etrans |].
    split; [| cbn [length]; repeat split; done || lia].
    rewrite Hz1, filter_cons.
    assert (length (filter (λ d0, zoneCache (final (step lastErr d w))
                                    !! config.ZoneName d0 = None) ds)
            ≤ length (filter (λ d0, zoneCache w !! config.ZoneName d0 = None) ds))%nat
      as Hmono.
    { apply filter_length_mono. intros x Hx.
      destruct (zoneCache w !! config.ZoneName x) as [zID|] eqn:Hw; [| done].
      eapply lookup_weaken in Hw; [| exact Hs1]. by rewrite Hw in Hx. }
    destruct (zoneCache w !! config.ZoneName d) as [zID|] eqn:Hc.
    + rewrite decide_False by done. simpl. lia.
    + rewrite decide_True by done. simpl. lia.
Qed.

Lemma sweep_cached (domains : list config.Domain) (lastErr : option error)
    (w : IPWatcher St) :
  Forall (λ d, is_Some (zoneCache w !! config.ZoneName d)) domains →
  filter isListZones (events (sweep step domains lastErr w)) = [].
Proof.
  intros Hall.
  assert (filter (λ d, zoneCache w !! config.ZoneName d = None) domains = []) as Hnone.
  { induction Hall as [|d ds [zID Hd] _ IH]; [done |].
    by rewrite filter_cons, decide_False by (by rewrite Hd). }
  destruct (sweep_calls domains lastErr w) as (_ & Hz & _). cbv zeta in Hz.
  rewrite Hnone in Hz. simpl in Hz.
  by destruct (filter isListZones (events (sweep step domains lastErr w)));
    [| simpl in Hz; lia].
Qed.
End one_sweep.

(** Two sweeps that differ in the lines they log only. *)
Lemma sweep_same_calls (lf1 lf2 : string → error → LogLine) (lo1 lo2 : string → LogLine)
    (ipv4 ipv6 : string) (domains : list config.Domain) (lastErr : option error)
    (w : IPWatcher St) :
  let r1 := sweep (sweep_step lf1 lo1 ipv4 ipv6) domains lastErr w in
  let r2 := sweep (sweep_step lf2 lo2 ipv4 ipv6) domains lastErr w in
  value r1 = value r2 ∧ final r1 = final r2
  ∧ filter isProviderCall (events r1) = filter isProviderCall (events r2).
Proof.
  cbv zeta. revert lastErr w. induction domains as [|d ds IH]; intros lastErr w.
  - done.
  - rewrite !sweep_cons. cbv zeta.
    assert (value (sweep_step lf1 lo1 ipv4 ipv6 lastErr d w)
            = value (sweep_step lf2 lo2 ipv4 ipv6 lastErr d w)
            ∧ final (sweep_step lf1 lo1 ipv4 ipv6 lastErr d w)
              = final (sweep_step lf2 lo2 ipv4 ipv6 lastErr d w)
            ∧ filter isProviderCall (events (sweep_step lf1 lo1 ipv4 ipv6 lastErr d w))
              = filter isProviderCall (events (sweep_step lf2 lo2 ipv4 ipv6 lastErr d w)))
      as (Hv & Hf & He).
    { rewrite !sweep_step_run. cbv zeta.
      destruct (value (getZoneID (config.ZoneName d) w)) as [zoneID [e|]]; [done |].
      destruct (value (call (EnsureDNSRecords zoneID (dnsRecordsOf d) ipv4 ipv6)
                         (final (getZoneID (config.ZoneName d) w)))) as [e|];
        rewrite !run_value, !run_final, !run_events, !filter_app; done. }
    rewrite Hv, Hf. destruct (IH (value (sweep_step lf2 lo2 ipv4 ipv6 lastErr d w))
                                 (final (sweep_step lf2 lo2 ipv4 ipv6 lastErr d w)))
      as (IHv & IHf & IHe).
    rewrite !run_value, !run_final, !run_events.
    split; [done |]. split; [done |]. by rewrite !filter_app, He, IHe.
Qed.
End sweep_bounds.

Section sweep_extras.
Import dnsmanager spec ipwatcher.
Context {St : Type} `{client : !CloudflareClient St}.

(** Both sweeps as the loop they run; the line [verifyDNSRecords] logs
    first is no call. *)
Lemma both_sweeps (P : option error * IPWatcher St * list Event → Prop) (w : IPWatcher St) :
  (∀ lf lo, P (sweep (sweep_step lf lo (loadString (currentIPv4 w))
                        (loadString (currentIPv6 w)))
                 (config.Domains (config_ w)) None w)) →
  (∀ r, P r → P (value r, final r, Log LogVerifying :: events r)) →
  Forall P [updateAllDNSRecords w; verifyDNSRecords w].
Proof.
  intros Hsweep Hlog. apply Forall_cons_2; [| apply Forall_cons_2; [| apply Forall_nil_2]].
  - rewrite updateAllDNSRecords_run. apply Hsweep.
  - rewrite verifyDNSRecords_run. cbv zeta. apply Hlog, Hsweep.
Qed.

(** X13. Across a sweep, by [updateAllDNSRecords] or by
    [verifyDNSRecords], the zone cache only grows, and the provider is
    asked for a zone at most once for each configured domain whose
    zone was not in the cache when the sweep began; when every
    configured zone is in the cache, a sweep makes no zone listing at
    all. *)
Theorem sweep_zone_lookups (w : IPWatcher St) :
  Forall
    (λ r,
       zoneCache w ⊆ zoneCache (final r)
       ∧ (length (filter isListZones (events r))
          ≤ length (filter (λ d, zoneCache w !! config.ZoneName d = None)
                           (config.Domains (config_ w))))%nat
       ∧ (Forall (λ d, is_Some (zoneCache w !! config.ZoneName d))
                 (config.Domains (config_ w)) →
          filter isListZones (events r) = []))
    [updateAllDNSRecords w; verifyDNSRecords w].
Proof.
  apply both_sweeps.
  - intros lf lo.
    destruct (sweep_calls lf lo (loadString (currentIPv4 w)) (loadString (currentIPv6 w))
                (config.Domains (config_ w)) None w) as (H1 & H2 & _).
    split; [done |]. split; [done |]. apply sweep_cached.
  - intros r (H1 & H2 & H3). rewrite run_final, run_events. done.
Qed.

(** X14. The two sweeps differ in what they log and in nothing else:
    from the same state, [verifyDNSRecords] and [updateAllDNSRecords]
    return the same error, leave the watcher and the provider in the
    same state, and make the same provider calls in the same order. *)
Theorem verify_is_update (w : IPWatcher St) :
  value (verifyDNSRecords w) = value (updateAllDNSRecords w)
  ∧ final (verifyDNSRecords w) = final (updateAllDNSRecords w)
  ∧ filter isProviderCall (events (verifyDNSRecords w))
    = filter isProviderCall (events (updateAllDNSRecords w)).
Proof.
  rewrite updateAllDNSRecords_run, verifyDNSRecords_run. cbv zeta.
  rewrite run_value, run_final, run_events.
  destruct (sweep_same_calls LogVerifyFailed LogEnsureFailed LogUpToDate LogUpdated
              (loadString (currentIPv4 w)) (loadString (currentIPv6 w))
              (config.Domains (config_ w)) None w) as (Hv & Hf & He).
  done.
Qed.

(** X15. What a sweep does not do. It makes at most one record listing
    and at most one batch write for each configured domain, it never
    deletes a record and never looks up an address, and it leaves the
    configuration, the two stored addresses and the two tickers as
    they were. *)
Theorem sweep_call_bounds (w : IPWatcher St) :
  Forall
    (λ r,
       (length (filter isListDNSRecords (events r))
        ≤ length (config.Domains (config_ w)))%nat
       ∧ (length (filter isBatchWrite (events r))
          ≤ length (config.Domains (config_ w)))%nat
       ∧ filter isDelete (events r) = []
       ∧ filter isHTTPGet (events r) = []
       ∧ sameLocal w (final r))
    [updateAllDNSRecords w; verifyDNSRecords w].
Proof.
  apply both_sweeps.
  - intros lf lo.
    destruct (sweep_calls lf lo (loadString (currentIPv4 w)) (loadString (currentIPv6 w))
                (config.Domains (config_ w)) None w) as (_ & _ & H3 & H4 & H5 & H6).
    assert (final (sweep (sweep_step lf lo (loadString (currentIPv4 w))
                            (loadString (currentIPv6 w)))
                     (config.Domains (config_ w)) None w)
            = final (updateAllDNSRecords w)) as Hfin.
    { rewrite updateAllDNSRecords_run.
      by destruct (sweep_same_calls lf LogEnsureFailed lo LogUpdated
                     (loadString (currentIPv4 w)) (loadString (currentIPv6 w))
                     (config.Domains (config_ w)) None w) as (_ & ? & _). }
    rewrite Hfin. destruct (updateAllDNSRecords_frame w) as [Hloc _]. done.
  - intros r (H1 & H2 & H3 & H4 & H5). rewrite run_final, run_events. done.
Qed.
End sweep_extras.

(** ** The first pass *)

Section first_pass.
Import dnsmanager spec ipwatcher.
Context {St : Type} `{client : !CloudflareClient St} `{rt : !GoRuntime St}.

Lemma fetchAndUpdateIPs_run (w : IPWatcher St) :
  let r4 := ipfetcher.GetIPv4 (outside w) in
  let r6 := ipfetcher.GetIPv6 (final r4) in
  let supports := config.SupportsIPv6 (config_ w) in
  let w1 := afterInitialFetch w (value r4) (value r6)
              (if supports then final r6 else final r4) in
  let ru := updateAllDNSRecords w1 in
  fetchAndUpdateIPs w
  = (value ru, final ru,
     (events r4 ++ [fetchLine4 (value r4)]
      ++ (if supports then events r6 ++ [fetchLine6 (value r6)] else []))
     ++ events ru).
Proof.
  cbv zeta.
  unfold fetchAndUpdateIPs, gets, call, storeIPv4, storeIPv6, modify,
    afterInitialFetch, fetchLine4, fetchLine6.
  unfold value, final, events. unfold bind, ret, logPrint, emit. simpl.
  destruct (ipfetcher.GetIPv4 (outside w)) as [[[ip4 [e4|]] st1] t4]; simpl;
    (destruct (config.SupportsIPv6 (config_ w)); simpl;
     [destruct (ipfetcher.GetIPv6 st1) as [[[ip6 [e6|]] st2] t6]; simpl |]);
    match goal with
    | |- context [updateAllDNSRecords ?w'] =>
        destruct (updateAllDNSRecords w') as [[e w3] tu]
    end; simpl; rewrite ?app_nil_r, <- ?app_assoc; simpl;
    rewrite <- ?app_assoc; simpl; done.
Qed.

(** X16. The first pass, [fetchAndUpdateIPs]: an address is stored
    whenever its lookup succeeds, equal to the stored one or not, and
    is left alone when the lookup fails or, for IPv6, is switched off;
    the sweep over the domains always follows, even when both lookups
    fail, starts only after the stores, and its result is the result
    of the pass. *)
Theorem fetchAndUpdateIPs_pass (w : IPWatcher St) :
  let r4 := ipfetcher.GetIPv4 (outside w) in
  let r6 := ipfetcher.GetIPv6 (final r4) in
  let supports := config.SupportsIPv6 (config_ w) in
  let r := fetchAndUpdateIPs w in
  currentIPv4 (final r)
    = (match value r4 with (ip, None) => Some ip | _ => currentIPv4 w end)
  ∧ currentIPv6 (final r)
    = (if supports
       then match value r6 with (ip, None) => Some ip | _ => currentIPv6 w end
       else currentIPv6 w)
  ∧ ∃ w1 before,
      r = (value (updateAllDNSRecords w1), final (updateAllDNSRecords w1),
           before ++ events (updateAllDNSRecords w1))
      ∧ currentIPv4 w1 = currentIPv4 (final r)
      ∧ currentIPv6 w1 = currentIPv6 (final r)
      ∧ zoneCache w1 = zoneCache w
      ∧ Forall (λ e, isProviderCall e = false) before.
Proof.
  cbv zeta. rewrite fetchAndUpdateIPs_run. cbv zeta.
  set (w1 := afterInitialFetch w _ _ _).
  destruct (updateAllDNSRecords_frame w1) as [(_ & H4 & H6 & _ & _) _].
  rewrite run_final, H4, H6.
  split; [done |]. split; [done |].
  eexists w1, _. split; [done |]. split; [done |]. split; [done |]. split; [done |].
  apply Forall_app_2; [apply fetch_event_no_call, fetchIP_events |].
  apply Forall_cons_2; [by destruct (value (ipfetcher.GetIPv4 (outside w))) as [? [?|]] |].
  destruct (config.SupportsIPv6 (config_ w)); [| apply Forall_nil_2].
  apply Forall_app_2; [apply fetch_event_no_call, fetchIP_events |].
  apply Forall_cons_2; [| apply Forall_nil_2].
  by destruct (value (ipfetcher.GetIPv6 _)) as [? [?|]].
Qed.
End first_pass.

(** ** The loop of the daemon *)

Section daemon_loop.
Import dnsmanager spec ipwatcher.
Context {St : Type} `{client : !CloudflareClient St} `{rt : !GoRuntime St}.

Lemma Run_turn_sync (w : IPWatcher St) :
  is_Some (refreshTicker w) → is_Some (syncTicker w) →
  Run_turn SyncTick w =
  let r := verifyDNSRecords (afterSyncTick w) in
  (None, final r,
   events r ++ match value r with
               | Some e => [Log (LogVerifyError e)]
               | None => []
               end).
Proof.
  intros [tr Hr] [ts Hs].
  unfold Run_turn, gets, setSyncTicker, modify, afterSyncTick. go_goal.
  rewrite Hr, Hs. simpl. rewrite ?Hr, ?Hs. simpl.
  destruct (verifyDNSRecords _) as [[[e|] w1] t]; simpl; by rewrite ?app_nil_r.
Qed.

Lemma Run_turn_done (err : error) (w : IPWatcher St) :
  is_Some (refreshTicker w) → is_Some (syncTicker w) →
  Run_turn (CtxDone err) w = (Some (Returned err), w, [Log LogShuttingDown]).
Proof.
  intros [tr Hr] [ts Hs]. unfold Run_turn, gets. go_goal. by rewrite Hr, Hs.
Qed.

(** Where a turn of the loop leaves the watcher. *)
Lemma Run_turn_final (c : SelectCase) (w : IPWatcher St) :
  final (Run_turn c w) = w
  ∨ final (Run_turn c w) = final (checkAndUpdateIP (afterRefreshTick w))
  ∨ final (Run_turn c w) = final (verifyDNSRecords (afterSyncTick w)).
Proof.
  destruct (refreshTicker w) as [tr|] eqn:Hr;
    [| left; rewrite Run_turn_nil by auto; done].
  destruct (syncTicker w) as [ts|] eqn:Hs;
    [| left; rewrite Run_turn_nil by auto; done].
  destruct c.
  - left. by rewrite Run_turn_done by (by eexists).
  - right. left. by rewrite Run_turn_refresh by (by eexists).
  - right. right. by rewrite Run_turn_sync by (by eexists).
Qed.

(** With both tickers made and a positive verify period, a turn for a
    tick does not end the loop, and leaves the tickers made and the
    configuration as it was. *)
Lemma Run_turn_goes_on (c : SelectCase) (w : IPWatcher St) :
  isDone c = false →
  is_Some (refreshTicker w) → is_Some (syncTicker w) →
  (0 < syncInterval (config_ w))%Z →
  value (Run_turn c w) = None
  ∧ is_Some (refreshTicker (final (Run_turn c w)))
  ∧ is_Some (syncTicker (final (Run_turn c w)))
  ∧ config_ (final (Run_turn c w)) = config_ w.
Proof.
  intros Hc Hr Hs Hpos. destruct c; [done | |].
  - rewrite Run_turn_refresh by done. cbv zeta. rewrite run_value, run_final.
    destruct Hs as [ts Hs].
    assert (syncTicker (afterRefreshTick w) = Some ts) as Hs' by done.
    pose proof (checkAndUpdateIP_made (afterRefreshTick w) (ex_intro _ ts Hs')) as Hrun.
    pose proof (checkAndUpdateIP_syncTicker (afterRefreshTick w) ts Hs') as Hsync.
    destruct (checkAndUpdateIP_stored (afterRefreshTick w)) as (Hcfg & _ & _ & Hrt).
    cbv zeta in Hrun, Hsync, Hcfg, Hrt.
    assert (config_ (afterRefreshTick w) = config_ w) as Hcw by done.
    rewrite Hcw in Hrun, Hsync, Hcfg.
    rewrite (bool_decide_eq_true_2 _ Hpos) in Hrun, Hsync.
    split; [| split; [| split; [| done]]].
    + rewrite Hrun. clear Hrun Hsync. by case_bool_decide.
    + rewrite Hrt. unfold afterRefreshTick. simpl. by destruct Hr as [tr ->].
    + rewrite Hsync. clear Hrun Hsync. by case_bool_decide.
  - rewrite Run_turn_sync by done. cbv zeta. rewrite run_value, run_final.
    destruct (verifyDNSRecords_frame (afterSyncTick w)) as [(Hcfg & _ & _ & Hrt & Hst) _].
    rewrite Hcfg, Hrt, Hst. unfold afterSyncTick. simpl.
    split; [done |]. split; [done |]. split; [| done]. by destruct Hs as [ts ->].
Qed.

Lemma Run_loop_cons (c : SelectCase) (cases : list SelectCase) (w : IPWatcher St) :
  Run_loop (c :: cases) w =
  let r := Run_turn c w in
  match value r with
  | Some o => (Some o, final r, events r)
  | None =>
      let rl := Run_loop cases (final r) in
      (value rl, final rl, events r ++ events rl)
  end.
Proof.
  simpl. unfold bind, value, final, events.
  destruct (Run_turn c w) as [[[o|] w1] t1]; simpl.
  - by rewrite app_nil_r.
  - by destruct (Run_loop cases w1) as [[? ?] ?].
Qed.

(** The loop from a watcher with both tickers made and a positive
    verify period: it goes on through the ticks and ends at the first
    cancelled context. *)
Lemma Run_loop_until_done (before after : list SelectCase) (err : error)
    (w : IPWatcher St) :
  Forall (λ c, isDone c = false) before →
  is_Some (refreshTicker w) → is_Some (syncTicker w) →
  (0 < syncInterval (config_ w))%Z →
  Run_loop (before ++ CtxDone err :: after) w
  = (Some (Returned err), final (Run_loop before w),
     events (Run_loop before w) ++ [Log LogShuttingDown])
  ∧ value (Run_loop before w) = None.
Proof.
  intros Hbefore. revert w.
  induction Hbefore as [|c cs Hc _ IH]; intros w Hr Hs Hpos.
  - split; [| done]. by rewrite app_nil_l, Run_loop_cons, Run_turn_done.
  - rewrite <- app_comm_cons, !Run_loop_cons. cbv zeta.
    destruct (Run_turn_goes_on c w Hc Hr Hs Hpos) as (-> & Hr' & Hs' & Hcfg).
    destruct (IH (final (Run_turn c w)) Hr' Hs') as [-> ->]; [by rewrite Hcfg |].
    rewrite !run_value, !run_final, !run_events. by rewrite app_assoc.
Qed.

(** X17. [Run] ends on cancellation, and otherwise only by a panic
    before its loop. When both periods of the configuration are
    positive: along the cases its [select] takes, [Run] stops at the
    first cancelled context, logs the shutdown and returns that
    context's error, whatever its first pass, the polls and the
    sweeps returned; the cases after it are never run; and as long
    as no context is cancelled it goes on. When a period is not
    positive, [Run] panics after its first pass, before any case of
    the [select] is taken. *)
Theorem Run_ends_on_cancellation (before after : list SelectCase) (err : error)
    (w : IPWatcher St) :
  Forall (λ c, isDone c = false) before →
  (positivePeriods (config_ w) →
   value (Run (before ++ CtxDone err :: after) w) = Some (Returned err)
   ∧ value (Run before w) = None
   ∧ final (Run (before ++ CtxDone err :: after) w) = final (Run before w)
   ∧ events (Run (before ++ CtxDone err :: after) w)
     = events (Run before w) ++ [Log LogShuttingDown])
  ∧ (¬ positivePeriods (config_ w) →
     ∀ cases,
       value (Run cases w) = Some (Panicked NonPositiveInterval)
       ∧ events (Run cases w)
         = Log LogStarting
           :: events (fetchAndUpdateIPs w)
              ++ match value (fetchAndUpdateIPs w) with
                 | Some e => [Log (LogInitialFetchFailed e)]
                 | None => []
                 end).
Proof.
  intros Hbefore. split.
  - intros [Hr Hs]. rewrite !Run_run. cbv zeta.
    rewrite <- refreshInterval_refreshPeriod in Hr.
    rewrite <- syncInterval_verifyPeriod in Hs.
    rewrite !(bool_decide_eq_false_2 (refreshInterval (config_ w) ≤ 0)%Z) by lia.
    rewrite !(bool_decide_eq_false_2 (syncInterval (config_ w) ≤ 0)%Z) by lia.
    rewrite !run_value, !run_final, !run_events.
    destruct (Run_loop_until_done before after err
                (armed (final (fetchAndUpdateIPs w))) Hbefore) as [-> ->];
      [by eexists | by eexists | |].
    { simpl. by rewrite (keepsConfig_fetchAndUpdateIPs w). }
    rewrite !run_value, !run_final, !run_events.
    split; [done |]. split; [done |]. split; [done |].
    by rewrite !app_comm_cons, <- !app_assoc.
  - intros Hneg cases. rewrite Run_run. cbv zeta.
    destruct (decide (refreshInterval (config_ w) ≤ 0)%Z) as [Hr | Hr].
    { by rewrite (bool_decide_eq_true_2 _ Hr). }
    rewrite (bool_decide_eq_false_2 _ Hr).
    destruct (decide (syncInterval (config_ w) ≤ 0)%Z) as [Hs | Hs].
    { by rewrite (bool_decide_eq_true_2 _ Hs). }
    exfalso. apply Hneg. unfold positivePeriods.
    rewrite <- refreshInterval_refreshPeriod, <- syncInterval_verifyPeriod. lia.
Qed.
End daemon_loop.

Lemma Run_ends_on_cancellation_witness :
  value (@ipwatcher.Run example.World example.memoryProvider
           (example.tickingNet "2.2.2.2")
           ([ipwatcher.RefreshTick; ipwatcher.SyncTick]
              ++ ipwatcher.CtxDone (External "context canceled")
              :: [ipwatcher.RefreshTick])
           (example.tickingWatcher "1.1.1.1"))
  = Some (Returned (External "context canceled")).
Proof.
  pose proof (@Run_ends_on_cancellation example.World example.memoryProvider
    (example.tickingNet "2.2.2.2") [ipwatcher.RefreshTick; ipwatcher.SyncTick]
    [ipwatcher.RefreshTick] (External "context canceled")
    (example.tickingWatcher "1.1.1.1")) as H.
  destruct H as [H _].
  - apply Forall_cons_2; [done |]. apply Forall_cons_2; [done |]. apply Forall_nil_2.
  - destruct H as (H & _); [split; reflexivity | exact H].
Defined.

(** A refresh rate whose interval comes to zero: [Run] makes its
    first pass and panics when it makes the refresh ticker, whatever
    the [select] would have taken. *)
Example Run_panics_on_zero_interval :
  let r := @ipwatcher.Run example.World example.memoryProvider
             (example.tickingNet "2.2.2.2")
             [ipwatcher.CtxDone (External "context canceled")]
             (ipwatcher.NewIPWatcher example.hasty
                {| example.clock := 0; example.held := [example.apexOld];
                   example.made := 0 |}) in
  value r = Some (Panicked NonPositiveInterval)
  ∧ ipwatcher.refreshTicker (final r) = None
  ∧ ipwatcher.syncTicker (final r) = None
  ∧ last (events r) = Some (Log (LogUpdated "example.com"))
  ∧ Log LogIntervals ∉ events r.
Proof.
  vm_compute. repeat split; try done.
  intros Hin. repeat (apply elem_of_cons in Hin as [Hin | Hin]; [discriminate |]).
  by apply elem_of_nil in Hin.
Qed.

(** ** An invariant of the stored addresses *)

Section stored_addresses.
Import dnsmanager spec ipwatcher.
Context {St : Type} `{client : !CloudflareClient St} `{rt : !GoRuntime St}.

Lemma sameLocal_storedNonEmpty (w w' : IPWatcher St) :
  sameLocal w w' → storedNonEmpty w → storedNonEmpty w'.
Proof. intros (_ & H4 & H6 & _) [? ?]. unfold storedNonEmpty. by rewrite H4, H6. Qed.

Lemma preserves_updateAllDNSRecords : preserves storedNonEmpty updateAllDNSRecords.
Proof.
  intros w. apply sameLocal_storedNonEmpty.
  by destruct (updateAllDNSRecords_frame w).
Qed.

Lemma preserves_verifyDNSRecords : preserves storedNonEmpty verifyDNSRecords.
Proof.
  intros w. apply sameLocal_storedNonEmpty.
  by destruct (verifyDNSRecords_frame w).
Qed.

Lemma preserves_fetchAndUpdateIPs : preserves storedNonEmpty fetchAndUpdateIPs.
Proof.
  intros w [H4 H6]. rewrite fetchAndUpdateIPs_run. cbv zeta. rewrite run_final.
  apply preserves_updateAllDNSRecords.
  pose proof (fetchIP_shape ipfetcher.ipv4URL (outside w)) as Hs4.
  pose proof (fetchIP_shape ipfetcher.ipv6URL (final (ipfetcher.GetIPv4 (outside w))))
    as Hs6.
  unfold afterInitialFetch, storedNonEmpty, ipfetcher.GetIPv4, ipfetcher.GetIPv6. simpl.
  destruct (value (ipfetcher.fetchIP ipfetcher.ipv4URL (outside w))) as [ip4 [e4|]];
    destruct (value (ipfetcher.fetchIP ipfetcher.ipv6URL _)) as [ip6 [e6|]];
    destruct (config.SupportsIPv6 (config_ w)); simpl; split; congruence.
Qed.

Lemma preserves_checkAndUpdateIP : preserves storedNonEmpty checkAndUpdateIP.
Proof.
  intros w [H4 H6].
  destruct (checkAndUpdateIP_stored w) as (_ & Hf4 & Hf6 & _). cbv zeta in Hf4, Hf6.
  unfold storedNonEmpty. rewrite Hf4, Hf6. clear Hf4 Hf6.
  split; case_decide as Hch; try done; destruct Hch as [Hne _]; congruence.
Qed.

Lemma preserves_Run_turn (c : SelectCase) : preserves storedNonEmpty (Run_turn c).
Proof.
  intros w Hw. destruct (Run_turn_final c w) as [H | [H | H]]; rewrite H.
  - done.
  - by apply preserves_checkAndUpdateIP.
  - by apply preserves_verifyDNSRecords.
Qed.

Lemma preserves_Run_loop (cases : list SelectCase) :
  preserves storedNonEmpty (Run_loop cases).
Proof.
  induction cases as [|c cases IH]; intros w Hw; [done |].
  rewrite Run_loop_cons. cbv zeta.
  pose proof (preserves_Run_turn c w Hw) as Hturn.
  destruct (value (Run_turn c w)); rewrite run_final; [done |]. by apply IH.
Qed.

Lemma preserves_Run (cases : list SelectCase) : preserves storedNonEmpty (Run cases).
Proof.
  intros w Hw. apply (preserves_fetchAndUpdateIPs w) in Hw.
  rewrite Run_run. cbv zeta.
  repeat case_bool_decide; rewrite run_final; [done | done |].
  by apply preserves_Run_loop.
Qed.

(** X18. No stored address is ever the empty string. The first pass,
    a poll, both sweeps, every turn of the loop and [Run] itself keep
    this, whether they return or panic; a new watcher has it, with
    nothing stored; so along any run of the daemon the address handed
    to the reconciler is empty only when no lookup of that family has
    succeeded yet. *)
Theorem stored_addresses_never_empty (w : IPWatcher St) (cfg : config.Config) (st : St)
    (cases : list SelectCase) :
  storedNonEmpty (NewIPWatcher cfg st)
  ∧ storedNonEmpty (final (Run cases (NewIPWatcher cfg st)))
  ∧ (storedNonEmpty w →
     Forall (λ r, storedNonEmpty (final r))
       [effect (fetchAndUpdateIPs w); effect (checkAndUpdateIP w);
        effect (updateAllDNSRecords w); effect (verifyDNSRecords w);
        effect (Run_loop cases w); effect (Run cases w)]
     ∧ (loadString (currentIPv4 w) = "" ↔ currentIPv4 w = None)
     ∧ (loadString (currentIPv6 w) = "" ↔ currentIPv6 w = None)).
Proof.
  assert (storedNonEmpty (NewIPWatcher cfg st)) as Hnew by (by split).
  split; [done |]. split; [by apply preserves_Run |]. intros Hw. split.
  - repeat apply Forall_cons_2; try apply Forall_nil_2; rewrite final_effect.
    + by apply preserves_fetchAndUpdateIPs.
    + by apply preserves_checkAndUpdateIP.
    + by apply preserves_updateAllDNSRecords.
    + by apply preserves_verifyDNSRecords.
    + by apply preserves_Run_loop.
    + by apply preserves_Run.
  - destruct Hw as [H4 H6]. split.
    + destruct (currentIPv4 w) as [ip|]; simpl; split; congruence.
    + destruct (currentIPv6 w) as [ip|]; simpl; split; congruence.
Qed.
End stored_addresses.

(** ** The lookups of a pass *)

Section lookups.
Import dnsmanager spec ipwatcher.
Context {St : Type} `{client : !CloudflareClient St} `{rt : !GoRuntime St}.

Lemma fetchIP_gets (url : string) (st : St) :
  events (ipfetcher.fetchIP url st) = []
  ∨ events (ipfetcher.fetchIP url st) = [CallHTTPGet url].
Proof.
  unfold ipfetcher.fetchIP, ipfetcher.callDo. go_goal.
  destruct (NewRequestWithContext http.MethodGet url) as [e|]; simpl; [by left |].
  right. destruct (Do url st) as [[resp [e|]] st1]; simpl; [done |].
  case_bool_decide; simpl; [done |].
  destruct (http.Body resp) as [body [e|]]; simpl; [done |].
  by case_bool_decide.
Qed.

Lemma updateAllDNSRecords_no_get (w : IPWatcher St) :
  filter isHTTPGet (events (updateAllDNSRecords w)) = [].
Proof.
  rewrite updateAllDNSRecords_run.
  by destruct (sweep_calls LogEnsureFailed LogUpdated (loadString (currentIPv4 w))
                 (loadString (currentIPv6 w)) (config.Domains (config_ w)) None w)
    as (_ & _ & _ & _ & _ & ?).
Qed.

Lemma fetchNewIPs_gets (w : IPWatcher St) :
  filter isHTTPGet (events (fetchNewIPs w))
  = filter isHTTPGet (events (ipfetcher.GetIPv4 (outside w)))
    ++ (if config.SupportsIPv6 (config_ w)
        then filter isHTTPGet
               (events (ipfetcher.GetIPv6 (final (ipfetcher.GetIPv4 (outside w)))))
        else []).
Proof.
  unfold fetchNewIPs, gets, call, ipfetcher.GetIPv4, ipfetcher.GetIPv6. go_goal.
  destruct (ipfetcher.fetchIP ipfetcher.ipv4URL (outside w)) as [[[ip4 err4] st1] t4].
  simpl.
  destruct err4 as [e4|]; simpl;
    (destruct (config.SupportsIPv6 (config_ w)); simpl;
     [ destruct (ipfetcher.fetchIP ipfetcher.ipv6URL st1) as [[[ip6 [e6|]] st2] t6];
       simpl
     | ]);
    rewrite ?app_nil_r; repeat (rewrite ?filter_app, ?filter_cons, ?filter_nil; simpl);
    by rewrite ?app_nil_r.
Qed.

Lemma changeLines_no_get (old4 old6 new4 new6 : string) :
  filter isHTTPGet (changeLines old4 old6 new4 new6) = [].
Proof.
  unfold changeLines.
  by destruct (decide (changed new4 old4)), (decide (changed new6 old6)).
Qed.

(** X19. The lookups of a pass. The first pass and a poll each look up
    the IPv4 address and then, only if the configuration has IPv6, the
    IPv6 address: at most two requests, none of them made by the
    sweep. With IPv6 off, no request goes to the IPv6 endpoint and the
    stored IPv6 address is left as it was. *)
Theorem pass_lookups (w : IPWatcher St) :
  let r4 := ipfetcher.GetIPv4 (outside w) in
  let r6 := ipfetcher.GetIPv6 (final r4) in
  let supports := config.SupportsIPv6 (config_ w) in
  Forall
    (λ r,
       filter isHTTPGet (events r)
       = filter isHTTPGet (events r4)
         ++ (if supports then filter isHTTPGet (events r6) else [])
       ∧ (length (filter isHTTPGet (events r)) ≤ 2)%nat
       ∧ (supports = false →
          (∀ u, CallHTTPGet u ∈ events r → u = ipfetcher.ipv4URL)
          ∧ currentIPv6 (final r) = currentIPv6 w))
    [effect (fetchAndUpdateIPs w); effect (checkAndUpdateIP w)].
Proof.
  cbv zeta.
  set (r4 := ipfetcher.GetIPv4 (outside w)).
  set (r6 := ipfetcher.GetIPv6 (final r4)).
  assert (∀ t,
    filter isHTTPGet t
    = filter isHTTPGet (events r4)
      ++ (if config.SupportsIPv6 (config_ w) then filter isHTTPGet (events r6) else []) →
    (length (filter isHTTPGet t) ≤ 2)%nat
    ∧ (config.SupportsIPv6 (config_ w) = false →
       ∀ u, CallHTTPGet u ∈ t → u = ipfetcher.ipv4URL)) as Hshape.
  { intros t Ht. split.
    - rewrite Ht, length_app. subst r6 r4. unfold ipfetcher.GetIPv4, ipfetcher.GetIPv6.
      destruct (fetchIP_gets ipfetcher.ipv4URL (outside w)) as [-> | ->];
        destruct (config.SupportsIPv6 (config_ w)); simpl; try lia;
        by destruct (fetchIP_gets ipfetcher.ipv6URL
                       (final (ipfetcher.fetchIP ipfetcher.ipv4URL (outside w))))
          as [-> | ->]; simpl; lia.
    - intros Hoff u Hin.
      assert (CallHTTPGet u ∈ filter isHTTPGet t) as Hin'
        by (by apply list_elem_of_filter).
      rewrite Ht, Hoff, app_nil_r in Hin'.
      apply list_elem_of_filter in Hin' as [_ Hin'].
      subst r6 r4. unfold ipfetcher.GetIPv4 in Hin'.
      destruct (fetchIP_gets ipfetcher.ipv4URL (outside w)) as [Hev | Hev];
        rewrite Hev in Hin'; [by apply elem_of_nil in Hin' |].
      apply list_elem_of_singleton in Hin'. by injection Hin'. }
  apply Forall_cons_2; [| apply Forall_cons_2; [| apply Forall_nil_2]];
    rewrite final_effect, events_effect.
  - assert (filter isHTTPGet (events (fetchAndUpdateIPs w))
            = filter isHTTPGet (events r4)
              ++ (if config.SupportsIPv6 (config_ w)
                  then filter isHTTPGet (events r6) else [])) as Hget.
    { rewrite fetchAndUpdateIPs_run. cbv zeta. rewrite run_events.
      rewrite !filter_app, updateAllDNSRecords_no_get, app_nil_r. fold r4 r6.
      destruct (config.SupportsIPv6 (config_ w));
        destruct (value r4) as [? [?|]]; simpl; rewrite ?filter_app; simpl;
        try (destruct (value r6) as [? [?|]]; simpl); by rewrite ?app_nil_r. }
    destruct (Hshape _ Hget) as [Hlen Hurl].
    split; [done |]. split; [done |]. intros Hoff. split; [by apply Hurl |].
    rewrite fetchAndUpdateIPs_run. cbv zeta. rewrite run_final.
    destruct (updateAllDNSRecords_frame
                (afterInitialFetch w (value (ipfetcher.GetIPv4 (outside w)))
                   (value (ipfetcher.GetIPv6 (final (ipfetcher.GetIPv4 (outside w)))))
                   (if config.SupportsIPv6 (config_ w)
                    then final (ipfetcher.GetIPv6 (final (ipfetcher.GetIPv4 (outside w))))
                    else final (ipfetcher.GetIPv4 (outside w)))))
      as [(_ & _ & H6 & _) _].
    rewrite H6. unfold afterInitialFetch. simpl. by rewrite Hoff.
  - assert (filter isHTTPGet (events (checkAndUpdateIP w))
            = filter isHTTPGet (events r4)
              ++ (if config.SupportsIPv6 (config_ w)
                  then filter isHTTPGet (events r6) else [])) as Hget.
    { rewrite checkAndUpdateIP_run. cbv zeta. case_bool_decide.
      - destruct (time.Reset _ _ _) as [t'|p];
          rewrite run_events, !filter_app, changeLines_no_get,
                  ?updateAllDNSRecords_no_get, !app_nil_r;
          apply fetchNewIPs_gets.
      - rewrite run_events. apply fetchNewIPs_gets. }
    destruct (Hshape _ Hget) as [Hlen Hurl].
    split; [done |]. split; [done |]. intros Hoff. split; [by apply Hurl |].
    destruct (fetchNewIPs_run w) as (_ & _ & _ & _ & Hn6 & _).
    cbv zeta in Hn6. rewrite Hoff in Hn6.
    destruct (checkAndUpdateIP_stored w) as (_ & _ & Hf6 & _). cbv zeta in Hf6.
    rewrite Hf6, Hn6. rewrite decide_False; [done |]. by intros [? _].
Qed.
End lookups.

(** ** Before any address is known *)

Section no_address.
Import dnsmanager spec ipwatcher.
Context {St : Type} `{client : !CloudflareClient St} `{rt : !GoRuntime St}.

Lemma EnsureDNSRecords_no_write (zoneID : string) (records : list DNSRecord) (st : St) :
  Forall (λ d, isKind (Type_ d)) records →
  filter isBatchWrite (events (EnsureDNSRecords zoneID records "" "" st)) = [].
Proof.
  intros Hkinds.
  assert (∀ existingRecords, plan existingRecords records "" "" = ([], [])) as Hplan.
  { intros existingRecords. apply plan_empty_iff. intros d Hd Hs. exfalso.
    rewrite Forall_forall in Hkinds. destruct (Hkinds d Hd) as [Ht | Ht].
    - by rewrite skipped_A in Hs.
    - by rewrite skipped_AAAA in Hs. }
  rewrite EnsureDNSRecords_run. unfold events.
  destruct (ListDNSRecords _ st) as [[existingRecords [e|]] st1]; simpl; [done |].
  by rewrite Hplan.
Qed.

Lemma dnsRecordsOf_kinds (domain : config.Domain) :
  Forall (λ r, isKind (config.Type_ r)) (config.Records domain) →
  Forall (λ d, isKind (Type_ d)) (dnsRecordsOf domain).
Proof. intros H. unfold dnsRecordsOf. by apply Forall_map. Qed.

Lemma sweep_no_write (logFailed : string → error → LogLine) (logOk : string → LogLine)
    (domains : list config.Domain) (lastErr : option error) (w : IPWatcher St) :
  Forall (λ d, Forall (λ r, isKind (config.Type_ r)) (config.Records d)) domains →
  filter isBatchWrite
    (events (sweep (sweep_step logFailed logOk "" "") domains lastErr w)) = [].
Proof.
  intros Hkinds. revert lastErr w.
  induction Hkinds as [|d ds Hd Hds IH]; intros lastErr w; [done |].
  rewrite sweep_cons. cbv zeta. rewrite run_events, filter_app, IH, app_nil_r.
  rewrite sweep_step_run. cbv zeta.
  assert (filter isBatchWrite (events (getZoneID (config.ZoneName d) w)) = []) as Hz.
  { destruct (getZoneID_cases (config.ZoneName d) w)
      as [(zID & _ & Hrun) | (_ & Hev & _)]; [by rewrite Hrun | by rewrite Hev]. }
  destruct (value (getZoneID (config.ZoneName d) w)) as [zoneID [e|]].
  { by rewrite run_events, filter_app, Hz. }
  assert (filter isBatchWrite
            (events (call (EnsureDNSRecords zoneID (dnsRecordsOf d) "" "")
                       (final (getZoneID (config.ZoneName d) w)))) = []) as He.
  { pose proof (EnsureDNSRecords_no_write zoneID (dnsRecordsOf d)
                  (outside (final (getZoneID (config.ZoneName d) w)))
                  (dnsRecordsOf_kinds d Hd)) as Hn.
    unfold call, events in Hn |- *.
    by destruct (EnsureDNSRecords zoneID (dnsRecordsOf d) "" "" _) as [[? ?] ?]. }
  destruct (value (call _ _)) as [e|]; by rewrite run_events, !filter_app, Hz, He.
Qed.

Lemma fetch_events_no_write (t : list Event) :
  Forall isFetchEvent t → filter isBatchWrite t = [].
Proof.
  induction 1 as [|e t He _ IH]; [done |].
  rewrite filter_cons, IH. by destruct e.
Qed.

(** X20. Before any address is known. On a configuration whose records
    are all of kind A or AAAA, a watcher that holds no address writes
    nothing to the provider: neither sweep sends a batch; and if the
    IPv4 lookup fails and the IPv6 lookup fails or is off, the first
    pass and a poll send no batch either and leave the watcher without
    an address. *)
Theorem no_address_no_write (w : IPWatcher St) :
  Forall (λ d, Forall (λ r, isKind (config.Type_ r)) (config.Records d))
    (config.Domains (config_ w)) →
  currentIPv4 w = None → currentIPv6 w = None →
  let r4 := ipfetcher.GetIPv4 (outside w) in
  let r6 := ipfetcher.GetIPv6 (final r4) in
  Forall (λ r, filter isBatchWrite (events r) = [])
    [updateAllDNSRecords w; verifyDNSRecords w]
  ∧ ((value r4).2 ≠ None →
     (config.SupportsIPv6 (config_ w) = true → (value r6).2 ≠ None) →
     Forall (λ r, filter isBatchWrite (events r) = []
                  ∧ currentIPv4 (final r) = None
                  ∧ currentIPv6 (final r) = None)
       [effect (fetchAndUpdateIPs w); effect (checkAndUpdateIP w)]).
Proof.
  intros Hkinds H4 H6. cbv zeta.
  assert (∀ w' : IPWatcher St,
            config_ w' = config_ w → currentIPv4 w' = None → currentIPv6 w' = None →
            filter isBatchWrite (events (updateAllDNSRecords w')) = []) as Hsweep.
  { intros w' Hc H4' H6'. rewrite updateAllDNSRecords_run, H4', H6', Hc.
    by apply sweep_no_write. }
  split.
  { apply Forall_cons_2; [by apply Hsweep |]. apply Forall_cons_2; [| apply Forall_nil_2].
    rewrite verifyDNSRecords_run. cbv zeta. rewrite run_events, H4, H6, filter_cons.
    simpl. by apply sweep_no_write. }
  intros Hf4 Hf6.
  pose proof (fetchIP_events ipfetcher.ipv4URL (outside w)) as He4.
  pose proof (fetchIP_events ipfetcher.ipv6URL
                (final (ipfetcher.GetIPv4 (outside w)))) as He6.
  apply fetch_events_no_write in He4, He6.
  fold (ipfetcher.GetIPv4 (outside w)) in He4.
  fold (ipfetcher.GetIPv6 (final (ipfetcher.GetIPv4 (outside w)))) in He6.
  apply Forall_cons_2; [| apply Forall_cons_2; [| apply Forall_nil_2]];
    rewrite final_effect, events_effect.
  - rewrite fetchAndUpdateIPs_run. cbv zeta. rewrite run_events, run_final.
    set (w1 := afterInitialFetch w _ _ _).
    assert (config_ w1 = config_ w ∧ currentIPv4 w1 = None ∧ currentIPv6 w1 = None)
      as (Hc1 & H41 & H61).
    { subst w1. unfold afterInitialFetch. simpl.
      destruct (value (ipfetcher.GetIPv4 (outside w))) as [ip4 [e4|]]; [| done].
      destruct (config.SupportsIPv6 (config_ w)); [| done].
      specialize (Hf6 eq_refl).
      by destruct (value (ipfetcher.GetIPv6 _)) as [ip6 [e6|]]. }
    destruct (updateAllDNSRecords_frame w1) as [(_ & H4u & H6u & _) _].
    rewrite H4u, H6u. split; [| done].
    rewrite !filter_app, He4, (Hsweep w1 Hc1 H41 H61), app_nil_r.
    destruct (config.SupportsIPv6 (config_ w)).
    + rewrite filter_app, He6.
      destruct (value (ipfetcher.GetIPv4 (outside w))) as [? [?|]];
        by destruct (value (ipfetcher.GetIPv6 _)) as [? [?|]].
    + by destruct (value (ipfetcher.GetIPv4 (outside w))) as [? [?|]].
  - destruct (fetchNewIPs_run w) as ((_ & Hc4 & Hc6 & _) & _ & Hev & Hn4 & Hn6 & _).
    cbv zeta in Hc4, Hc6, Hev, Hn4, Hn6.
    assert ((value (fetchNewIPs w)).1 = "") as Hnew4.
    { rewrite Hn4. by apply fetchIP_error_empty. }
    assert ((value (fetchNewIPs w)).2 = "") as Hnew6.
    { rewrite Hn6. destruct (config.SupportsIPv6 (config_ w)); [| done].
      apply fetchIP_error_empty. by apply Hf6. }
    rewrite checkAndUpdateIP_run. cbv zeta. rewrite Hnew4, Hnew6.
    rewrite bool_decide_eq_false_2 by (unfold changed; intros [[? _] | [? _]]; congruence).
    rewrite run_events, run_final, Hc4, Hc6.
    split; [by apply fetch_events_no_write | done].
Qed.
End no_address.

Lemma no_address_no_write_witness :
  filter spec.isBatchWrite
    (events (@ipwatcher.fetchAndUpdateIPs unit
               (dnsmanager.mockClient (example.selective [example.apexOld]))
               example.failingNet (ipwatcher.NewIPWatcher example.twoDomains tt)))
  = [].
Proof.
  pose proof (@no_address_no_write unit
    (dnsmanager.mockClient (example.selective [example.apexOld]))
    example.failingNet (ipwatcher.NewIPWatcher example.twoDomains tt)) as H.
  destruct H as [_ H].
  - repeat (apply Forall_cons_2 || apply Forall_nil_2); by left.
  - reflexivity.
  - reflexivity.
  - apply Forall_cons_1 in H as [[H _] _]; [exact H | |].
    + vm_compute. discriminate.
    + intros Hs. vm_compute in Hs. discriminate.
Defined.
